(** * Form auto-save service: a shallow embedding and its properties

    The development follows [FormAutoSaveService] (form-autosave.service.js)
    and, of [BkjsApplication] (core/main.js), [submitForm], [showView],
    [getSession] and [getCsrfToken].  JavaScript values,
    the part of the DOM the service reads and writes, [localStorage], the
    timer queue and the scripted network are explicit state; every method
    of the service is a function on that state.

    What is abstracted:
    - time is the millisecond count of [Date.now()]; it passes only in
      [advance], one millisecond at a time, and a timer runs in the
      millisecond in which it comes due;
    - [fetch] takes its reply from a script held in the state.  Each
      function that waits for a reply is the composition of what it does
      up to that point and what it does once the reply is there; for the
      token request and the upload the two halves are definitions of
      their own ([loadCsrfToken_request] and [loadCsrfToken_reply],
      [handleFileUpload_request] and [handleFileUpload_reply]), so that
      a reply can also arrive after other things have happened on the
      page, see [happening].  The constructor does not wait for its
      token request.  A sync request is followed by its reply at once;
    - JSON text is kept as the value it denotes, see [Js.text];
    - of the DOM there are the forms with their listed controls, the
      file-name indicators and the two notice boxes of the service; for
      the application, the elements that carry an id or the class
      [alert-error], see [App.node]. *)

From Stdlib Require Import ZArith String Ascii List Bool Lia.
From stdpp Require Import base option gmap strings list pretty.
Import ListNotations.
Open Scope Z_scope.

(* ===================================================================== *)
(** ** JavaScript values, plain objects and JSON text *)
(* ===================================================================== *)

Module Js.

(** The values that flow through the service.  [Obj repr] is any
    non-primitive value (nested object, array, function) of which only
    the result of [ToString] matters here. *)
Inductive value : Type :=
| Undefined
| Null
| Bool (b : bool)
| Num (z : Z)
| Str (s : string)
| Obj (repr : string).

#[global] Instance value_eq_dec : EqDecision value.
Proof. solve_decision. Defined.

(** [if (v)], [!v], [a || b] *)
Definition truthy (v : value) : bool :=
  match v with
  | Undefined | Null => false
  | Bool b => b
  | Num z => negb (z =? 0)
  | Str s => negb (String.eqb s EmptyString)
  | Obj _ => true
  end.

Definition or_else (a b : value) : value := if truthy a then a else b.

(** [String(v)], the conversion applied when a value is assigned to
    [element.value] or passed to [getElementById]. *)
Definition to_string (v : value) : string :=
  match v with
  | Undefined => "undefined"
  | Null => "null"
  | Bool true => "true"
  | Bool false => "false"
  | Num z => pretty z
  | Str s => s
  | Obj repr => repr
  end.

(** [v === s] for a string [s]: no conversion, only a string equals a
    string. *)
Definition strict_eq_string (v : value) (s : string) : bool :=
  match v with
  | Str s' => String.eqb s' s
  | _ => false
  end.

(** A plain object: its own enumerable properties in insertion order
    (the order [JSON.stringify] prints them in; keys that are array
    indices, which JavaScript lists first, do not occur in the forms of
    this application and keep their insertion position here). *)
Definition object : Type := list (string * value).

Fixpoint own (k : string) (o : object) : option value :=
  match o with
  | [] => None
  | (k', v) :: o' => if String.eqb k' k then Some v else own k o'
  end.

Definition native (f : string) : value :=
  Obj ("function " ++ f ++ "() { [native code] }").

(** What every plain object inherits from [Object.prototype]. *)
Definition object_prototype : object :=
  [ ("constructor", native "Object");
    ("__defineGetter__", native "__defineGetter__");
    ("__defineSetter__", native "__defineSetter__");
    ("hasOwnProperty", native "hasOwnProperty");
    ("__lookupGetter__", native "__lookupGetter__");
    ("__lookupSetter__", native "__lookupSetter__");
    ("isPrototypeOf", native "isPrototypeOf");
    ("propertyIsEnumerable", native "propertyIsEnumerable");
    ("toString", native "toString");
    ("valueOf", native "valueOf");
    ("__proto__", Obj "[object Object]");
    ("toLocaleString", native "toLocaleString") ].

(** [o[k]] and [o.k] *)
Definition get (k : string) (o : object) : value :=
  match own k o with
  | Some v => v
  | None => default Undefined (own k object_prototype)
  end.

(** [k in o] *)
Definition has (k : string) (o : object) : bool :=
  bool_decide (is_Some (own k o)) || bool_decide (is_Some (own k object_prototype)).

Fixpoint replace (k : string) (v : value) (o : object) : object :=
  match o with
  | [] => []
  | (k', v') :: o' =>
      if String.eqb k' k then (k', v) :: o' else (k', v') :: replace k v o'
  end.

(** [o[k] = v].  An own property is overwritten in place, a new one is
    appended.  Writing ["__proto__"] on an object without such an own
    property reaches the accessor of [Object.prototype], which creates no
    property (and ignores primitives altogether). *)
Definition assign (k : string) (v : value) (o : object) : object :=
  match own k o with
  | Some _ => replace k v o
  | None => if String.eqb k "__proto__" then o else o ++ [(k, v)]
  end.

(** What [JSON.parse] can return: an object, or [null], a number, a
    boolean or a string at top level ([Atom]). *)
Inductive json : Type :=
| Object (o : object)
| Atom (v : value).

#[global] Instance json_eq_dec : EqDecision json.
Proof. solve_decision. Defined.

(** The strings kept in [localStorage].  JSON text is not modelled
    character by character: a string is empty, or it is JSON text
    denoting a value ([layout] tells apart the different spellings of
    one value, [0] being the one [JSON.stringify] prints), or it is text
    that [JSON.parse] rejects. *)
Inductive text : Type :=
| Empty
| Json (layout : nat) (j : json)
| Malformed (n : nat).

#[global] Instance text_eq_dec : EqDecision text.
Proof. solve_decision. Defined.

(** [JSON.stringify] leaves out properties whose value is [undefined]. *)
Definition defined_props (o : object) : object :=
  List.filter (fun kv => bool_decide (kv.2 <> Undefined)) o.

Definition stringify (o : object) : text := Json 0 (Object (defined_props o)).

(** [JSON.parse]: [None] stands for the [SyntaxError] it throws. *)
Definition parse (t : text) : option json :=
  match t with
  | Json _ j => Some j
  | Empty | Malformed _ => None
  end.

(** [!s] for a string *)
Definition is_empty (t : text) : bool :=
  match t with Empty => true | _ => false end.

End Js.

(* ===================================================================== *)
(** ** Strings: [trim] and [includes] *)
(* ===================================================================== *)

Module Str.

(** Strings hold UTF-8 text, as the string literals of this file do: a
    character outside ASCII is the sequence of its bytes. *)
Definition utf8 (bytes : list nat) : string :=
  string_of_list_ascii (map ascii_of_nat bytes).

(** The characters that [trim] strips: the WhiteSpace and LineTerminator
    characters of ECMAScript.  These are tab, line feed, vertical tab,
    form feed, carriage return and space, and then U+00A0, U+1680,
    U+2000 to U+200A, U+2028, U+2029, U+202F, U+205F, U+3000 and
    U+FEFF. *)
Definition white_space : list string :=
  map utf8
    [ [9]; [10]; [11]; [12]; [13]; [32];
      [194; 160];
      [225; 154; 128];
      [226; 128; 128]; [226; 128; 129]; [226; 128; 130]; [226; 128; 131];
      [226; 128; 132]; [226; 128; 133]; [226; 128; 134]; [226; 128; 135];
      [226; 128; 136]; [226; 128; 137]; [226; 128; 138];
      [226; 128; 168]; [226; 128; 169]; [226; 128; 175];
      [226; 129; 159];
      [227; 128; 128];
      [239; 187; 191] ]%nat.

Definition reverse (s : string) : string :=
  string_of_list_ascii (List.rev (list_ascii_of_string s)).

(** [s] without [p] at its start, when it starts with [p]. *)
Fixpoint after_prefix (p s : string) : option string :=
  match p, s with
  | EmptyString, _ => Some s
  | String a p', String b s' =>
      if Ascii.eqb a b then after_prefix p' s' else None
  | String _ _, EmptyString => None
  end.

(** [s] without the first of its characters, when that is one of
    [spaces]. *)
Fixpoint strip_one (spaces : list string) (s : string) : option string :=
  match spaces with
  | [] => None
  | sp :: spaces' =>
      match after_prefix sp s with
      | Some s' => Some s'
      | None => strip_one spaces' s
      end
  end.

(** Stripping at most [n] characters; a string has no more characters
    than bytes. *)
Fixpoint strip (spaces : list string) (n : nat) (s : string) : string :=
  match n with
  | O => s
  | S n' =>
      match strip_one spaces s with
      | Some s' => strip spaces n' s'
      | None => s
      end
  end.

Definition trim_start (s : string) : string :=
  strip white_space (String.length s) s.

(** In UTF-8 no character ends with the bytes of another one, so the
    end of the text is read off its reversal. *)
Definition trim_end (s : string) : string :=
  reverse (strip (map reverse white_space) (String.length s) (reverse s)).

(** [s.trim()] *)
Definition trim (s : string) : string := trim_end (trim_start s).

(** [s.includes(needle)] *)
Fixpoint includes (needle s : string) : bool :=
  String.prefix needle s ||
  match s with
  | EmptyString => false
  | String _ s' => includes needle s'
  end.

End Str.

(* ===================================================================== *)
(** ** The document *)
(* ===================================================================== *)

Module El.

(** A listed control of a form ([form.elements]): the properties the
    service reads and writes.  [files] holds the names of the files
    selected in a file input. *)
Record element : Type := Element {
  name : string;
  id : string;
  type : string;
  value : string;
  checked : bool;
  files : list string
}.

#[global] Instance element_eq_dec : EqDecision element.
Proof. solve_decision. Defined.

(** [element.value = s].  The control keeps the string it is given, as
    it does for a value that was read from the same control before. *)
Definition set_value (s : string) (e : element) : element :=
  Element (name e) (id e) (type e) s (checked e) (files e).

(** [element.checked = b] *)
Definition set_checked (b : bool) (e : element) : element :=
  Element (name e) (id e) (type e) (value e) b (files e).

(** [element.name || element.id] *)
Definition key (e : element) : string :=
  if String.eqb (name e) EmptyString then id e else name e.

Definition is_toggle (e : element) : bool :=
  String.eqb (type e) "checkbox" || String.eqb (type e) "radio".

Definition is_file (e : element) : bool := String.eqb (type e) "file".

End El.

Module Dom.

Record form : Type := Form {
  form_id : string;
  elements : list El.element
}.

(** A file-name indicator ([<span id="...Name">]): its text and whether
    it carries the [loading] class. *)
Record label : Type := Label {
  textContent : string;
  loading : bool
}.

(** The fixed notice boxes the service creates on demand. *)
Record banner : Type := Banner {
  banner_text : string;
  banner_shown : bool
}.

(** The forms in document order, the file-name indicators by id, and the
    two notice boxes ([None]: not yet in the document).  Forms,
    indicators and notice boxes have ids of their own: an id names at
    most one of them. *)
Record document : Type := Document {
  forms : list form;
  labels : gmap string label;
  autoSaveIndicator : option banner;
  autoSaveError : option banner
}.

Definition with_forms (fs : list form) (d : document) : document :=
  Document fs (labels d) (autoSaveIndicator d) (autoSaveError d).
Definition with_labels (ls : gmap string label) (d : document) : document :=
  Document (forms d) ls (autoSaveIndicator d) (autoSaveError d).
Definition with_indicator (b : option banner) (d : document) : document :=
  Document (forms d) (labels d) b (autoSaveError d).
Definition with_error (b : option banner) (d : document) : document :=
  Document (forms d) (labels d) (autoSaveIndicator d) b.

(** [document.getElementById(id)] for a form: the first one in document
    order. *)
Fixpoint find_form (fid : string) (fs : list form) : option form :=
  match fs with
  | [] => None
  | f :: fs' => if String.eqb (form_id f) fid then Some f else find_form fid fs'
  end.

Definition getElementById (d : document) (fid : string) : option form :=
  find_form fid (forms d).

(** Writing the controls of the form that [getElementById] returned. *)
Fixpoint store_elements (fid : string) (es : list El.element) (fs : list form)
  : list form :=
  match fs with
  | [] => []
  | f :: fs' =>
      if String.eqb (form_id f) fid then Form fid es :: fs'
      else f :: store_elements fid es fs'
  end.

Definition set_elements (fid : string) (es : list El.element) (d : document)
  : document :=
  with_forms (store_elements fid es (forms d)) d.

(** [label.textContent = s] together with adding or removing the
    [loading] class, when the indicator exists. *)
Definition set_label (lid : string) (s : string) (busy : option bool)
           (d : document) : document :=
  match labels d !! lid with
  | None => d
  | Some l =>
      with_labels (<[lid := Label s (default (loading l) busy)]> (labels d)) d
  end.

End Dom.

(* ===================================================================== *)
(** ** The page: service fields, storage, clock, timers, network *)
(* ===================================================================== *)

Module Net.

(** What the remote endpoint is asked. *)
Inductive request : Type :=
| GetCsrfToken
| AutoSaveForm (formData : Js.object) (csrfToken : Js.value)
| UploadFile (file : string) (csrfToken : Js.value)
| SubmitForm (action : string) (formData : Js.object)
| LogError (message : string).

(** What [fetch] comes back with: a rejection (also standing for a body
    that is not JSON or not an object), or a response with its [ok] flag
    and the object in its body. *)
Inductive reply : Type :=
| Unreachable
| Reply (ok : bool) (data : Js.object).

End Net.

(** The function a timer runs when it fires. *)
Inductive callback : Type :=
| RunSaveFormData
| RetrySyncToServer (formData : Js.object)
| HideIndicator
| HideError.

Record timer : Type := Timer {
  handle : nat;
  due : Z;
  action : callback
}.

(** What an observer of the page sees happen, oldest first. *)
Inductive event : Type :=
| Saved (time : Z) (forceSync : bool)
| Fetched (req : Net.request)
| ConsoleError (what : string)
| ButtonLoader (selector : string) (busy : bool)
| SuccessModal (message : string) (referenceId : Js.value)
| ErrorAlert (message : string).

(** The fields of a [FormAutoSaveService] instance. *)
Record service : Type := Service {
  retryCount : nat;
  saveTimer : option nat;
  currentFormId : option string;
  csrfToken : Js.value;
  enabled : bool;
  lastSyncTime : option Z
}.

Definition STORAGE_KEY : string := "form_autosave_data".
Definition SAVE_INTERVAL : Z := 30000.
Definition MAX_RETRIES : nat := 3.

Record world : Type := World {
  this : service;
  document : Dom.document;
  localStorage : gmap string Js.text;
  storageFull : bool;
  clock : Z;
  timers : list timer;
  nextTimer : nat;
  network : list Net.reply;
  trace : list event
}.

Definition with_this (s : service) (w : world) : world :=
  World s (document w) (localStorage w) (storageFull w) (clock w) (timers w)
        (nextTimer w) (network w) (trace w).
Definition with_document (d : Dom.document) (w : world) : world :=
  World (this w) d (localStorage w) (storageFull w) (clock w) (timers w)
        (nextTimer w) (network w) (trace w).
Definition with_localStorage (m : gmap string Js.text) (w : world) : world :=
  World (this w) (document w) m (storageFull w) (clock w) (timers w)
        (nextTimer w) (network w) (trace w).
Definition with_clock (t : Z) (w : world) : world :=
  World (this w) (document w) (localStorage w) (storageFull w) t (timers w)
        (nextTimer w) (network w) (trace w).
Definition with_timers (ts : list timer) (n : nat) (w : world) : world :=
  World (this w) (document w) (localStorage w) (storageFull w) (clock w) ts
        n (network w) (trace w).
Definition with_network (rs : list Net.reply) (w : world) : world :=
  World (this w) (document w) (localStorage w) (storageFull w) (clock w)
        (timers w) (nextTimer w) rs (trace w).
Definition log (e : event) (w : world) : world :=
  World (this w) (document w) (localStorage w) (storageFull w) (clock w)
        (timers w) (nextTimer w) (network w) (trace w ++ [e]).

Definition set_retryCount (n : nat) (s : service) : service :=
  Service n (saveTimer s) (currentFormId s) (csrfToken s) (enabled s) (lastSyncTime s).
Definition set_saveTimer (h : option nat) (s : service) : service :=
  Service (retryCount s) h (currentFormId s) (csrfToken s) (enabled s) (lastSyncTime s).
Definition set_currentFormId (f : option string) (s : service) : service :=
  Service (retryCount s) (saveTimer s) f (csrfToken s) (enabled s) (lastSyncTime s).
Definition set_csrfToken (t : Js.value) (s : service) : service :=
  Service (retryCount s) (saveTimer s) (currentFormId s) t (enabled s) (lastSyncTime s).
Definition set_enabled (b : bool) (s : service) : service :=
  Service (retryCount s) (saveTimer s) (currentFormId s) (csrfToken s) b (lastSyncTime s).
Definition set_lastSyncTime (t : option Z) (s : service) : service :=
  Service (retryCount s) (saveTimer s) (currentFormId s) (csrfToken s) (enabled s) t.

(** [setTimeout(cb, delay)]: a fresh handle, due [delay] ms from now. *)
Definition setTimeout (cb : callback) (delay : Z) (w : world) : nat * world :=
  (nextTimer w,
   with_timers (timers w ++ [Timer (nextTimer w) (clock w + delay) cb])
               (S (nextTimer w)) w).

(** [clearTimeout(h)]: [null] and handles that are not pending are ignored. *)
Definition clearTimeout (h : option nat) (w : world) : world :=
  match h with
  | None => w
  | Some n =>
      with_timers (List.filter (fun t => bool_decide (handle t <> n)) (timers w))
                  (nextTimer w) w
  end.

(** [fetch]: the request is seen on the wire and the next scripted reply
    comes back; with no reply left the endpoint is out of reach. *)
Definition next_reply (w : world) : Net.reply :=
  match network w with
  | [] => Net.Unreachable
  | r :: _ => r
  end.

Definition fetch (req : Net.request) (w : world) : Net.reply * world :=
  (next_reply w, with_network (tail (network w)) (log (Fetched req) w)).

(** [document.getElementById(this.currentFormId)]: [null] is looked up as
    the string it converts to. *)
Definition currentFormId_string (w : world) : string :=
  default "null" (currentFormId (this w)).

Definition currentFormId_value (w : world) : Js.value :=
  match currentFormId (this w) with
  | Some s => Js.Str s
  | None => Js.Null
  end.

(* ===================================================================== *)
(** ** FormAutoSaveService *)
(* ===================================================================== *)

(** One round of the loop of [getFormData]. *)
Definition capture (formData : Js.object) (element : El.element) : Js.object :=
  if negb (String.eqb (El.key element) EmptyString) then
    if El.is_toggle element then
      Js.assign (El.key element)
        (Js.Str (if El.checked element then El.value element else EmptyString))
        formData
    else if El.is_file element then formData
    else Js.assign (El.key element) (Js.Str (El.value element)) formData
  else formData.

Definition getFormData (w : world) : Js.object :=
  match Dom.getElementById (document w) (currentFormId_string w) with
  | None => []
  | Some form =>
      Js.assign "_formId" (currentFormId_value w)
        (Js.assign "_timestamp" (Js.Num (clock w))
           (fold_left capture (Dom.elements form) []))
  end.

(** [createAutoSaveIndicator] and [createErrorElement]: hidden, no text.
    [show] is [box.textContent = message; box.style.display = 'block']. *)
Definition createAutoSaveIndicator : Dom.banner := Dom.Banner EmptyString false.
Definition createErrorElement : Dom.banner := Dom.Banner EmptyString false.

Definition show (message : string) (b : Dom.banner) : Dom.banner :=
  Dom.Banner message true.

Definition show_indicator (message : string) (w : world) : world :=
  let indicator :=
    default createAutoSaveIndicator (Dom.autoSaveIndicator (document w)) in
  snd (setTimeout HideIndicator 3000
         (with_document
            (Dom.with_indicator (Some (show message indicator)) (document w)) w)).

Definition showAutoSaveIndicator : world -> world :=
  show_indicator "Changes saved locally".

Definition showAutoRestoreIndicator : world -> world :=
  show_indicator "Restored previous session".

Definition showError (message : string) (w : world) : world :=
  let errorElement :=
    default createErrorElement (Dom.autoSaveError (document w)) in
  snd (setTimeout HideError 5000
         (with_document
            (Dom.with_error (Some (show message errorElement)) (document w)) w)).

Definition hide (b : option Dom.banner) : option Dom.banner :=
  match b with
  | Some b' => Some (Dom.Banner (Dom.banner_text b') false)
  | None => None
  end.

(** [localStorage.setItem] throws when the quota is used up; the service
    logs that and goes on. *)
Definition saveToLocalStorage (data : Js.object) (w : world) : world :=
  if storageFull w then log (ConsoleError "Local storage save failed:") w
  else
    showAutoSaveIndicator
      (with_localStorage (<[STORAGE_KEY := Js.stringify data]> (localStorage w)) w).

(** [loadCsrfToken] waits for the reply to its request.  What it does
    before and after that point are two steps, between which other code
    of the page can run: [loadCsrfToken_request] sends the request and
    returns the reply that is on its way, [loadCsrfToken_reply] is the
    rest of the function, run when the reply is there (a rejection of
    [fetch] is caught then, too).  The token is assigned whether or not
    the service holds one by then. *)
Definition loadCsrfToken_request (w : world) : Net.reply * world :=
  fetch Net.GetCsrfToken w.

Definition loadCsrfToken_reply (response : Net.reply) (w1 : world)
  : bool * world :=
  match response with
  | Net.Reply _ data =>
      if Js.truthy (Js.get "success" data) && Js.truthy (Js.get "csrfToken" data)
      then (true, with_this (set_csrfToken (Js.get "csrfToken" data) (this w1)) w1)
      else (false, w1)
  | Net.Unreachable =>
      (false, log (ConsoleError "Failed to load CSRF token:") w1)
  end.

(** The call as its caller sees it when it awaits the result and the
    reply is the next thing to happen. *)
Definition loadCsrfToken (w : world) : bool * world :=
  let '(response, w1) := loadCsrfToken_request w in
  loadCsrfToken_reply response w1.

Definition reports_success (response : Net.reply) : bool :=
  match response with
  | Net.Reply _ data => Js.truthy (Js.get "success" data)
  | Net.Unreachable => false
  end.

Definition offline_notice : string :=
  "Auto-save failed. Working offline - changes will be saved locally.".

(** The [try] block of [syncToServer] with its [catch]. *)
Definition push (formData : Js.object) (w : world) : Js.value * world :=
  let '(response, w1) :=
    fetch (Net.AutoSaveForm formData (csrfToken (this w))) w in
  if reports_success response then
    (Js.Bool true,
     with_this (set_retryCount 0 (set_lastSyncTime (Some (clock w1)) (this w1))) w1)
  else
    let w2 := log (ConsoleError "Auto-save error:") w1 in
    let w3 := with_this (set_retryCount (S (retryCount (this w2))) (this w2)) w2 in
    (Js.Bool false,
     if (retryCount (this w3) <? MAX_RETRIES)%nat
     then snd (setTimeout (RetrySyncToServer formData) 5000 w3)
     else showError offline_notice w3).

Definition syncToServer (formData : Js.object) (w : world) : Js.value * world :=
  if negb (Js.truthy (csrfToken (this w))) then
    let w1 := snd (loadCsrfToken w) in
    if negb (Js.truthy (csrfToken (this w1))) then (Js.Undefined, w1)
    else push formData w1
  else push formData w.

Definition saveFormData (forceSync : bool) (w : world) : world :=
  if negb (enabled (this w)) then w
  else
    let formData := getFormData w in
    let w1 := saveToLocalStorage formData (log (Saved (clock w) forceSync) w) in
    if forceSync
       || (clock w1 - default 0 (lastSyncTime (this w1)) >? SAVE_INTERVAL)
    then snd (syncToServer formData w1)
    else w1.

Definition handleFormChange (w : world) : world :=
  if negb (enabled (this w)) then w
  else
    let w1 := clearTimeout (saveTimer (this w)) w in
    let '(h, w2) := setTimeout RunSaveFormData 2000 w1 in
    with_this (set_saveTimer (Some h) (this w2)) w2.

(** [uploadFile] waits for the reply to the upload.  Up to that point it
    is [uploadFile_request], which sends the file with the token the
    service holds and returns the reply that is on its way; the rest is
    [uploadFile_reply]: the URL in the reply, or [None] for the error it
    throws when the reply is not [ok] or does not come. *)
Definition uploadFile_request (file : string) (w : world) : Net.reply * world :=
  fetch (Net.UploadFile file (csrfToken (this w))) w.

Definition uploadFile_reply (response : Net.reply) : option Js.value :=
  match response with
  | Net.Reply true data => Some (Js.get "fileUrl" data)
  | Net.Reply false _ | Net.Unreachable => None
  end.

Definition uploadFile (file : string) (w : world) : option Js.value * world :=
  let '(response, w1) := uploadFile_request file w in
  (uploadFile_reply response, w1).

(** [handleFileUpload] waits for [uploadFile], and other code of the
    page can run until the reply is there.  [handleFileUpload_request] is
    the function up to that point: [None] when it returns at once,
    otherwise the file it sends, the reply on its way and the state with
    the request sent. *)
Definition handleFileUpload_request (fileInput : El.element) (w : world)
  : option (string * Net.reply * world) :=
  if negb (enabled (this w)) then None
  else
    match El.files fileInput with
    | [] => None
    | file :: _ =>
        let fileNameSpan := (El.id fileInput ++ "Name")%string in
        let w1 :=
          with_document
            (Dom.set_label fileNameSpan "Uploading..." (Some true) (document w)) w in
        let '(response, w2) := uploadFile_request file w1 in
        Some (file, response, w2)
    end.

(** The rest of [handleFileUpload], run when the reply is there, in the
    state the page has by then: [enabled] is not tested a second time. *)
Definition handleFileUpload_reply (fileInput : El.element) (file : string)
           (response : Net.reply) (w2 : world) : world :=
  let fileNameSpan := (El.id fileInput ++ "Name")%string in
  match uploadFile_reply response with
  | Some fileUrl =>
      let formData := Js.assign (El.id fileInput) fileUrl (getFormData w2) in
      let w3 := saveToLocalStorage formData w2 in
      with_document
        (Dom.set_label fileNameSpan file (Some false) (document w3)) w3
  | None =>
      let w3 := log (ConsoleError "File upload failed:") w2 in
      with_document
        (Dom.set_label fileNameSpan "Upload failed - try again" (Some false)
           (document w3)) w3
  end.

(** The call when the reply is the next thing to happen. *)
Definition handleFileUpload (fileInput : El.element) (w : world) : world :=
  match handleFileUpload_request fileInput w with
  | None => w
  | Some (file, response, w2) => handleFileUpload_reply fileInput file response w2
  end.

(** The test of [isFormFilled] on one control. *)
Definition filled (element : El.element) : bool :=
  (String.eqb (El.type element) "text" || String.eqb (El.type element) "email"
   || String.eqb (El.type element) "tel")
  && negb (String.eqb (Str.trim (El.value element)) EmptyString)
  && negb (Str.includes "Name" (El.id element))
  && negb (String.eqb (El.id element) "declarationSignature").

Definition isFormFilled (w : world) : bool :=
  match Dom.getElementById (document w) (currentFormId_string w) with
  | None => false
  | Some form => existsb filled (Dom.elements form)
  end.

Definition hasUnsavedChanges (w : world) : bool :=
  match localStorage w !! STORAGE_KEY with
  | None => false
  | Some savedData =>
      if Js.is_empty savedData then false
      else bool_decide (savedData <> Js.stringify (getFormData w))
  end.

Definition clearSavedData (w : world) : world :=
  with_localStorage (delete STORAGE_KEY (localStorage w)) w.

Definition setEnabled (b : bool) (w : world) : world :=
  let w1 := with_this (set_enabled b (this w)) w in
  if negb b then clearSavedData w1 else w1.

(** How a block of statements ends: normally, or by throwing, in either
    case with the state it has reached. *)
Inductive completion : Type :=
| Normal (w : world)
| Throw (w : world).

Definition after (c : completion) : world :=
  match c with Normal w | Throw w => w end.

(** [try { body } catch (error) { handler }] *)
Definition try_catch (body : completion) (handler : world -> completion)
  : completion :=
  match body with
  | Normal w => Normal w
  | Throw w => handler w
  end.

(** One round of the loop of [restoreSavedData] over an object. *)
Definition restore_element (formData : Js.object) (element : El.element)
  : El.element :=
  let key := El.key element in
  if Js.has key formData then
    if El.is_toggle element then
      El.set_checked (Js.strict_eq_string (Js.get key formData) (El.value element))
                     element
    else if negb (El.is_file element) then
      El.set_value
        (Js.to_string (Js.or_else (Js.get key formData) (Js.Str EmptyString)))
        element
    else element
  else element.

(** The whole loop: [key in formData] is a [TypeError] when [formData] is
    a number, a boolean or a string, so the loop throws on its first
    round, before it has written anything. *)
Definition restore_elements (formData : Js.json) (elements : list El.element)
  : option (list El.element) :=
  match formData with
  | Js.Object o => Some (map (restore_element o) elements)
  | Js.Atom _ => match elements with [] => Some [] | _ :: _ => None end
  end.

(** Property reads ([formData._formId], [formData[id]]): a primitive has
    none of these properties. *)
Definition props (formData : Js.json) : Js.object :=
  match formData with
  | Js.Object o => o
  | Js.Atom _ => []
  end.

Definition upload_slots : list string :=
  ["aadharFront"; "aadharBack"; "profilePhoto"; "casteCertificate"].

Definition mark_uploaded (formData : Js.json) (d : Dom.document) (slot : string)
  : Dom.document :=
  if Js.truthy (Js.get slot (props formData)) then
    Dom.set_label (slot ++ "Name")%string "Previously uploaded" None d
  else d.

(** [formData._formId || this.currentFormId], as [getElementById] reads
    it. *)
Definition restore_target (w : world) (formData : Js.json) : string :=
  Js.to_string
    (Js.or_else (Js.get "_formId" (props formData)) (currentFormId_value w)).

(** The end of a restoration that goes through: the controls are in
    place, the file-name indicators of the slots the snapshot mentions
    are set, the notice is shown. *)
Definition write_back (target : string) (formData : Js.json)
           (elements : list El.element) (w : world) : world :=
  let d1 := Dom.set_elements target elements (document w) in
  let d2 := fold_left (mark_uploaded formData) upload_slots d1 in
  showAutoRestoreIndicator (with_document d2 w).

(** [restoreSavedData] from the lookup of the form on, for a parsed
    value other than [null]. *)
Definition restore_into (formData : Js.json) (w : world) : completion :=
  let target := restore_target w formData in
  match Dom.getElementById (document w) target with
  | None => Normal w
  | Some form =>
      if isFormFilled w then Normal w
      else
        match restore_elements formData (Dom.elements form) with
        | None => Throw w
        | Some elements => Normal (write_back target formData elements w)
        end
  end.

(** The [try] block of [restoreSavedData]: [JSON.parse] throws on text
    that is not JSON, and reading [_formId] of [null] throws. *)
Definition restore_body (w : world) : completion :=
  match localStorage w !! STORAGE_KEY with
  | None => Normal w
  | Some savedData =>
      if Js.is_empty savedData then Normal w
      else
        match Js.parse savedData with
        | None => Throw w
        | Some (Js.Atom Js.Null) => Throw w
        | Some formData => restore_into formData w
        end
  end.

Definition restoreSavedData (w : world) : completion :=
  try_catch (restore_body w)
    (fun w' => Normal (log (ConsoleError "Failed to restore saved data:") w')).

(** The [beforeunload] listener: the state it leaves and the
    [returnValue] it sets, if any. *)
Definition leave_prompt : string :=
  "You have unsaved changes. Are you sure you want to leave?".

Definition beforeunload (w : world) : world * option string :=
  if hasUnsavedChanges w then (saveFormData true w, Some leave_prompt)
  else (w, None).

(** [setupFormListeners]: the forms the selector matches, in document
    order; each one becomes the current form in its turn. *)
Definition tracked (f : Dom.form) : bool :=
  String.prefix "membershipForm" (Dom.form_id f)
  || String.prefix "updateForm" (Dom.form_id f).

Definition setupFormListeners (w : world) : world :=
  fold_left
    (fun w' f => with_this (set_currentFormId (Some (Dom.form_id f)) (this w')) w')
    (List.filter tracked (Dom.forms (document w))) w.

(** The [DOMContentLoaded] listener. *)
Definition DOMContentLoaded (w : world) : world :=
  after (restoreSavedData (setupFormListeners w)).

(** [initialize] calls [loadCsrfToken] and does not wait for it: when it
    returns, the request is out and its reply is on the way. *)
Definition initialize (w : world) : Net.reply * world := loadCsrfToken_request w.

(** [new FormAutoSaveService()] on a page: the reply that is on its way
    to the new service, and the page with the service on it. *)
Definition new_FormAutoSaveService (w : world) : Net.reply * world :=
  initialize (with_this (Service 0 None None Js.Null true None) w).

(** The reply to a request arrives: the rest of [loadCsrfToken] runs. *)
Definition answered (sent : Net.reply * world) : world :=
  snd (loadCsrfToken_reply (fst sent) (snd sent)).

(* ===================================================================== *)
(** ** Timers and the passing of time *)
(* ===================================================================== *)

Definition run (cb : callback) (w : world) : world :=
  match cb with
  | RunSaveFormData => saveFormData false w
  | RetrySyncToServer formData => snd (syncToServer formData w)
  | HideIndicator =>
      with_document
        (Dom.with_indicator (hide (Dom.autoSaveIndicator (document w))) (document w)) w
  | HideError =>
      with_document
        (Dom.with_error (hide (Dom.autoSaveError (document w))) (document w)) w
  end.

Definition pending (h : nat) (w : world) : bool :=
  existsb (fun t => (handle t =? h)%nat) (timers w).

(** A timer that is still pending leaves the queue and runs. *)
Definition fire (t : timer) (w : world) : world :=
  if pending (handle t) w
  then run (action t) (clearTimeout (Some (handle t)) w)
  else w.

(** One millisecond passes.  Timers are set with a positive delay, so
    those that come due now were all due at this very instant; they run
    in the order they were set.  (Timers that a state may hold overdue
    from the start run then too, in that same order.) *)
Definition tick (w : world) : world :=
  let w1 := with_clock (clock w + 1) w in
  fold_left (fun w' t => fire t w')
            (List.filter (fun t => due t <=? clock w1) (timers w1)) w1.

Fixpoint advance (ms : nat) (w : world) : world :=
  match ms with
  | O => w
  | S ms' => advance ms' (tick w)
  end.

(* ===================================================================== *)
(** ** BkjsApplication (core/main.js) *)
(* ===================================================================== *)

Module App.

(** [this.state] of the application and whether the page runs away from
    localhost, where [handleError] also reports to the server.
    [currentUser] holds [currentUser.uniqueId] of a signed-in user. *)
Record state : Type := State {
  isAuthenticated : bool;
  currentUser : option Js.value;
  csrfToken : Js.value;
  activeForm : option string;
  production : bool
}.

Definition showButtonLoader (selector : string) (w : world) : world :=
  log (ButtonLoader selector true) w.

Definition hideButtonLoader (selector : string) (w : world) : world :=
  log (ButtonLoader selector false) w.

Definition showSuccessModal (message : string) (referenceId : Js.value)
           (w : world) : world :=
  log (SuccessModal message referenceId) w.

Definition logError (message : string) (w : world) : world :=
  snd (fetch (Net.LogError message) w).

Definition handleError (st : state) (message : string) (w : world) : world :=
  let w1 := log (ErrorAlert message) (log (ConsoleError "Application Error:") w) in
  if production st then logError message w1 else w1.

(** The [try] block of [submitForm]: the state it ends in and, when it
    throws, the message of the error. *)
Definition submit (st : state) (formType : string) (formData : Js.object)
           (w : world) : world * option string :=
  let w1 := showButtonLoader ("#" ++ formType ++ "SubmitBtn")%string w in
  let formData' := Js.assign "csrfToken" (csrfToken st) formData in
  let action :=
    if String.eqb formType "register" then "submitApplication"%string
    else "updateUserData"%string in
  let '(response, w2) := fetch (Net.SubmitForm action formData') w1 in
  match response with
  | Net.Unreachable => (w2, Some "Failed to fetch"%string)
  | Net.Reply _ data =>
      if Js.truthy (Js.get "success" data) then
        if String.eqb formType "register" then
          (showSuccessModal "Application submitted successfully!"
             (Js.get "applicationId" data) w2, None)
        else
          match currentUser st with
          | Some uniqueId =>
              (showSuccessModal "Update submitted successfully!" uniqueId w2, None)
          | None =>
              (w2, Some "Cannot read properties of null (reading 'uniqueId')"%string)
          end
      else
        (w2, Some (Js.to_string
                     (Js.or_else (Js.get "message" data) (Js.Str "Submission failed"))))
  end.

Definition submitForm (st : state) (formType : string) (formData : Js.object)
           (w : world) : world :=
  let '(w1, thrown) := submit st formType formData w in
  let w2 :=
    match thrown with
    | Some message => handleError st message w1
    | None => w1
    end in
  hideButtonLoader ("#" ++ formType ++ "SubmitBtn")%string w2.

(** A submission that the endpoint accepted and the page reported as
    such. *)
Definition succeeded (st : state) (formType : string) (formData : Js.object)
           (w : world) : bool :=
  match snd (submit st formType formData w) with
  | None => true
  | Some _ => false
  end.

(** [{ action, ...formData }]: the literal has [action] first and then
    takes every own property of [formData] in order; a property it
    already has is overwritten in place. *)
Definition define (k : string) (v : Js.value) (o : Js.object) : Js.object :=
  match Js.own k o with
  | Some _ => Js.replace k v o
  | None => o ++ [(k, v)]
  end.

Definition spread (source into : Js.object) : Js.object :=
  fold_left (fun o kv => define kv.1 kv.2 o) source into.

(** The body that [submitForm] sends, given the action it chose and the
    form data with the token in it. *)
Definition body (action : string) (formData : Js.object) : Js.text :=
  Js.stringify (spread formData [("action"%string, Js.Str action)]).

(** The selector of the submit button and the action chosen for a form
    type. *)
Definition submitBtn (formType : string) : string :=
  ("#" ++ formType ++ "SubmitBtn")%string.

Definition api_action (formType : string) : string :=
  if String.eqb formType "register" then "submitApplication"%string
  else "updateUserData"%string.

(** The elements of the page that [showView] and [clearErrors] reach, in
    document order and none inside another: the id (empty when the
    element has none), whether the element carries the classes
    [alert-error] and [hidden], and its text. *)
Record node : Type := Node {
  node_id : string;
  alert_error : bool;
  hidden : bool;
  node_text : string
}.

Definition page : Type := list node.

(** [document.getElementById(id)]: the first element with that id. *)
Fixpoint find_node (elementId : string) (p : page) : option node :=
  match p with
  | [] => None
  | n :: p' => if String.eqb (node_id n) elementId then Some n else find_node elementId p'
  end.

(** [classList.add('hidden')] and [classList.remove('hidden')] on the
    element that [getElementById] returns, if any. *)
Fixpoint set_hidden (elementId : string) (b : bool) (p : page) : page :=
  match p with
  | [] => []
  | n :: p' =>
      if String.eqb (node_id n) elementId
      then Node (node_id n) (alert_error n) b (node_text n) :: p'
      else n :: set_hidden elementId b p'
  end.

Definition showElement (elementId : string) (p : page) : page :=
  set_hidden elementId false p.

Definition hideElement (elementId : string) (p : page) : page :=
  set_hidden elementId true p.

Definition clearErrors (p : page) : page :=
  map (fun n => if alert_error n then Node (node_id n) true true EmptyString else n) p.

Definition with_activeForm (f : option string) (st : state) : state :=
  State (isAuthenticated st) (currentUser st) (csrfToken st) f (production st).

Definition with_csrfToken (t : Js.value) (st : state) : state :=
  State (isAuthenticated st) (currentUser st) t (activeForm st) (production st).

(** The section that the [switch] of [showView] shows for a view name;
    [None] is its [default] branch. *)
Definition view_section (viewName : string) : option string :=
  if String.eqb viewName "login" then Some "loginSection"%string
  else if String.eqb viewName "register" then Some "registrationSection"%string
  else if String.eqb viewName "update" then Some "updateSection"%string
  else None.

Definition sections : list string :=
  ["loginSection"; "registrationSection"; "updateSection"]%string.

Definition showView (viewName : string) (st : state) (p : page) (w : world)
  : state * page * world :=
  let p1 :=
    hideElement "updateSection"
      (hideElement "registrationSection" (hideElement "loginSection" p)) in
  match view_section viewName with
  | Some section =>
      (with_activeForm (Some viewName) st, clearErrors (showElement section p1), w)
  | None => (st, p1, handleError st ("Unknown view: " ++ viewName)%string w)
  end.

(** [getCsrfToken] of the application: the reply is taken at its word,
    with or without a token in it. *)
Definition getCsrfToken (st : state) (w : world) : state * world :=
  let '(response, w1) := fetch Net.GetCsrfToken w in
  match response with
  | Net.Reply _ data =>
      if Js.truthy (Js.get "success" data)
      then (with_csrfToken (Js.get "csrfToken" data) st, w1)
      else (st, handleError st "Failed to get CSRF token" w1)
  | Net.Unreachable => (st, handleError st "Failed to fetch" w1)
  end.

Definition SESSION_KEY : string := "bkjs_session".

Definition removeSession (w : world) : world :=
  with_localStorage (delete SESSION_KEY (localStorage w)) w.

Section Session.

(** [Date.parse], which each engine defines in its own way beyond the
    ISO format; [None] is [NaN]. *)
Variable Date_parse : string -> option Z.

(** The time value of [new Date(v)]. *)
Definition time_value (v : Js.value) : option Z :=
  match v with
  | Js.Undefined => None
  | Js.Null => Some 0
  | Js.Bool b => Some (if b then 1 else 0)
  | Js.Num z => if Z.abs z <=? 8640000000000000 then Some z else None
  | Js.Str s => Date_parse s
  | Js.Obj repr => Date_parse repr
  end.

(** [session.expires && new Date(session.expires) > new Date()] *)
Definition unexpired (session : Js.object) (w : world) : bool :=
  Js.truthy (Js.get "expires" session)
  && match time_value (Js.get "expires" session) with
     | Some t => clock w <? t
     | None => false
     end.

(** [getSession]: reading [expires] of [null] throws, as [JSON.parse]
    does on text that is not JSON; a number, a boolean or a string has no
    [expires]. *)
Definition getSession (w : world) : option Js.object * world :=
  match localStorage w !! SESSION_KEY with
  | None => (None, w)
  | Some sessionData =>
      if Js.is_empty sessionData then (None, w)
      else
        match Js.parse sessionData with
        | None | Some (Js.Atom Js.Null) =>
            (None, log (ConsoleError "Error getting session:") w)
        | Some (Js.Atom _) => (None, removeSession w)
        | Some (Js.Object session) =>
            if unexpired session w then (Some session, w)
            else (None, removeSession w)
        end
  end.

End Session.

End App.

(* ===================================================================== *)
(** ** A sample page *)
(* ===================================================================== *)

Module Sample.

Definition text_input (i v : string) : El.element :=
  El.Element i i "text" v false [].

Definition radio (n v : string) (on : bool) : El.element :=
  El.Element n EmptyString "radio" v on [].

Definition file_input (i : string) (fs : list string) : El.element :=
  El.Element i i "file" EmptyString false fs.

Definition membershipForm (first email : string) (male female : bool)
           (fs : list string) : Dom.form :=
  Dom.Form "membershipForm"
    [ text_input "firstName" first;
      El.Element "email" "email" "email" email false [];
      radio "gender" "male" male;
      radio "gender" "female" female;
      file_input "aadharFront" fs ].

Definition page (f : Dom.form) : Dom.document :=
  Dom.Document [f] {[ "aadharFrontName" := Dom.Label "No file chosen" false ]}
               None None.

(** A page at time [t] with the service already constructed and the form
    found by [setupFormListeners]. *)
Definition world_at (t : Z) (f : Dom.form) (stored : gmap string Js.text)
           (net : list Net.reply) : world :=
  World (Service 0 None (Some "membershipForm") (Js.Str "tok") true None)
        (page f) stored false t [] 1 net [].

(** A snapshot of that form as an earlier session left it. *)
Definition snapshot (first : string) (t : Z) : Js.object :=
  [ ("firstName", Js.Str first); ("email", Js.Str EmptyString);
    ("gender", Js.Str EmptyString); ("_timestamp", Js.Num t);
    ("_formId", Js.Str "membershipForm") ]%string.

(** What [getFormData] reads at time [t] from the form with first name
    Asha, an e-mail address and the second radio button checked. *)
Definition snapshot_of_asha (t : Z) : Js.object :=
  [ ("firstName", Js.Str "Asha"); ("email", Js.Str "a@b.in");
    ("gender", Js.Str "female"); ("_timestamp", Js.Num t);
    ("_formId", Js.Str "membershipForm") ]%string.

Definition kept (o : Js.object) : gmap string Js.text :=
  {[ STORAGE_KEY := Js.stringify o ]}.

Definition applicant : App.state :=
  App.State false None (Js.Str "tok") (Some "register"%string) false.

Definition accepted : Net.reply :=
  Net.Reply true [("success", Js.Bool true); ("applicationId", Js.Str "APP-1")]%string.

(** A page that holds the registration form and, after it, the update
    form; the service has made the update form its current form. *)
Definition updateForm (email : string) : Dom.form :=
  Dom.Form "updateForm" [ El.Element "updateEmail" "updateEmail" "email" email false [] ].

Definition both_forms_at (t : Z) (stored : gmap string Js.text) : world :=
  World (Service 0 None (Some "updateForm"%string) (Js.Str "tok") true None)
        (Dom.Document
           [membershipForm EmptyString EmptyString false false []; updateForm EmptyString]
           ∅ None None)
        stored false t [] 1 [] [].

Definition uploaded : Net.reply :=
  Net.Reply true [("fileUrl", Js.Str "https://files.example/front.png")]%string.

Definition ok : Net.reply := Net.Reply true [("success", Js.Bool true)].
Definition refused : Net.reply := Net.Reply true [("success", Js.Bool false)].

End Sample.

(* ===================================================================== *)
(** ** Vocabulary of the statements *)
(* ===================================================================== *)

(** The times at which [saveFormData] ran past its [enabled] guard,
    oldest first. *)
Definition saved_at (e : event) : list Z :=
  match e with Saved t _ => [t] | _ => [] end.

Definition saves (tr : list event) : list Z := flat_map saved_at tr.

(** The sync requests seen on the wire, with the token each carried. *)
Definition pushed (e : event) : list (Js.object * Js.value) :=
  match e with Fetched (Net.AutoSaveForm fd tok) => [(fd, tok)] | _ => [] end.

Definition pushes (tr : list event) : list (Js.object * Js.value) :=
  flat_map pushed tr.

(** A reply to [getCsrfToken] that [loadCsrfToken] accepts. *)
Definition grants_token (r : Net.reply) : bool :=
  match r with
  | Net.Reply _ data =>
      Js.truthy (Js.get "success" data) && Js.truthy (Js.get "csrfToken" data)
  | Net.Unreachable => false
  end.

(** The state in which [syncToServer] reaches its [try] block: as it is
    when a token is at hand, after [loadCsrfToken] when none is. *)
Definition at_push (w : world) : world :=
  if Js.truthy (csrfToken (this w)) then w else snd (loadCsrfToken w).

Definition retry_in_5s (formData : Js.object) (w : world) : timer :=
  Timer (nextTimer w) (clock w + 5000) (RetrySyncToServer formData).

Definition is_save (t : timer) : bool :=
  match action t with RunSaveFormData => true | _ => false end.

Definition is_retry (t : timer) : bool :=
  match action t with RetrySyncToServer _ => true | _ => false end.

(** The snapshot under the storage key, when one is stored and parses to
    an object. *)
Definition stored_snapshot (w : world) : option Js.object :=
  match localStorage w !! STORAGE_KEY with
  | Some (Js.Json _ (Js.Object o)) => Some o
  | _ => None
  end.

(** The entries of a snapshot that come from the controls: all but the
    two that [getFormData] adds as metadata. *)
Definition is_metadata (k : string) : bool :=
  String.eqb k "_timestamp" || String.eqb k "_formId".

Definition fields (snapshot : Js.object) : Js.object :=
  List.filter (fun kv => negb (is_metadata kv.1)) snapshot.

(** The string a control contributes to a snapshot. *)
Definition captured_value (e : El.element) : string :=
  if El.is_toggle e then (if El.checked e then El.value e else EmptyString)
  else El.value e.

(** Controls that [getFormData] reads: they have a key and are no file
    inputs. *)
Definition capturable (e : El.element) : bool :=
  negb (String.eqb (El.key e) EmptyString) && negb (El.is_file e).

(** Two copies of one control: same name, id and type, and, for a
    checkbox or radio button, the same [value] attribute. *)
Definition same_control (e1 e2 : El.element) : bool :=
  String.eqb (El.name e1) (El.name e2)
  && String.eqb (El.id e1) (El.id e2)
  && String.eqb (El.type e1) (El.type e2)
  && (negb (El.is_toggle e1) || String.eqb (El.value e1) (El.value e2)).

(** The last control of a form that writes key [k] into a snapshot. *)
Fixpoint last_writer (k : string) (es : list El.element) : option El.element :=
  match es with
  | [] => None
  | e :: es' =>
      match last_writer k es' with
      | Some e' => Some e'
      | None => if capturable e && String.eqb (El.key e) k then Some e else None
      end
  end.

(** No property holds [undefined]. *)
Definition all_defined (o : Js.object) : Prop :=
  Forall (fun kv => kv.2 <> Js.Undefined) o.

(** A burst of field activity: [handleFormChange], then for each gap that
    many milliseconds of waiting and another [handleFormChange]. *)
Fixpoint burst (gaps : list nat) (w : world) : world :=
  match gaps with
  | [] => handleFormChange w
  | gap :: gaps' => burst gaps' (advance gap (handleFormChange w))
  end.

(** Timer handles are handed out in increasing order, so no two pending
    timers share one. *)
Definition handles_fresh (w : world) : Prop :=
  NoDup (map handle (timers w))
  /\ Forall (fun t => (handle t < nextTimer w)%nat) (timers w).

(** The only debounce timer that can be pending is the one [saveTimer]
    remembers. *)
Definition debounce_tracked (w : world) : Prop :=
  Forall (fun t => is_save t = true -> saveTimer (this w) = Some (handle t))
         (timers w).

(** Auto-save is on and one debounced save is pending, under handle [h],
    due at [d]. *)
Definition armed (h : nat) (d : Z) (w : world) : Prop :=
  enabled (this w) = true
  /\ saveTimer (this w) = Some h
  /\ List.filter is_save (timers w) = [Timer h d RunSaveFormData]
  /\ handles_fresh w.

(** Auto-save is on and no debounced save is pending. *)
Definition unarmed (w : world) : Prop :=
  enabled (this w) = true
  /\ List.filter is_save (timers w) = []
  /\ handles_fresh w.

(** [w'] comes from [w] by steps that set timers other than debounce
    timers and leave the clock, [enabled] and [saveTimer] alone. *)
Definition quiet (w w' : world) : Prop :=
  (exists new,
      timers w' = timers w ++ new
      /\ Forall (fun t => is_save t = false) new
      /\ map handle new = seq (nextTimer w) (length new)
      /\ nextTimer w' = (nextTimer w + length new)%nat)
  /\ enabled (this w') = enabled (this w)
  /\ saveTimer (this w') = saveTimer (this w)
  /\ clock w' = clock w.

(** What a disabled service leaves as it is when something runs: the
    storage, the controls, the flag itself and the record of saves. *)
Definition silent (w w' : world) : Prop :=
  localStorage w' = localStorage w
  /\ enabled (this w') = enabled (this w)
  /\ Dom.forms (document w') = Dom.forms (document w)
  /\ saves (trace w') = saves (trace w).

(** A reply to [uploadFile] that it takes as a success: [response.ok]. *)
Definition upload_ok (r : Net.reply) : bool :=
  match r with
  | Net.Reply true _ => true
  | Net.Reply false _ | Net.Unreachable => false
  end.

(** The indicator that belongs to a file input. *)
Definition fileNameSpan (fileInput : El.element) : string :=
  (El.id fileInput ++ "Name")%string.

(** A page whose storage quota is used up. *)
Definition quota_used_up (w : world) : world :=
  World (this w) (document w) (localStorage w) true (clock w) (timers w)
        (nextTimer w) (network w) (trace w).

(** What [restoreSavedData] writes, if it writes: the id under which it
    looks up the form and the controls it leaves in it. *)
Definition restores (w : world) : option (string * list El.element) :=
  match localStorage w !! STORAGE_KEY with
  | None => None
  | Some savedData =>
      match Js.parse savedData with
      | None | Some (Js.Atom Js.Null) => None
      | Some formData =>
          match Dom.getElementById (document w) (restore_target w formData) with
          | None => None
          | Some form =>
              if isFormFilled w then None
              else
                (fun elements => (restore_target w formData, elements))
                  <$> restore_elements formData (Dom.elements form)
          end
      end
  end.

(** What [restoreSavedData] keeps of a control: its name, id, type and
    chosen files, all of a file input, the [value] of a checkbox or radio
    button, the [checked] flag of any other control. *)
Definition keeps_control (e e' : El.element) : Prop :=
  El.name e' = El.name e /\ El.id e' = El.id e /\ El.type e' = El.type e
  /\ El.files e' = El.files e
  /\ (El.is_file e = true -> e' = e)
  /\ (El.is_toggle e = true -> El.value e' = El.value e)
  /\ (El.is_toggle e = false -> El.checked e' = El.checked e).

(** What can happen on a page that runs the service: time passes, a
    control of a form changes (the page may have any controls
    afterwards; the [input] listener runs), a file is chosen (the
    [change] listeners of the file input run, the one every control has
    and then the one for uploads, which sends its request), the reply to
    an upload that was sent earlier arrives, the reply to a token
    request that was sent earlier arrives (the constructor's, or one
    that [syncToServer] made for a snapshot, which it then goes on to
    push if it has a token), the page is about to be left, the
    [DOMContentLoaded] listener runs, or other code of the page calls
    [setEnabled] or [clearSavedData].  A reply can arrive at any later
    moment, whatever has happened since its request went out. *)
Inductive happening : Type :=
| Elapse (ms : nat)
| Edit (form : string) (elements : list El.element)
| ChooseFile (fileInput : El.element)
| UploadReply (fileInput : El.element) (file : string) (response : Net.reply)
| TokenReply (response : Net.reply) (resume : option Js.object)
| Leave
| Loaded
| SetEnabled (enabled : bool)
| ClearSavedData.

Definition happen (w : world) (h : happening) : world :=
  match h with
  | Elapse ms => advance ms w
  | Edit form elements =>
      handleFormChange
        (with_document (Dom.set_elements form elements (document w)) w)
  | ChooseFile fileInput =>
      match handleFileUpload_request fileInput (handleFormChange w) with
      | None => handleFormChange w
      | Some (_, _, w2) => w2
      end
  | UploadReply fileInput file response =>
      handleFileUpload_reply fileInput file response w
  | TokenReply response resume =>
      let w1 := snd (loadCsrfToken_reply response w) in
      match resume with
      | None => w1
      | Some formData =>
          if negb (Js.truthy (csrfToken (this w1))) then w1
          else snd (push formData w1)
      end
  | Leave => fst (beforeunload w)
  | Loaded => DOMContentLoaded w
  | SetEnabled b => setEnabled b w
  | ClearSavedData => clearSavedData w
  end.

Definition play (history : list happening) (w : world) : world :=
  fold_left happen history w.

(** A late reply that grants a token. *)
Definition grants (h : happening) : bool :=
  match h with
  | TokenReply response _ => grants_token response
  | _ => false
  end.

(** What leaves auto-save off and writes nothing once it is off:
    anything but [setEnabled(true)] and the reply of an upload that went
    through. *)
Definition keeps_off (h : happening) : bool :=
  match h with
  | SetEnabled b => negb b
  | UploadReply _ _ response => negb (upload_ok response)
  | _ => true
  end.

(** The requests for a token seen on the wire. *)
Definition asks_token (e : event) : bool :=
  match e with Fetched Net.GetCsrfToken => true | _ => false end.

Definition token_requests (tr : list event) : list event :=
  List.filter asks_token tr.

(** The service holds the same token in both states and has asked for
    none in between. *)
Definition same_token (w w' : world) : Prop :=
  csrfToken (this w') = csrfToken (this w)
  /\ token_requests (trace w') = token_requests (trace w).

(** The two states agree on every storage key but the one of the
    service. *)
Definition same_other_keys (w w' : world) : Prop :=
  forall key, key <> STORAGE_KEY -> localStorage w' !! key = localStorage w !! key.

(** What one call of the service can do to the storage: nothing, store a
    snapshot under its key, or remove that key. *)
Definition service_write (m m' : gmap string Js.text) : Prop :=
  m' = m
  \/ (exists data, m' = <[STORAGE_KEY := Js.stringify data]> m)
  \/ m' = delete STORAGE_KEY m.

(** The storage key of the service holds what it held in [w], or
    nothing, or text that [JSON.stringify] printed from an object. *)
Definition own_key_well_formed (w w' : world) : Prop :=
  localStorage w' !! STORAGE_KEY = localStorage w !! STORAGE_KEY
  \/ localStorage w' !! STORAGE_KEY = None
  \/ exists data, localStorage w' !! STORAGE_KEY = Some (Js.stringify data).

(** The success dialogs and the error alerts among the events. *)
Definition is_success (e : event) : bool :=
  match e with SuccessModal _ _ => true | _ => false end.

Definition is_alert (e : event) : bool :=
  match e with ErrorAlert _ => true | _ => false end.

(** An object as JavaScript has it: no key twice. *)
Definition well_formed (o : Js.object) : Prop := NoDup (map fst o).

(** What [JSON.stringify] followed by [JSON.parse] makes of a property. *)
Definition through_json (v : option Js.value) : option Js.value :=
  match v with
  | Some Js.Undefined => None
  | _ => v
  end.

(** An element that differs from what it was at most in its [hidden]
    class, and in that only when its id is one of [ids]. *)
Definition hidden_only (ids : list string) (n n' : App.node) : Prop :=
  App.node_id n' = App.node_id n
  /\ App.alert_error n' = App.alert_error n
  /\ App.node_text n' = App.node_text n
  /\ (App.hidden n' = App.hidden n \/ In (App.node_id n) ids).

(** What [clearErrors] makes of an element. *)
Definition cleared (n : App.node) : App.node :=
  if App.alert_error n then App.Node (App.node_id n) true true EmptyString else n.

Definition with_hidden (b : bool) (n : App.node) : App.node :=
  App.Node (App.node_id n) (App.alert_error n) b (App.node_text n).

(** A timer that hides one of the two notice boxes. *)
Definition is_hide (t : timer) : bool :=
  match action t with
  | HideIndicator | HideError => true
  | RunSaveFormData | RetrySyncToServer _ => false
  end.

Definition indicator_shown (w : world) : bool :=
  match Dom.autoSaveIndicator (document w) with
  | Some b => Dom.banner_shown b
  | None => false
  end.

(** Up to the time [limit] the only timers that come due are such that
    hide a notice: no save and no retry runs. *)
Definition only_hiding_until (limit : Z) (w : world) : Prop :=
  Forall (fun t => due t <= limit -> is_hide t = true) (timers w).

(** The file-name indicators that a restoration from [formData]
    relabels: those of the four upload slots under which the snapshot
    holds something truthy. *)
Definition relabelled (formData : Js.json) (slots : list string) (lid : string)
  : bool :=
  existsb (fun slot => String.eqb (slot ++ "Name") lid
                       && Js.truthy (Js.get slot (props formData))) slots.

Definition previously_uploaded (l : Dom.label) : Dom.label :=
  Dom.Label "Previously uploaded" (Dom.loading l).

Definition is_fetch (e : event) : bool :=
  match e with Fetched _ => true | _ => false end.

(* ===================================================================== *)
(** ** Objects *)
(* ===================================================================== *)

Section Objects.

Implicit Types (k : string) (v : Js.value) (o : Js.object).

Lemma own_replace_eq k v o :
  is_Some (Js.own k o) -> Js.own k (Js.replace k v o) = Some v.
Proof.
  induction o as [|[k' v'] o IH]; simpl; intros [x Hx]; [discriminate|].
  destruct (String.eqb_spec k' k) as [->|Hne]; simpl.
  - by rewrite String.eqb_refl.
  - destruct (String.eqb_spec k' k); [done|]. apply IH; eauto.
Qed.

Lemma own_replace_ne k k' v o :
  k <> k' -> Js.own k' (Js.replace k v o) = Js.own k' o.
Proof.
  intros Hne. induction o as [|[k0 v0] o IH]; simpl; [done|].
  destruct (String.eqb_spec k0 k) as [->|Hk]; simpl.
  - destruct (String.eqb_spec k k'); [done|done].
  - destruct (String.eqb_spec k0 k'); [done|apply IH].
Qed.

Lemma own_app k o o' :
  Js.own k (o ++ o') = match Js.own k o with Some v => Some v | None => Js.own k o' end.
Proof.
  induction o as [|[k0 v0] o IH]; simpl; [done|].
  destruct (String.eqb k0 k); [done|apply IH].
Qed.

Lemma own_assign_eq k v o :
  k <> "__proto__"%string -> Js.own k (Js.assign k v o) = Some v.
Proof.
  intros Hk. unfold Js.assign. destruct (Js.own k o) eqn:Ho.
  - apply own_replace_eq. rewrite Ho. eauto.
  - destruct (String.eqb_spec k "__proto__"); [done|].
    rewrite own_app, Ho. simpl. by rewrite String.eqb_refl.
Qed.

Lemma own_assign_ne k k' v o :
  k <> k' -> Js.own k' (Js.assign k v o) = Js.own k' o.
Proof.
  intros Hne. unfold Js.assign. destruct (Js.own k o) eqn:Ho.
  - by apply own_replace_ne.
  - destruct (String.eqb_spec k "__proto__"); [done|].
    rewrite own_app. destruct (Js.own k' o); [done|]. simpl.
    destruct (String.eqb_spec k k'); [done|done].
Qed.

Lemma own_assign_present k v o :
  is_Some (Js.own k o) -> Js.own k (Js.assign k v o) = Some v.
Proof.
  intros [x Hx]. unfold Js.assign. rewrite Hx. apply own_replace_eq.
  rewrite Hx. eauto.
Qed.

(** No assignment gives an object an own ["__proto__"] property. *)
Lemma own_assign_proto k v o :
  Js.own "__proto__" o = None -> Js.own "__proto__" (Js.assign k v o) = None.
Proof.
  intros Ho. destruct (String.eqb_spec k "__proto__") as [->|Hne].
  - unfold Js.assign. rewrite Ho. done.
  - by rewrite own_assign_ne.
Qed.

Lemma defined_props_id o : all_defined o -> Js.defined_props o = o.
Proof.
  unfold Js.defined_props. induction 1 as [|[k v] o Hv Ho IH]; [done|].
  simpl in *. rewrite bool_decide_true by done. by rewrite IH.
Qed.

Lemma replace_defined k v o :
  v <> Js.Undefined -> all_defined o -> all_defined (Js.replace k v o).
Proof.
  intros Hv. induction 1 as [|[k' v'] o Hv' Ho IH]; simpl; [constructor|].
  destruct (String.eqb k' k); constructor; auto.
Qed.

Lemma assign_defined k v o :
  v <> Js.Undefined -> all_defined o -> all_defined (Js.assign k v o).
Proof.
  intros Hv Ho. unfold Js.assign. destruct (Js.own k o).
  - by apply replace_defined.
  - destruct (String.eqb k "__proto__"); [done|].
    apply Forall_app. split; [done|]. by constructor.
Qed.

End Objects.

(* ===================================================================== *)
(** ** What each operation leaves alone *)
(* ===================================================================== *)

Lemma saves_log e w : saves (trace (log e w)) = saves (trace w) ++ saved_at e.
Proof. unfold saves. simpl. rewrite flat_map_app. simpl. by rewrite app_nil_r. Qed.

Lemma pushes_log e w : pushes (trace (log e w)) = pushes (trace w) ++ pushed e.
Proof. unfold pushes. simpl. rewrite flat_map_app. simpl. by rewrite app_nil_r. Qed.

Lemma saves_snoc tr e : saves (tr ++ [e]) = saves tr ++ saved_at e.
Proof. unfold saves. rewrite flat_map_app. simpl. by rewrite app_nil_r. Qed.

Lemma pushes_snoc tr e : pushes (tr ++ [e]) = pushes tr ++ pushed e.
Proof. unfold pushes. rewrite flat_map_app. simpl. by rewrite app_nil_r. Qed.

Ltac unfold_ops :=
  unfold App.submitForm, App.submit, App.handleError, App.logError,
    App.showSuccessModal, App.showButtonLoader, App.hideButtonLoader,
    syncToServer, push, loadCsrfToken, loadCsrfToken_request, loadCsrfToken_reply,
    uploadFile, uploadFile_request, uploadFile_reply, saveToLocalStorage,
    showAutoSaveIndicator, showAutoRestoreIndicator, show_indicator, showError,
    fetch, setTimeout, log in *.

Ltac split_cases :=
  repeat (simpl in *; simplify_eq; try done;
          match goal with
          | |- context [match ?x with _ => _ end] =>
              lazymatch x with
              | context [match _ with _ => _ end] => fail
              | _ => destruct x eqn:?
              end
          end);
  simpl in *; simplify_eq; try done.

Ltac tidy :=
  simpl; rewrite ?saves_snoc, ?pushes_snoc, ?List.filter_app; simpl;
  rewrite ?app_nil_r; try done.

(** [handleFileUpload] in one piece. *)
Lemma handleFileUpload_unfold fileInput w :
  handleFileUpload fileInput w
  = if negb (enabled (this w)) then w
    else
      match El.files fileInput with
      | [] => w
      | file :: _ =>
          let fileNameSpan := (El.id fileInput ++ "Name")%string in
          let w1 :=
            with_document
              (Dom.set_label fileNameSpan "Uploading..." (Some true) (document w)) w in
          match fetch (Net.UploadFile file (csrfToken (this w1))) w1 with
          | (Net.Reply true data, w2) =>
              let formData :=
                Js.assign (El.id fileInput) (Js.get "fileUrl" data) (getFormData w2) in
              let w3 := saveToLocalStorage formData w2 in
              with_document
                (Dom.set_label fileNameSpan file (Some false) (document w3)) w3
          | (_, w2) =>
              let w3 := log (ConsoleError "File upload failed:") w2 in
              with_document
                (Dom.set_label fileNameSpan "Upload failed - try again" (Some false)
                   (document w3)) w3
          end
      end.
Proof.
  unfold handleFileUpload, handleFileUpload_request, handleFileUpload_reply,
    uploadFile_request, uploadFile_reply, fetch.
  destruct (negb (enabled (this w))); [done|].
  destruct (El.files fileInput) as [|file others]; [done|].
  cbv zeta. cbn -[Dom.set_label saveToLocalStorage getFormData].
  by destruct (next_reply _) as [|[] data].
Qed.

Lemma loadCsrfToken_frame w :
  let w' := snd (loadCsrfToken w) in
  document w' = document w /\ localStorage w' = localStorage w
  /\ storageFull w' = storageFull w /\ clock w' = clock w
  /\ timers w' = timers w /\ nextTimer w' = nextTimer w
  /\ retryCount (this w') = retryCount (this w)
  /\ saveTimer (this w') = saveTimer (this w)
  /\ currentFormId (this w') = currentFormId (this w)
  /\ enabled (this w') = enabled (this w)
  /\ lastSyncTime (this w') = lastSyncTime (this w)
  /\ saves (trace w') = saves (trace w)
  /\ pushes (trace w') = pushes (trace w).
Proof. unfold_ops. split_cases; tidy. Qed.

Lemma push_frame fd w :
  let w' := snd (push fd w) in
  Dom.forms (document w') = Dom.forms (document w)
  /\ Dom.labels (document w') = Dom.labels (document w)
  /\ localStorage w' = localStorage w
  /\ storageFull w' = storageFull w /\ clock w' = clock w
  /\ saveTimer (this w') = saveTimer (this w)
  /\ currentFormId (this w') = currentFormId (this w)
  /\ csrfToken (this w') = csrfToken (this w)
  /\ enabled (this w') = enabled (this w)
  /\ saves (trace w') = saves (trace w)
  /\ List.filter is_save (timers w') = List.filter is_save (timers w).
Proof. unfold_ops. split_cases; tidy. Qed.

Lemma syncToServer_frame fd w :
  let w' := snd (syncToServer fd w) in
  Dom.forms (document w') = Dom.forms (document w)
  /\ Dom.labels (document w') = Dom.labels (document w)
  /\ localStorage w' = localStorage w
  /\ storageFull w' = storageFull w /\ clock w' = clock w
  /\ saveTimer (this w') = saveTimer (this w)
  /\ currentFormId (this w') = currentFormId (this w)
  /\ enabled (this w') = enabled (this w)
  /\ saves (trace w') = saves (trace w)
  /\ List.filter is_save (timers w') = List.filter is_save (timers w).
Proof.
  unfold syncToServer.
  pose proof (loadCsrfToken_frame w) as Hl. simpl in Hl.
  pose proof (push_frame fd w) as Hp. simpl in Hp.
  pose proof (push_frame fd (snd (loadCsrfToken w))) as Hp'. simpl in Hp'.
  destruct (negb (Js.truthy (csrfToken (this w))));
    [destruct (negb (Js.truthy (csrfToken (this (snd (loadCsrfToken w))))))|];
    simpl; destruct_and!; repeat split; congruence.
Qed.

(* ===================================================================== *)
(** ** Final submission and the stored snapshot *)
(* ===================================================================== *)

Lemma submitForm_frame st formType formData w :
  let w' := App.submitForm st formType formData w in
  this w' = this w /\ localStorage w' = localStorage w
  /\ document w' = document w /\ timers w' = timers w.
Proof. unfold_ops. split_cases. Qed.

(** C4, as the claim states it, fails: a registration that the endpoint
    accepts leaves the stored snapshot where it was and auto-save
    enabled. *)
Lemma C4_terminal_clear_counterexample :
  ~ (forall st formType formData w,
        App.succeeded st formType formData w = true ->
        let w' := App.submitForm st formType formData w in
        localStorage w' !! STORAGE_KEY = None /\ enabled (this w') = false).
Proof.
  intros H.
  specialize (H Sample.applicant "register"%string
                (Sample.snapshot "Asha" 1000)
                (Sample.world_at 9000
                   (Sample.membershipForm "Asha" EmptyString false false [])
                   (Sample.kept (Sample.snapshot "Asha" 1000))
                   [Sample.accepted])
                eq_refl).
  destruct H as [_ H]. vm_compute in H. discriminate.
Qed.

(** C4, amended: [submitForm] touches neither [localStorage] nor the
    auto-save service, whatever the endpoint answers; the stored snapshot
    is removed, and auto-save switched off for the instance, by
    [setEnabled(false)]: from then on a load of the storage key finds
    nothing and [handleFormChange] and [saveFormData] do nothing. *)
Theorem C4_submit_keeps_snapshot st formType formData w :
  localStorage (App.submitForm st formType formData w) = localStorage w
  /\ this (App.submitForm st formType formData w) = this w
  /\ timers (App.submitForm st formType formData w) = timers w
  /\ localStorage (setEnabled false w) !! STORAGE_KEY = None
  /\ enabled (this (setEnabled false w)) = false
  /\ handleFormChange (setEnabled false w) = setEnabled false w
  /\ (forall forceSync,
        saveFormData forceSync (setEnabled false w) = setEnabled false w).
Proof.
  pose proof (submitForm_frame st formType formData w) as Hs. simpl in Hs.
  destruct_and!. repeat split; try done.
  unfold setEnabled, clearSavedData. simpl. apply lookup_delete_eq.
Qed.

(* ===================================================================== *)
(** ** Snapshots *)
(* ===================================================================== *)

Lemma capture_defined fd e : all_defined fd -> all_defined (capture fd e).
Proof.
  intros Hfd. unfold capture.
  repeat case_match; try done; by apply assign_defined.
Qed.

Lemma fold_capture_defined es fd :
  all_defined fd -> all_defined (fold_left capture es fd).
Proof.
  revert fd. induction es as [|e es IH]; simpl; intros fd Hfd; [done|].
  apply IH. by apply capture_defined.
Qed.

Lemma getFormData_defined w : all_defined (getFormData w).
Proof.
  unfold getFormData. case_match; [|constructor].
  apply assign_defined; [unfold currentFormId_value; by case_match|].
  apply assign_defined; [done|]. apply fold_capture_defined. constructor.
Qed.

Lemma stringify_getFormData w :
  Js.stringify (getFormData w) = Js.Json 0 (Js.Object (getFormData w)).
Proof. unfold Js.stringify. by rewrite defined_props_id by apply getFormData_defined. Qed.

Lemma getFormData_timestamp w form :
  Dom.getElementById (document w) (currentFormId_string w) = Some form ->
  Js.own "_timestamp" (getFormData w) = Some (Js.Num (clock w)).
Proof.
  intros Hf. unfold getFormData. rewrite Hf.
  rewrite own_assign_ne by done. by apply own_assign_eq.
Qed.

Lemma getFormData_timestamp_cases w :
  Js.own "_timestamp" (getFormData w) = None
  \/ Js.own "_timestamp" (getFormData w) = Some (Js.Num (clock w)).
Proof.
  destruct (Dom.getElementById (document w) (currentFormId_string w)) eqn:Hf.
  - right. by eapply getFormData_timestamp.
  - left. unfold getFormData. by rewrite Hf.
Qed.

(* ===================================================================== *)
(** ** Unsaved changes *)
(* ===================================================================== *)

(** C10.  Whenever a snapshot is stored and the clock no longer shows that
    snapshot_of_ashas [_timestamp], [hasUnsavedChanges] answers [true] (nothing
    is assumed about the fields, which may all be as they were stored):
    the [beforeunload] listener then forces a save and asks for the
    confirm-leave prompt. *)
Theorem C10_timestamp_alone_makes_unsaved w layout o t :
  localStorage w !! STORAGE_KEY = Some (Js.Json layout (Js.Object o)) ->
  Js.own "_timestamp" o = Some (Js.Num t) ->
  t <> clock w ->
  hasUnsavedChanges w = true
  /\ beforeunload w = (saveFormData true w, Some leave_prompt).
Proof.
  intros Hst Ht Hne.
  assert (hasUnsavedChanges w = true) as Hu.
  { unfold hasUnsavedChanges. rewrite Hst. simpl.
    apply bool_decide_eq_true. rewrite stringify_getFormData.
    intros Heq. simplify_eq.
    destruct (getFormData_timestamp_cases w) as [Hc|Hc]; congruence. }
  split; [done|]. unfold beforeunload. by rewrite Hu.
Qed.

(** A form saved at 3000 ms and left alone: one millisecond later the
    service already reports unsaved changes. *)
Lemma C10_witness :
  let w :=
    with_clock 3001
      (saveFormData false
         (Sample.world_at 3000
            (Sample.membershipForm "Asha" "a@b.in" false true []) ∅ [])) in
  (localStorage w !! STORAGE_KEY
     = Some (Js.Json 0 (Js.Object (Sample.snapshot_of_asha 3000)))
   /\ Js.own "_timestamp" (Sample.snapshot_of_asha 3000) = Some (Js.Num 3000)
   /\ 3000 <> clock w
   /\ getFormData w = Js.assign "_timestamp" (Js.Num 3001) (Sample.snapshot_of_asha 3000))
  /\ hasUnsavedChanges w = true
  /\ beforeunload w = (saveFormData true w, Some leave_prompt).
Proof.
  intros w. split; [by repeat split|].
  apply (C10_timestamp_alone_makes_unsaved w 0 (Sample.snapshot_of_asha 3000) 3000).
  - reflexivity.
  - reflexivity.
  - discriminate.
Defined.

(* ===================================================================== *)
(** ** Restoring *)
(* ===================================================================== *)

Lemma find_form_store_eq fid es fs f :
  Dom.find_form fid fs = Some f ->
  Dom.find_form fid (Dom.store_elements fid es fs) = Some (Dom.Form fid es).
Proof.
  induction fs as [|f0 fs IH]; simpl; [done|].
  destruct (String.eqb_spec (Dom.form_id f0) fid) as [Heq|Hne]; simpl.
  - by rewrite String.eqb_refl.
  - destruct (String.eqb_spec (Dom.form_id f0) fid); [done|]. apply IH.
Qed.

Lemma find_form_store_ne fid fid' es fs :
  fid' <> fid ->
  Dom.find_form fid' (Dom.store_elements fid es fs) = Dom.find_form fid' fs.
Proof.
  intros Hne. induction fs as [|f0 fs IH]; simpl; [done|].
  destruct (String.eqb_spec (Dom.form_id f0) fid) as [Heq|Hf]; simpl.
  - destruct (String.eqb_spec fid fid'); [congruence|].
    destruct (String.eqb_spec (Dom.form_id f0) fid'); [congruence|done].
  - destruct (String.eqb_spec (Dom.form_id f0) fid'); [done|apply IH].
Qed.

Lemma store_elements_same fid fs f :
  Dom.find_form fid fs = Some f ->
  Dom.store_elements fid (Dom.elements f) fs = fs.
Proof.
  induction fs as [|f0 fs IH]; simpl; [done|].
  destruct (String.eqb_spec (Dom.form_id f0) fid) as [Heq|Hne].
  - intros [= ->]. subst fid. by destruct f.
  - intros Hf. by rewrite IH.
Qed.

Lemma mark_uploaded_forms formData slots d :
  Dom.forms (fold_left (mark_uploaded formData) slots d) = Dom.forms d.
Proof.
  revert d. induction slots as [|slot slots IH]; simpl; intros d; [done|].
  rewrite IH. unfold mark_uploaded, Dom.set_label.
  repeat case_match; done.
Qed.

Lemma write_back_frame target formData elements w :
  let w' := write_back target formData elements w in
  Dom.forms (document w') = Dom.store_elements target elements (Dom.forms (document w))
  /\ clock w' = clock w /\ this w' = this w /\ localStorage w' = localStorage w.
Proof.
  unfold write_back. unfold_ops. cbn -[upload_slots].
  by rewrite mark_uploaded_forms.
Qed.

#[local] Arguments write_back : simpl never.

(** What a restoration that goes through writes: the controls of the
    target form, each by [restore_element]. *)
Lemma restore_done w savedData o form :
  localStorage w !! STORAGE_KEY = Some savedData ->
  Js.parse savedData = Some (Js.Object o) ->
  Dom.getElementById (document w) (restore_target w (Js.Object o)) = Some form ->
  isFormFilled w = false ->
  Dom.forms (document (after (restoreSavedData w)))
  = Dom.store_elements (restore_target w (Js.Object o))
      (map (restore_element o) (Dom.elements form)) (Dom.forms (document w))
  /\ clock (after (restoreSavedData w)) = clock w
  /\ this (after (restoreSavedData w)) = this w.
Proof.
  intros Hst Hp Hf Hfilled. unfold restoreSavedData, restore_body, restore_into.
  rewrite Hst. destruct savedData; try done. simpl in Hp. simplify_eq.
  simpl. rewrite Hf, Hfilled. simpl.
  pose proof (write_back_frame (restore_target w (Js.Object o)) (Js.Object o)
                (map (restore_element o) (Dom.elements form)) w) as Hw.
  cbv zeta in Hw. by destruct_and!.
Qed.

(** Whatever is stored, the forms that the restoration does not target
    keep their controls. *)
Lemma restore_other_forms w savedData formData fid :
  localStorage w !! STORAGE_KEY = Some savedData ->
  Js.parse savedData = Some formData ->
  fid <> restore_target w formData ->
  Dom.getElementById (document (after (restoreSavedData w))) fid
  = Dom.getElementById (document w) fid.
Proof.
  intros Hst Hp Hne. unfold restoreSavedData, restore_body, restore_into.
  rewrite Hst. destruct savedData; try done. simpl in Hp. simplify_eq.
  simpl.
  assert (forall es,
             Dom.getElementById
               (document (write_back (restore_target w formData) formData es w)) fid
             = Dom.getElementById (document w) fid) as Hwb.
  { intros es. unfold Dom.getElementById.
    pose proof (write_back_frame (restore_target w formData) formData es w) as Hw.
    cbv zeta in Hw. destruct Hw as [-> _]. by apply find_form_store_ne. }
  destruct formData as [o|v].
  - destruct (Dom.getElementById (document w) (restore_target w (Js.Object o)));
      [|done].
    destruct (isFormFilled w); [done|]. simpl. apply Hwb.
  - destruct v; try done;
      (destruct (Dom.getElementById (document w) (restore_target w _)); [|done];
       destruct (isFormFilled w); [done|];
       destruct (Dom.elements f); [|done]; simpl; apply Hwb).
Qed.

(** The conflict rule as the code has it: when [isFormFilled] answers
    [true] nothing of the document is written. *)
Lemma restore_skipped_when_filled w :
  isFormFilled w = true -> document (after (restoreSavedData w)) = document w.
Proof.
  intros Hfilled. unfold restoreSavedData, restore_body, restore_into.
  destruct (localStorage w !! STORAGE_KEY) as [savedData|]; [|done].
  destruct savedData as [|layout j|n]; try done. simpl.
  destruct j as [o|v].
  - destruct (Dom.getElementById _ _); [|done]. by rewrite Hfilled.
  - destruct v; try done;
      (destruct (Dom.getElementById _ _); [|done]; by rewrite Hfilled).
Qed.

(** The test passes over every control whose id contains [Name]. *)
Lemma filled_skips_Name e : Str.includes "Name" (El.id e) = true -> filled e = false.
Proof. intros H. unfold filled. rewrite H. simpl. by rewrite andb_false_r. Qed.

(** C5, as the claim states it, fails where the form ids differ: with the
    registration form and the update form on one page, the update form
    current, a snapshot of the registration form is written into the
    registration form. *)
Lemma C5_formId_mismatch_counterexample :
  ~ (forall w layout o fid,
        localStorage w !! STORAGE_KEY = Some (Js.Json layout (Js.Object o)) ->
        Js.own "_formId" o = Some (Js.Str fid) ->
        currentFormId (this w) <> Some fid ->
        Dom.forms (document (after (restoreSavedData w))) = Dom.forms (document w)).
Proof.
  intros H.
  specialize (H (Sample.both_forms_at 9000 (Sample.kept (Sample.snapshot "Asha" 1000)))
                0%nat (Sample.snapshot "Asha" 1000) "membershipForm"%string
                eq_refl eq_refl ltac:(discriminate)).
  vm_compute in H. discriminate.
Qed.

(** C5, amended.  [restoreSavedData] never throws.  When the stored
    string does not parse as JSON, or when the document has no form under
    the id the snapshot names (the current form id when the snapshot names
    none), nothing of the document is written.  A snapshot that parses is
    written only into the form under that id: every other form keeps its
    controls. *)
Theorem C5_restore_is_tolerant w :
  (exists w', restoreSavedData w = Normal w')
  /\ (forall savedData,
        localStorage w !! STORAGE_KEY = Some savedData ->
        Js.parse savedData = None ->
        document (after (restoreSavedData w)) = document w)
  /\ (forall savedData formData,
        localStorage w !! STORAGE_KEY = Some savedData ->
        Js.parse savedData = Some formData ->
        Dom.getElementById (document w) (restore_target w formData) = None ->
        document (after (restoreSavedData w)) = document w)
  /\ (forall savedData formData fid,
        localStorage w !! STORAGE_KEY = Some savedData ->
        Js.parse savedData = Some formData ->
        fid <> restore_target w formData ->
        Dom.getElementById (document (after (restoreSavedData w))) fid
        = Dom.getElementById (document w) fid).
Proof.
  split; [|split; [|split]].
  - unfold restoreSavedData, try_catch. destruct (restore_body w); eauto.
  - intros savedData Hst Hp. unfold restoreSavedData, restore_body, restore_into.
    rewrite Hst. destruct savedData; try done.
  - intros savedData formData Hst Hp Hf. unfold restoreSavedData, restore_body, restore_into.
    rewrite Hst. destruct savedData; try done. simpl in Hp. simplify_eq.
    simpl. rewrite Hf. destruct formData as [o|v]; [done|]. by destruct v.
  - apply restore_other_forms.
Qed.

(** Text that is not JSON under the storage key: the page loads, nothing
    is thrown and nothing is written. *)
Lemma C5_witness :
  let w :=
    Sample.world_at 9000 (Sample.membershipForm EmptyString EmptyString false false [])
      {[ STORAGE_KEY := Js.Malformed 7 ]} [] in
  (localStorage w !! STORAGE_KEY = Some (Js.Malformed 7)
   /\ Js.parse (Js.Malformed 7) = None)
  /\ (exists w', restoreSavedData w = Normal w')
  /\ document (after (restoreSavedData w)) = document w.
Proof.
  intros w. destruct (C5_restore_is_tolerant w) as (Hnever & Hcorrupt & _).
  split; [by split|]. split; [exact Hnever|].
  exact (Hcorrupt (Js.Malformed 7) eq_refl eq_refl).
Defined.

(** C3, at a form the applicant has begun to fill in: the first name is
    typed, an older snapshot is stored.  [isFormFilled] passes over the
    field because its id contains [Name], answers [false], and the
    restoration replaces what was typed. *)
Theorem C3_typed_first_name_is_overwritten :
  let typed := Sample.membershipForm "Asha" EmptyString false false [] in
  let w := Sample.world_at 9000 typed (Sample.kept (Sample.snapshot "Ravi" 1000)) [] in
  let mailed := Sample.membershipForm EmptyString "a@b.in" false false [] in
  let w' := Sample.world_at 9000 mailed (Sample.kept (Sample.snapshot "Ravi" 1000)) [] in
  (filled (Sample.text_input "firstName" "Asha") = false
   /\ isFormFilled w = false
   /\ Dom.forms (document (after (restoreSavedData w)))
      = [Sample.membershipForm "Ravi" EmptyString false false []])
  /\ (isFormFilled w' = true
      /\ document (after (restoreSavedData w')) = document w').
Proof. vm_compute. done. Qed.

(* ===================================================================== *)
(** ** File inputs and the stored snapshot *)
(* ===================================================================== *)

Lemma own_assign_inv k k' v v' o :
  Js.own k (Js.assign k' v' o) = Some v ->
  (k = k' /\ v = v') \/ Js.own k o = Some v.
Proof.
  destruct (decide (k' = k)) as [->|Hne].
  - unfold Js.assign. destruct (Js.own k o) eqn:Ho.
    + rewrite own_replace_eq by (rewrite Ho; eauto). intros [= ->]. by left.
    + destruct (String.eqb k "__proto__"); [congruence|].
      rewrite own_app, Ho. simpl. rewrite String.eqb_refl. intros [= ->]. by left.
  - rewrite own_assign_ne by done. by right.
Qed.

Lemma own_capture_inv k v fd e :
  Js.own k (capture fd e) = Some v ->
  (capturable e = true /\ El.key e = k /\ v = Js.Str (captured_value e))
  \/ Js.own k fd = Some v.
Proof.
  unfold capture, capturable, captured_value.
  destruct (String.eqb (El.key e) EmptyString); simpl; [by right|].
  destruct (El.is_toggle e) eqn:Ht; simpl.
  - intros H. apply own_assign_inv in H as [[-> ->]|H]; [left|by right].
    assert (El.is_file e = false) as ->; [|done].
    unfold El.is_toggle, El.is_file in *.
    destruct (String.eqb_spec (El.type e) "file") as [Hf|]; [|done].
    rewrite Hf in Ht. done.
  - destruct (El.is_file e); simpl; [by right|].
    intros H. apply own_assign_inv in H as [[-> ->]|H]; [by left|by right].
Qed.

Lemma own_fold_capture_inv k v es fd :
  Js.own k (fold_left capture es fd) = Some v ->
  (exists e, In e es /\ capturable e = true /\ El.key e = k
             /\ v = Js.Str (captured_value e))
  \/ Js.own k fd = Some v.
Proof.
  revert fd. induction es as [|e es IH]; simpl; intros fd H; [by right|].
  apply IH in H as [(e' & Hin & He')|H]; [left; eauto|].
  apply own_capture_inv in H as [He|H]; [left; eauto|by right].
Qed.

Lemma getFormData_ext w w' :
  Dom.forms (document w') = Dom.forms (document w) ->
  clock w' = clock w ->
  currentFormId (this w') = currentFormId (this w) ->
  getFormData w' = getFormData w.
Proof.
  intros Hf Hc Hi.
  unfold getFormData, Dom.getElementById, currentFormId_string, currentFormId_value.
  by rewrite Hf, Hc, Hi.
Qed.

Lemma saveToLocalStorage_stores data w :
  storageFull w = false ->
  localStorage (saveToLocalStorage data w) !! STORAGE_KEY = Some (Js.stringify data).
Proof.
  intros Hfull. unfold_ops. rewrite Hfull. simpl. apply lookup_insert_eq.
Qed.

Lemma saveFormData_stores forceSync w :
  enabled (this w) = true ->
  storageFull w = false ->
  localStorage (saveFormData forceSync w) !! STORAGE_KEY
  = Some (Js.stringify (getFormData w)).
Proof.
  intros Hen Hfull. unfold saveFormData. rewrite Hen. simpl.
  set (w1 := saveToLocalStorage _ _).
  assert (localStorage w1 !! STORAGE_KEY = Some (Js.stringify (getFormData w))) as H1
    by (by apply saveToLocalStorage_stores).
  pose proof (syncToServer_frame (getFormData w) w1) as Hs. cbv zeta in Hs.
  destruct Hs as (_ & _ & Hst & _).
  destruct (forceSync || _); [by rewrite Hst|done].
Qed.

Lemma handleFileUpload_stores fileInput file others data w :
  enabled (this w) = true ->
  storageFull w = false ->
  El.files fileInput = file :: others ->
  next_reply w = Net.Reply true data ->
  localStorage (handleFileUpload fileInput w) !! STORAGE_KEY
  = Some (Js.stringify
            (Js.assign (El.id fileInput) (Js.get "fileUrl" data) (getFormData w))).
Proof.
  intros Hen Hfull Hfiles Hreply. rewrite handleFileUpload_unfold.
  rewrite Hen, Hfiles. simpl. unfold fetch. simpl.
  unfold next_reply in *. simpl. rewrite Hreply. simpl.
  rewrite saveToLocalStorage_stores by (simpl; done).
  do 3 f_equal. apply getFormData_ext; [|done..].
  simpl. unfold Dom.set_label. by destruct (Dom.labels _ !! _).
Qed.

(** C7, as the claim states it, fails: after a front-side image has been
    chosen and uploaded, the snapshot that [handleFileUpload] stores holds
    an entry under the key of that file input. *)
Lemma C7_file_entry_counterexample :
  ~ (forall w fileInput form o,
        Dom.getElementById (document w) (currentFormId_string w) = Some form ->
        In fileInput (Dom.elements form) ->
        El.is_file fileInput = true ->
        stored_snapshot (handleFileUpload fileInput w) = Some o ->
        Js.own (El.key fileInput) o = None).
Proof.
  intros H.
  specialize (H (Sample.world_at 9000
                   (Sample.membershipForm "Asha" EmptyString false false ["front.png"%string])
                   ∅ [Sample.uploaded])
                (Sample.file_input "aadharFront" ["front.png"%string])
                _ _ eq_refl ltac:(simpl; tauto) eq_refl eq_refl).
  vm_compute in H. discriminate.
Qed.

(** C7, amended.  A snapshot taken by [getFormData] holds, besides
    [_timestamp] and [_formId], only entries that a control other than a
    file input contributed; [saveFormData] stores exactly that snapshot.
    [handleFileUpload], once the upload has succeeded, stores that
    snapshot with one more entry: under the id of the file input, the URL
    that the upload returned. *)
Theorem C7_what_snapshots_hold w :
  (forall k v,
      Js.own k (getFormData w) = Some v ->
      k = "_timestamp"%string \/ k = "_formId"%string
      \/ exists form e,
          Dom.getElementById (document w) (currentFormId_string w) = Some form
          /\ In e (Dom.elements form)
          /\ El.is_file e = false
          /\ El.key e = k
          /\ v = Js.Str (captured_value e))
  /\ (forall forceSync,
        enabled (this w) = true -> storageFull w = false ->
        localStorage (saveFormData forceSync w) !! STORAGE_KEY
        = Some (Js.stringify (getFormData w)))
  /\ (forall fileInput file others data,
        enabled (this w) = true -> storageFull w = false ->
        El.files fileInput = file :: others ->
        next_reply w = Net.Reply true data ->
        localStorage (handleFileUpload fileInput w) !! STORAGE_KEY
        = Some (Js.stringify
                  (Js.assign (El.id fileInput) (Js.get "fileUrl" data)
                             (getFormData w)))).
Proof.
  split; [|split].
  - intros k v. unfold getFormData.
    destruct (Dom.getElementById _ _) as [form|] eqn:Hf; [|done].
    intros H. apply own_assign_inv in H as [[-> _]|H]; [by right; left|].
    apply own_assign_inv in H as [[-> _]|H]; [by left|].
    apply own_fold_capture_inv in H as [(e & Hin & Hc & Hk & Hv)|H]; [|done].
    right; right. exists form, e. repeat split; try done.
    unfold capturable in Hc. apply andb_true_iff in Hc as [_ Hc].
    by apply negb_true_iff in Hc.
  - intros. by apply saveFormData_stores.
  - intros. by eapply handleFileUpload_stores.
Qed.

(** The registration form with a front-side image chosen: the snapshot has
    no entry for the file input, and the entry under [firstName] is the
    one the text field gave. *)
Lemma C7_witness :
  let w :=
    Sample.world_at 9000
      (Sample.membershipForm "Asha" EmptyString false false ["front.png"%string])
      ∅ [Sample.uploaded] in
  (Js.own "firstName" (getFormData w) = Some (Js.Str "Asha")
   /\ Js.own "aadharFront" (getFormData w) = None)
  /\ ("firstName" = "_timestamp" \/ "firstName" = "_formId"
      \/ exists form e,
          Dom.getElementById (document w) (currentFormId_string w) = Some form
          /\ In e (Dom.elements form)
          /\ El.is_file e = false
          /\ El.key e = "firstName"
          /\ Js.Str "Asha" = Js.Str (captured_value e))%string.
Proof.
  intros w. split; [by split|].
  destruct (C7_what_snapshots_hold w) as (Hentries & _).
  exact (Hentries "firstName"%string (Js.Str "Asha") eq_refl).
Defined.

(* ===================================================================== *)
(** ** Synchronising with the server *)
(* ===================================================================== *)

Lemma push_failure formData w :
  reports_success (next_reply w) = false ->
  let w' := snd (push formData w) in
  retryCount (this w') = S (retryCount (this w))
  /\ ((S (retryCount (this w)) < MAX_RETRIES)%nat ->
      timers w' = timers w ++ [retry_in_5s formData w]
      /\ Dom.autoSaveError (document w') = Dom.autoSaveError (document w))
  /\ ((MAX_RETRIES <= S (retryCount (this w)))%nat ->
      List.filter is_retry (timers w') = List.filter is_retry (timers w)
      /\ Dom.autoSaveError (document w') = Some (Dom.Banner offline_notice true)).
Proof.
  intros Hfail. unfold push, fetch. simpl. rewrite Hfail. simpl.
  destruct (S (retryCount (this w)) <? MAX_RETRIES)%nat eqn:Hlt.
  - apply Nat.ltb_lt in Hlt. simpl. split; [done|]. split; [done|]. lia.
  - apply Nat.ltb_ge in Hlt. unfold showError. simpl.
    split; [done|]. split; [lia|]. intros _.
    rewrite List.filter_app. simpl. by rewrite app_nil_r.
Qed.

Lemma push_success formData w :
  reports_success (next_reply w) = true ->
  let w' := snd (push formData w) in
  retryCount (this w') = 0%nat
  /\ lastSyncTime (this w') = Some (clock w)
  /\ timers w' = timers w.
Proof. intros Hok. unfold push, fetch. simpl. by rewrite Hok. Qed.

Lemma syncToServer_at_push formData w :
  Js.truthy (csrfToken (this (at_push w))) = true ->
  syncToServer formData w = push formData (at_push w).
Proof.
  unfold at_push, syncToServer.
  destruct (Js.truthy (csrfToken (this w))) eqn:Htok; simpl; [done|].
  by intros ->.
Qed.

Lemma at_push_frame w :
  retryCount (this (at_push w)) = retryCount (this w)
  /\ timers (at_push w) = timers w
  /\ nextTimer (at_push w) = nextTimer w
  /\ clock (at_push w) = clock w
  /\ document (at_push w) = document w.
Proof.
  unfold at_push. destruct (Js.truthy _); [done|].
  pose proof (loadCsrfToken_frame w) as H. cbv zeta in H. by destruct_and!.
Qed.

(** C6.  Whenever [syncToServer] pushes (it has a token, or has just
    fetched one) and the push fails (the endpoint is out of reach or
    reports no success), [retryCount] goes up by one; while the new count
    is below 3 one retry of the same snapshot is set to run 5000 ms later,
    whatever the count; from 3 on no retry is set and the working-offline
    notice is shown.  A push that succeeds puts [retryCount] back to 0.
    No outcome touches [localStorage] or switches auto-save off, and
    [saveFormData] stores its snapshot whatever the endpoint answers. *)
Theorem C6_retry_ceiling_fixed_backoff formData w :
  Js.truthy (csrfToken (this (at_push w))) = true ->
  let w' := snd (syncToServer formData w) in
  (reports_success (next_reply (at_push w)) = false ->
   retryCount (this w') = S (retryCount (this w))
   /\ ((S (retryCount (this w)) < MAX_RETRIES)%nat ->
       timers w' = timers w ++ [retry_in_5s formData w]
       /\ Dom.autoSaveError (document w') = Dom.autoSaveError (document w))
   /\ ((MAX_RETRIES <= S (retryCount (this w)))%nat ->
       List.filter is_retry (timers w') = List.filter is_retry (timers w)
       /\ Dom.autoSaveError (document w') = Some (Dom.Banner offline_notice true)))
  /\ (reports_success (next_reply (at_push w)) = true ->
      retryCount (this w') = 0%nat
      /\ lastSyncTime (this w') = Some (clock w)
      /\ timers w' = timers w)
  /\ localStorage w' = localStorage w
  /\ enabled (this w') = enabled (this w)
  /\ (forall forceSync,
        enabled (this w) = true -> storageFull w = false ->
        localStorage (saveFormData forceSync w) !! STORAGE_KEY
        = Some (Js.stringify (getFormData w))).
Proof.
  intros Htok w'.
  pose proof (syncToServer_frame formData w) as Hframe. cbv zeta in Hframe.
  assert (w' = snd (push formData (at_push w))) as Hw'
    by (unfold w'; by rewrite syncToServer_at_push).
  destruct (at_push_frame w) as (Hr & Ht & Hn & Hc & Hd).
  split; [|split; [|split; [|split]]].
  - intros Hfail. rewrite Hw'.
    pose proof (push_failure formData (at_push w) Hfail) as Hp. cbv zeta in Hp.
    unfold retry_in_5s in *. by rewrite Hr, Ht, Hn, Hc, Hd in Hp.
  - intros Hok. rewrite Hw'.
    pose proof (push_success formData (at_push w) Hok) as Hp. cbv zeta in Hp.
    by rewrite Ht, Hc in Hp.
  - by destruct_and!.
  - by destruct_and!.
  - intros. by apply saveFormData_stores.
Qed.

(** The third failure in a row: the count reaches 3, no retry is set, the
    notice is up. *)
Lemma C6_witness :
  let w :=
    with_this (Service 2 None (Some "membershipForm"%string) (Js.Str "tok") true None)
      (Sample.world_at 9000 (Sample.membershipForm "Asha" EmptyString false false [])
         ∅ [Sample.refused]) in
  let w' := snd (syncToServer (Sample.snapshot "Asha" 9000) w) in
  (Js.truthy (csrfToken (this (at_push w))) = true
   /\ reports_success (next_reply (at_push w)) = false
   /\ (MAX_RETRIES <= S (retryCount (this w)))%nat)
  /\ retryCount (this w') = 3%nat
  /\ List.filter is_retry (timers w') = []
  /\ Dom.autoSaveError (document w') = Some (Dom.Banner offline_notice true).
Proof.
  intros w w'.
  destruct (C6_retry_ceiling_fixed_backoff (Sample.snapshot "Asha" 9000) w eq_refl)
    as (Hfail & _).
  destruct (Hfail eq_refl) as (Hcount & _ & Hceiling).
  assert (MAX_RETRIES <= S (retryCount (this w)))%nat as Hmax by (vm_compute; lia).
  destruct (Hceiling Hmax) as (Htimers & Hnotice).
  split; [by repeat split|]. split; [exact Hcount|]. split; [exact Htimers|exact Hnotice].
Defined.

Lemma loadCsrfToken_refused w :
  grants_token (next_reply w) = false ->
  this (snd (loadCsrfToken w)) = this w.
Proof.
  unfold loadCsrfToken, loadCsrfToken_request, loadCsrfToken_reply, fetch,
    grants_token. simpl.
  destruct (next_reply w) as [|ok data]; [done|]. by intros ->.
Qed.

Lemma syncToServer_with_token formData w :
  Js.truthy (csrfToken (this w)) = true ->
  syncToServer formData w = push formData w.
Proof. intros Htok. unfold syncToServer. by rewrite Htok. Qed.

Lemma answered_new page :
  answered (new_FormAutoSaveService page)
  = snd (loadCsrfToken (with_this (Service 0 None None Js.Null true None) page)).
Proof. reflexivity. Qed.

Lemma loadCsrfToken_granted w ok data :
  next_reply w = Net.Reply ok data ->
  grants_token (next_reply w) = true ->
  let w1 := snd (loadCsrfToken w) in
  csrfToken (this w1) = Js.get "csrfToken" data
  /\ Js.truthy (Js.get "csrfToken" data) = true
  /\ trace w1 = trace w ++ [Fetched Net.GetCsrfToken]
  /\ retryCount (this w1) = retryCount (this w).
Proof.
  intros Hreply. rewrite Hreply. simpl. intros Hgrant.
  unfold loadCsrfToken, loadCsrfToken_request, loadCsrfToken_reply, fetch.
  simpl. rewrite Hreply, Hgrant. simpl.
  apply andb_true_iff in Hgrant as [_ Htok]. done.
Qed.

Lemma trace_push formData w :
  exists later,
    trace (snd (push formData w))
    = trace w ++ Fetched (Net.AutoSaveForm formData (csrfToken (this w))) :: later.
Proof. unfold_ops. split_cases; rewrite <- ?app_assoc; simpl; eauto. Qed.

(** C8.  A sync request goes out only with a token in it, and with a
    token at hand, or one just fetched, it does go out.  When the
    service holds a token, [syncToServer] pushes the snapshot it was
    given once, with that token, and asks for no token.  When it holds
    none, the first thing on the wire is the token request; if the reply
    grants a token, the service keeps it and the snapshot is pushed once,
    with that token, right after the token request.  If that request
    fails too (an earlier failure is what left the service without a
    token) no sync request is sent, [retryCount] stays as it was, no
    retry is set and the call returns [undefined]; this holds in
    particular for a service whose constructor-time token request had
    failed.  In no case is more than one sync request sent, or one with
    a token that is not truthy. *)
Theorem C8_token_before_push formData w :
  let w' := snd (syncToServer formData w) in
  (exists sent,
      pushes (trace w') = pushes (trace w) ++ sent
      /\ (length sent <= 1)%nat
      /\ Forall (fun p => p.1 = formData /\ Js.truthy p.2 = true) sent)
  /\ (Js.truthy (csrfToken (this w)) = true ->
      pushes (trace w') = pushes (trace w) ++ [(formData, csrfToken (this w))]
      /\ token_requests (trace w') = token_requests (trace w)
      /\ syncToServer formData w = push formData w)
  /\ (Js.truthy (csrfToken (this w)) = false ->
      exists later, trace w' = trace w ++ Fetched Net.GetCsrfToken :: later)
  /\ (Js.truthy (csrfToken (this w)) = false ->
      forall ok data,
        next_reply w = Net.Reply ok data ->
        grants_token (next_reply w) = true ->
        Js.truthy (Js.get "csrfToken" data) = true
        /\ csrfToken (this w') = Js.get "csrfToken" data
        /\ pushes (trace w')
           = pushes (trace w) ++ [(formData, Js.get "csrfToken" data)]
        /\ (exists later,
              trace w'
              = trace w
                ++ Fetched Net.GetCsrfToken
                   :: Fetched (Net.AutoSaveForm formData (Js.get "csrfToken" data))
                   :: later)
        /\ syncToServer formData w = push formData (snd (loadCsrfToken w)))
  /\ (Js.truthy (csrfToken (this w)) = false ->
      grants_token (next_reply w) = false ->
      pushes (trace w') = pushes (trace w)
      /\ retryCount (this w') = retryCount (this w)
      /\ timers w' = timers w
      /\ fst (syncToServer formData w) = Js.Undefined)
  /\ (forall page,
        w = answered (new_FormAutoSaveService page) ->
        grants_token (next_reply page) = false ->
        grants_token (next_reply w) = false ->
        pushes (trace w') = pushes (trace w)
        /\ retryCount (this w') = 0%nat
        /\ timers w' = timers w).
Proof.
  intros w'.
  assert (Js.truthy (csrfToken (this w)) = false ->
          grants_token (next_reply w) = false ->
          pushes (trace w') = pushes (trace w)
          /\ retryCount (this w') = retryCount (this w)
          /\ timers w' = timers w
          /\ fst (syncToServer formData w) = Js.Undefined) as Hrefused.
  { intros Hno Hfail. unfold w', syncToServer. rewrite Hno. simpl.
    pose proof (loadCsrfToken_refused w Hfail) as Hthis. rewrite Hthis, Hno.
    simpl. pose proof (loadCsrfToken_frame w) as Hl. cbv zeta in Hl.
    destruct_and!. by rewrite Hthis. }
  assert (forall w0, pushes (trace (snd (push formData w0)))
                     = pushes (trace w0) ++ [(formData, csrfToken (this w0))])
    as Hpush.
  { intros w0. unfold_ops. split_cases; tidy. }
  assert (forall w0, token_requests (trace (snd (push formData w0)))
                     = token_requests (trace w0)) as Hasked.
  { intros w0. unfold token_requests. unfold_ops.
    split_cases; simpl; rewrite ?List.filter_app; simpl; by rewrite ?app_nil_r. }
  split; [|split; [|split; [|split; [|split]]]].
  - unfold w', syncToServer.
    destruct (Js.truthy (csrfToken (this w))) eqn:Htok; simpl.
    + exists [(formData, csrfToken (this w))]. rewrite Hpush.
      split; [done|]. split; [simpl; lia|]. by repeat constructor.
    + pose proof (loadCsrfToken_frame w) as Hl. cbv zeta in Hl.
      destruct Hl as (_ & _ & _ & _ & _ & _ & _ & _ & _ & _ & _ & _ & Hp).
      destruct (Js.truthy (csrfToken (this (snd (loadCsrfToken w))))) eqn:Htok';
        simpl.
      * exists [(formData, csrfToken (this (snd (loadCsrfToken w))))].
        rewrite Hpush. rewrite Hp.
        split; [done|]. split; [simpl; lia|]. by repeat constructor.
      * exists []. rewrite Hp, app_nil_r. split; [done|]. split; [simpl; lia|].
        constructor.
  - intros Hheld. unfold w'. rewrite syncToServer_with_token by done.
    by rewrite Hpush, Hasked.
  - intros Hno. unfold w', syncToServer. rewrite Hno. simpl.
    unfold_ops. split_cases; rewrite <- ?app_assoc; simpl; eauto.
  - intros Hno ok data Hreply Hgrant.
    destruct (loadCsrfToken_granted w ok data Hreply Hgrant)
      as (Htoken & Htruthy & Htrace & _). cbv zeta in *.
    assert (syncToServer formData w = push formData (snd (loadCsrfToken w))) as Hsync.
    { unfold syncToServer. rewrite Hno. simpl. by rewrite Htoken, Htruthy. }
    unfold w'. rewrite Hsync. split; [done|]. split; [|split; [|split; [|done]]].
    + pose proof (push_frame formData (snd (loadCsrfToken w))) as Hf.
      cbv zeta in Hf. destruct Hf as (_ & _ & _ & _ & _ & _ & _ & -> & _). done.
    + rewrite Hpush, Htoken. f_equal.
      pose proof (loadCsrfToken_frame w) as Hl. cbv zeta in Hl. by destruct_and!.
    + destruct (trace_push formData (snd (loadCsrfToken w))) as (later & ->).
      exists later. by rewrite Htrace, Htoken, <- app_assoc.
  - exact Hrefused.
  - intros page -> Hfirst Hsecond.
    assert (this (answered (new_FormAutoSaveService page))
            = Service 0 None None Js.Null true None) as Hthis.
    { rewrite answered_new. by rewrite loadCsrfToken_refused. }
    destruct Hrefused as (Hp & Hr & Ht & _); [by rewrite Hthis|done|].
    split; [done|]. split; [|done]. fold w' in Hr. rewrite Hr. by rewrite Hthis.
Qed.

(** Two pages.  On the first the endpoint never answers: the
    constructor's token request fails, then the one [syncToServer] makes;
    nothing is pushed and no retry is used up.  On the second the service
    holds no token, the endpoint grants one and accepts the snapshot: the
    token request goes out first and the snapshot is pushed with the
    token just granted. *)
Lemma C8_witness :
  let page :=
    Sample.world_at 9000 (Sample.membershipForm "Asha" EmptyString false false [])
      ∅ [] in
  let w := answered (new_FormAutoSaveService page) in
  let w' := snd (syncToServer (Sample.snapshot "Asha" 9000) w) in
  let granted :=
    Net.Reply true [("success"%string, Js.Bool true); ("csrfToken"%string, Js.Str "t2")] in
  let fresh :=
    with_this (Service 0 None (Some "membershipForm"%string) Js.Null true None)
      (Sample.world_at 9000 (Sample.membershipForm "Asha" EmptyString false false [])
         ∅ [granted; Sample.ok]) in
  ((grants_token (next_reply page) = false
    /\ grants_token (next_reply w) = false
    /\ Js.truthy (csrfToken (this w)) = false)
   /\ pushes (trace w') = pushes (trace w)
   /\ retryCount (this w') = 0%nat
   /\ timers w' = timers w)
  /\ ((Js.truthy (csrfToken (this fresh)) = false
       /\ grants_token (next_reply fresh) = true)
      /\ csrfToken (this (snd (syncToServer (Sample.snapshot "Asha" 9000) fresh)))
         = Js.Str "t2"
      /\ pushes (trace (snd (syncToServer (Sample.snapshot "Asha" 9000) fresh)))
         = [(Sample.snapshot "Asha" 9000, Js.Str "t2")]).
Proof.
  intros page w w' granted fresh. split.
  - destruct (C8_token_before_push (Sample.snapshot "Asha" 9000) w)
      as (_ & _ & _ & _ & _ & Htwice).
    split; [by repeat split|].
    exact (Htwice page eq_refl eq_refl eq_refl).
  - destruct (C8_token_before_push (Sample.snapshot "Asha" 9000) fresh)
      as (_ & _ & _ & Hgranted & _).
    destruct (Hgranted eq_refl true
                [("success"%string, Js.Bool true); ("csrfToken"%string, Js.Str "t2")]
                eq_refl eq_refl) as (_ & Htoken & Hpushed & _).
    split; [by split|]. split; [exact Htoken|exact Hpushed].
Defined.

(* ===================================================================== *)
(** ** Timers *)
(* ===================================================================== *)

Lemma quiet_same w w' :
  timers w' = timers w -> nextTimer w' = nextTimer w ->
  enabled (this w') = enabled (this w) ->
  saveTimer (this w') = saveTimer (this w) ->
  clock w' = clock w ->
  quiet w w'.
Proof.
  intros Ht Hn He Hs Hc. split; [|done]. exists [].
  rewrite app_nil_r. simpl. repeat split; [done|constructor|lia].
Qed.

Lemma quiet_trans w1 w2 w3 : quiet w1 w2 -> quiet w2 w3 -> quiet w1 w3.
Proof.
  intros [(n1 & Ht1 & Hs1 & Hh1 & Hn1) (He1 & Hv1 & Hc1)]
         [(n2 & Ht2 & Hs2 & Hh2 & Hn2) (He2 & Hv2 & Hc2)].
  split; [|repeat split; congruence].
  exists (n1 ++ n2). rewrite Ht2, Ht1, <- app_assoc. split; [done|].
  split; [by apply Forall_app|]. split.
  - rewrite map_app, length_app, seq_app, Hh1, Hh2, Hn1. done.
  - rewrite Hn2, Hn1, length_app. lia.
Qed.

Lemma quiet_setTimeout cb delay w :
  cb <> RunSaveFormData -> quiet w (snd (setTimeout cb delay w)).
Proof.
  intros Hcb. split; [|done]. eexists [_]. simpl.
  repeat split; [|lia]. constructor; [|constructor].
  unfold is_save. simpl. by destruct cb.
Qed.

Lemma quiet_show_indicator message w : quiet w (show_indicator message w).
Proof.
  unfold show_indicator.
  eapply quiet_trans; [|by apply quiet_setTimeout]. by apply quiet_same.
Qed.

Lemma quiet_showError message w : quiet w (showError message w).
Proof.
  unfold showError.
  eapply quiet_trans; [|by apply quiet_setTimeout]. by apply quiet_same.
Qed.

Lemma quiet_saveToLocalStorage data w : quiet w (saveToLocalStorage data w).
Proof.
  unfold saveToLocalStorage. destruct (storageFull w).
  - by apply quiet_same.
  - eapply quiet_trans; [|apply quiet_show_indicator]. by apply quiet_same.
Qed.

Lemma quiet_loadCsrfToken w : quiet w (snd (loadCsrfToken w)).
Proof.
  pose proof (loadCsrfToken_frame w) as H. cbv zeta in H. destruct_and!.
  by apply quiet_same.
Qed.

Lemma quiet_push formData w : quiet w (snd (push formData w)).
Proof.
  unfold push, fetch. cbn -[setTimeout showError].
  destruct (reports_success (next_reply w)); cbn -[setTimeout showError].
  - by apply quiet_same.
  - destruct (_ <=? _)%nat.
    + eapply quiet_trans; [|by apply quiet_setTimeout]. by apply quiet_same.
    + eapply quiet_trans; [|apply quiet_showError]. by apply quiet_same.
Qed.

Lemma quiet_syncToServer formData w : quiet w (snd (syncToServer formData w)).
Proof.
  unfold syncToServer. destruct (negb _); [|apply quiet_push].
  destruct (negb _); simpl; [apply quiet_loadCsrfToken|].
  eapply quiet_trans; [apply quiet_loadCsrfToken|apply quiet_push].
Qed.

Lemma quiet_saveFormData forceSync w : quiet w (saveFormData forceSync w).
Proof.
  unfold saveFormData. destruct (negb _); [by apply quiet_same|].
  assert (quiet w (saveToLocalStorage (getFormData w)
                     (log (Saved (clock w) forceSync) w))) as H1.
  { eapply quiet_trans; [|apply quiet_saveToLocalStorage]. by apply quiet_same. }
  destruct (forceSync || _); [|done].
  eapply quiet_trans; [exact H1|apply quiet_syncToServer].
Qed.

Lemma quiet_run cb w : quiet w (run cb w).
Proof.
  destruct cb; simpl;
    [apply quiet_saveFormData|apply quiet_syncToServer|by apply quiet_same..].
Qed.

Lemma filter_none {A} (f : A -> bool) (l : list A) :
  Forall (fun x => f x = false) l -> List.filter f l = [].
Proof. induction 1 as [|x l Hx _ IH]; simpl; [done|]. by rewrite Hx. Qed.

(** What quiet steps keep. *)
Lemma quiet_save_timers w w' :
  quiet w w' -> List.filter is_save (timers w') = List.filter is_save (timers w).
Proof.
  intros [(new & -> & Hnew & _) _]. rewrite List.filter_app.
  by rewrite (filter_none _ _ Hnew), app_nil_r.
Qed.

Lemma quiet_handles_fresh w w' : quiet w w' -> handles_fresh w -> handles_fresh w'.
Proof.
  intros [(new & Ht & _ & Hh & Hn) _] [Hnd Hlt]. split.
  - rewrite Ht, map_app, Hh. apply NoDup_app. split; [done|]. split.
    + intros x Hx Hseq. apply list_elem_of_In, in_seq in Hseq.
      apply list_elem_of_In, in_map_iff in Hx as (t & <- & Hin).
      rewrite Forall_forall in Hlt. apply list_elem_of_In, Hlt in Hin. lia.
    + apply NoDup_ListNoDup, seq_NoDup.
  - rewrite Ht, Hn. apply Forall_app. split.
    + eapply Forall_impl; [exact Hlt|]. simpl. intros. lia.
    + apply Forall_forall. intros t Hin.
      assert (In (handle t) (map handle new)) as Hm
        by (apply in_map, list_elem_of_In, Hin).
      rewrite Hh in Hm. apply in_seq in Hm. lia.
Qed.

Lemma saves_saveToLocalStorage data w :
  saves (trace (saveToLocalStorage data w)) = saves (trace w).
Proof. unfold_ops. split_cases; tidy. Qed.

Lemma saves_saveFormData forceSync w :
  enabled (this w) = true ->
  saves (trace (saveFormData forceSync w)) = saves (trace w) ++ [clock w].
Proof.
  intros Hen. unfold saveFormData. rewrite Hen. simpl.
  set (w1 := saveToLocalStorage _ _).
  assert (saves (trace w1) = saves (trace w) ++ [clock w]) as H1.
  { unfold w1. by rewrite saves_saveToLocalStorage, saves_log. }
  pose proof (syncToServer_frame (getFormData w) w1) as Hs. cbv zeta in Hs.
  destruct (forceSync || _); [|done]. destruct_and!. congruence.
Qed.

Lemma saves_run cb w :
  cb <> RunSaveFormData -> saves (trace (run cb w)) = saves (trace w).
Proof.
  intros Hcb. destruct cb; simpl; try done.
  pose proof (syncToServer_frame formData w) as Hs. cbv zeta in Hs.
  by destruct_and!.
Qed.

Lemma filter_filter_comm {A} (f g : A -> bool) (l : list A) :
  List.filter f (List.filter g l) = List.filter g (List.filter f l).
Proof.
  induction l as [|x l IH]; simpl; [done|].
  destruct (g x) eqn:Hg, (f x) eqn:Hf; simpl; rewrite ?Hg, ?Hf, IH; done.
Qed.

Lemma filter_nil_Forall {A} (f : A -> bool) (l : list A) :
  List.filter f l = [] -> Forall (fun x => f x = false) l.
Proof.
  induction l as [|x l IH]; simpl; [constructor|].
  destruct (f x) eqn:Hf; [done|]. intros H. constructor; auto.
Qed.

Lemma filter_single_split {A} (f : A -> bool) (l : list A) (x : A) :
  List.filter f l = [x] ->
  exists l1 l2,
    l = l1 ++ x :: l2
    /\ Forall (fun y => f y = false) l1 /\ Forall (fun y => f y = false) l2.
Proof.
  induction l as [|y l IH]; simpl; [done|].
  destruct (f y) eqn:Hf.
  - intros [= -> Hl]. exists [], l. repeat split; [constructor|].
    by apply filter_nil_Forall.
  - intros Hl. destruct (IH Hl) as (l1 & l2 & -> & H1 & H2).
    exists (y :: l1), l2. repeat split; [by constructor|done].
Qed.

Lemma NoDup_map_filter {A B} (f : A -> B) (p : A -> bool) (l : list A) :
  NoDup (map f l) -> NoDup (map f (List.filter p l)).
Proof.
  induction l as [|x l IH]; simpl; [done|].
  intros Hnd. apply NoDup_cons in Hnd as [Hx Hnd].
  destruct (p x); simpl; [|by apply IH].
  apply NoDup_cons. split; [|by apply IH].
  intros Hin. apply Hx. apply list_elem_of_In, in_map_iff in Hin as (y & <- & Hy).
  apply filter_In in Hy as [Hy _]. by apply list_elem_of_In, in_map.
Qed.

Lemma Forall_filter_keep {A} (P : A -> Prop) (p : A -> bool) (l : list A) :
  Forall P l -> Forall P (List.filter p l).
Proof.
  induction 1 as [|x l Hx _ IH]; simpl; [constructor|].
  destruct (p x); [by constructor|done].
Qed.

Lemma clearTimeout_handles_fresh h w :
  handles_fresh w -> handles_fresh (clearTimeout h w).
Proof.
  intros [Hnd Hlt]. destruct h as [n|]; [|done]. split; simpl.
  - by apply NoDup_map_filter.
  - by apply Forall_filter_keep.
Qed.

Lemma setTimeout_handles_fresh cb delay w :
  handles_fresh w -> handles_fresh (snd (setTimeout cb delay w)).
Proof.
  intros [Hnd Hlt]. split; simpl.
  - rewrite map_app. simpl. apply NoDup_app. split; [done|]. split.
    + intros x Hx Hin. apply list_elem_of_In in Hin as [<-|[]].
      apply list_elem_of_In, in_map_iff in Hx as (t & Ht & Hin).
      rewrite Forall_forall in Hlt. apply list_elem_of_In, Hlt in Hin. lia.
    + apply NoDup_singleton.
  - apply Forall_app. split.
    + eapply Forall_impl; [exact Hlt|]. simpl. intros. lia.
    + constructor; [simpl; lia|constructor].
Qed.

Lemma clearTimeout_save_timers n w :
  List.filter is_save (timers (clearTimeout (Some n) w))
  = List.filter (fun t => bool_decide (handle t <> n)) (List.filter is_save (timers w)).
Proof. simpl. apply filter_filter_comm. Qed.

Lemma clearTimeout_tracked w :
  debounce_tracked w ->
  List.filter is_save (timers (clearTimeout (saveTimer (this w)) w)) = [].
Proof.
  unfold debounce_tracked. rewrite Forall_forall. intros Htr.
  apply filter_none, Forall_forall. intros t Hin.
  destruct (is_save t) eqn:Hsave; [exfalso|done].
  destruct (saveTimer (this w)) as [n|] eqn:Hs; simpl in Hin.
  - apply list_elem_of_In, filter_In in Hin as [Hin Hne].
    apply bool_decide_eq_true in Hne.
    apply list_elem_of_In in Hin. specialize (Htr t Hin Hsave). congruence.
  - specialize (Htr t Hin Hsave). congruence.
Qed.

Lemma armed_tracked h d w : armed h d w -> debounce_tracked w.
Proof.
  intros (_ & Hs & Hf & _). unfold debounce_tracked. apply Forall_forall.
  intros t Hin Hsave.
  assert (In t (List.filter is_save (timers w))) as Hin'
    by (apply filter_In; split; [by apply list_elem_of_In|done]).
  rewrite Hf in Hin'. destruct Hin' as [<-|[]]. done.
Qed.

Lemma unarmed_tracked w : unarmed w -> debounce_tracked w.
Proof.
  intros (_ & Hf & _). unfold debounce_tracked.
  eapply Forall_impl; [apply filter_nil_Forall, Hf|]. simpl. congruence.
Qed.

(** [handleFormChange] with auto-save on: whatever debounce timer was
    pending is gone, one is pending for 2000 ms from now. *)
Lemma handleFormChange_arms w :
  enabled (this w) = true ->
  handles_fresh w ->
  debounce_tracked w ->
  armed (nextTimer w) (clock w + 2000) (handleFormChange w)
  /\ saves (trace (handleFormChange w)) = saves (trace w)
  /\ clock (handleFormChange w) = clock w.
Proof.
  intros Hen Hfresh Htr. unfold handleFormChange. rewrite Hen.
  cbn -[clearTimeout].
  assert (nextTimer (clearTimeout (saveTimer (this w)) w) = nextTimer w) as Hn
    by (by destruct (saveTimer (this w))).
  assert (clock (clearTimeout (saveTimer (this w)) w) = clock w) as Hc
    by (by destruct (saveTimer (this w))).
  assert (trace (clearTimeout (saveTimer (this w)) w) = trace w) as Htrace
    by (by destruct (saveTimer (this w))).
  assert (enabled (this (clearTimeout (saveTimer (this w)) w)) = true) as Hen'
    by (by destruct (saveTimer (this w))).
  rewrite Hn, Hc, Htrace. split; [|done].
  split; [done|]. split; [done|]. split.
  - cbn -[clearTimeout]. rewrite List.filter_app, clearTimeout_tracked by done.
    done.
  - pose proof (setTimeout_handles_fresh RunSaveFormData 2000 _
                  (clearTimeout_handles_fresh (saveTimer (this w)) w Hfresh)) as H.
    unfold handles_fresh in *. cbn -[clearTimeout] in *. by rewrite Hn, Hc in H.
Qed.

Lemma armed_quiet h d w w' : quiet w w' -> armed h d w -> armed h d w'.
Proof.
  intros Hq (Hen & Hs & Hf & Hfresh). pose proof Hq as [_ (He' & Hs' & _)].
  repeat split; try congruence.
  - by rewrite (quiet_save_timers _ _ Hq).
  - apply (quiet_handles_fresh _ _ Hq Hfresh).
  - apply (quiet_handles_fresh _ _ Hq Hfresh).
Qed.

Lemma unarmed_quiet w w' : quiet w w' -> unarmed w -> unarmed w'.
Proof.
  intros Hq (Hen & Hf & Hfresh). pose proof Hq as [_ (He' & _)].
  repeat split; try congruence.
  - by rewrite (quiet_save_timers _ _ Hq).
  - apply (quiet_handles_fresh _ _ Hq Hfresh).
  - apply (quiet_handles_fresh _ _ Hq Hfresh).
Qed.

Lemma not_save_action t : is_save t = false -> action t <> RunSaveFormData.
Proof. unfold is_save. by destruct (action t). Qed.

(** A timer other than the debounce timer fires: the debounce timer stays
    pending and nothing is saved. *)
Lemma fire_other_armed h d t w :
  armed h d w -> is_save t = false -> handle t <> h ->
  armed h d (fire t w)
  /\ saves (trace (fire t w)) = saves (trace w)
  /\ clock (fire t w) = clock w.
Proof.
  intros Harmed Hsave Hne. unfold fire. destruct (pending (handle t) w); [|done].
  assert (armed h d (clearTimeout (Some (handle t)) w)) as Hc.
  { destruct Harmed as (Hen & Hs & Hf & Hfresh). repeat split; try done.
    - rewrite clearTimeout_save_timers, Hf. simpl.
      by rewrite bool_decide_true by done.
    - by apply clearTimeout_handles_fresh.
    - by apply clearTimeout_handles_fresh. }
  pose proof (quiet_run (action t) (clearTimeout (Some (handle t)) w)) as Hq.
  split; [by eapply armed_quiet|].
  rewrite saves_run by (by apply not_save_action).
  destruct Hq as [_ (_ & _ & Hclock)]. by rewrite Hclock.
Qed.

Lemma fire_other_unarmed t w :
  unarmed w -> is_save t = false ->
  unarmed (fire t w)
  /\ saves (trace (fire t w)) = saves (trace w)
  /\ clock (fire t w) = clock w.
Proof.
  intros Hun Hsave. unfold fire. destruct (pending (handle t) w); [|done].
  assert (unarmed (clearTimeout (Some (handle t)) w)) as Hc.
  { destruct Hun as (Hen & Hf & Hfresh). repeat split; try done.
    - by rewrite clearTimeout_save_timers, Hf.
    - by apply clearTimeout_handles_fresh.
    - by apply clearTimeout_handles_fresh. }
  pose proof (quiet_run (action t) (clearTimeout (Some (handle t)) w)) as Hq.
  split; [by eapply unarmed_quiet|].
  rewrite saves_run by (by apply not_save_action).
  destruct Hq as [_ (_ & _ & Hclock)]. by rewrite Hclock.
Qed.

(** The debounce timer fires: [saveFormData] runs once, now. *)
Lemma fire_save_armed h d w :
  armed h d w ->
  let w' := fire (Timer h d RunSaveFormData) w in
  unarmed w'
  /\ saves (trace w') = saves (trace w) ++ [clock w]
  /\ clock w' = clock w.
Proof.
  intros (Hen & Hs & Hf & Hfresh). cbv zeta. unfold fire. cbn [handle action].
  assert (pending h w = true) as ->.
  { unfold pending. apply existsb_exists. exists (Timer h d RunSaveFormData).
    split; [|simpl; apply Nat.eqb_refl].
    assert (In (Timer h d RunSaveFormData) (List.filter is_save (timers w))) as Hin
      by (rewrite Hf; by left).
    by apply filter_In in Hin as [Hin _]. }
  cbn -[clearTimeout saveFormData].
  set (w1 := clearTimeout (Some h) w).
  assert (unarmed w1) as Hun.
  { repeat split; try done.
    - unfold w1. rewrite clearTimeout_save_timers, Hf. simpl.
      by rewrite bool_decide_false by (intros Hne; by apply Hne).
    - by apply clearTimeout_handles_fresh.
    - by apply clearTimeout_handles_fresh. }
  pose proof (quiet_saveFormData false w1) as Hq.
  split; [by eapply unarmed_quiet|].
  rewrite saves_saveFormData by done.
  destruct Hq as [_ (_ & _ & Hclock)]. by rewrite Hclock.
Qed.

Lemma fold_fire_armed h d ts w :
  Forall (fun t => is_save t = false /\ handle t <> h) ts ->
  armed h d w ->
  let w' := fold_left (fun w' t => fire t w') ts w in
  armed h d w' /\ saves (trace w') = saves (trace w) /\ clock w' = clock w.
Proof.
  intros Hts. revert w. induction Hts as [|t ts [Hsave Hne] _ IH]; simpl;
    intros w Harmed; [done|].
  destruct (fire_other_armed h d t w Harmed Hsave Hne) as (H1 & H2 & H3).
  destruct (IH _ H1) as (H4 & H5 & H6). split; [done|split; congruence].
Qed.

Lemma fold_fire_unarmed ts w :
  Forall (fun t => is_save t = false) ts ->
  unarmed w ->
  let w' := fold_left (fun w' t => fire t w') ts w in
  unarmed w' /\ saves (trace w') = saves (trace w) /\ clock w' = clock w.
Proof.
  intros Hts. revert w. induction Hts as [|t ts Hsave _ IH]; simpl;
    intros w Hun; [done|].
  destruct (fire_other_unarmed t w Hun Hsave) as (H1 & H2 & H3).
  destruct (IH _ H1) as (H4 & H5 & H6). split; [done|split; congruence].
Qed.

Lemma armed_split h d w :
  armed h d w ->
  exists l1 l2,
    timers w = l1 ++ Timer h d RunSaveFormData :: l2
    /\ Forall (fun t => is_save t = false /\ handle t <> h) l1
    /\ Forall (fun t => is_save t = false /\ handle t <> h) l2.
Proof.
  intros (_ & _ & Hf & [Hnd _]).
  destruct (filter_single_split _ _ _ Hf) as (l1 & l2 & Ht & H1 & H2).
  exists l1, l2. split; [done|].
  rewrite Ht, map_app in Hnd. simpl in Hnd.
  apply NoDup_app in Hnd as (_ & Hdisj & Hnd2).
  apply NoDup_cons in Hnd2 as [Hnot _].
  rewrite Forall_forall in H1, H2.
  split; apply Forall_forall; intros t Hin; (split; [by auto|]).
  - intros Heq. apply (Hdisj h); [|by left].
    rewrite <- Heq. by apply list_elem_of_In, in_map, list_elem_of_In.
  - intros Heq. apply Hnot. rewrite <- Heq.
    by apply list_elem_of_In, in_map, list_elem_of_In.
Qed.

Lemma armed_with_clock h d c w : armed h d w -> armed h d (with_clock c w).
Proof. done. Qed.

Lemma unarmed_with_clock c w : unarmed w -> unarmed (with_clock c w).
Proof. done. Qed.

(** A millisecond during which the debounce timer does not come due. *)
Lemma tick_armed_wait h d w :
  armed h d w -> clock w + 1 < d ->
  armed h d (tick w)
  /\ saves (trace (tick w)) = saves (trace w)
  /\ clock (tick w) = clock w + 1.
Proof.
  intros Harmed Hlt. unfold tick. cbv zeta.
  destruct (armed_split h d w Harmed) as (l1 & l2 & Ht & H1 & H2).
  apply (fold_fire_armed h d _ (with_clock (clock w + 1) w)); [|done].
  simpl. rewrite Ht, List.filter_app. simpl.
  destruct (Z.leb_spec d (clock w + 1)); [lia|].
  apply Forall_app. split; by apply Forall_filter_keep.
Qed.

(** The millisecond in which the debounce timer comes due. *)
Lemma tick_armed_fire h d w :
  armed h d w -> d <= clock w + 1 ->
  unarmed (tick w)
  /\ saves (trace (tick w)) = saves (trace w) ++ [clock w + 1]
  /\ clock (tick w) = clock w + 1.
Proof.
  intros Harmed Hle. unfold tick. cbv zeta.
  destruct (armed_split h d w Harmed) as (l1 & l2 & Ht & H1 & H2).
  simpl. rewrite Ht, List.filter_app. simpl.
  destruct (Z.leb_spec d (clock w + 1)); [|lia].
  rewrite fold_left_app. simpl.
  set (w1 := with_clock (clock w + 1) w).
  destruct (fold_fire_armed h d (List.filter (fun t => due t <=? clock w + 1) l1) w1)
    as (Ha & Hs & Hc); [by apply Forall_filter_keep|done|].
  cbv zeta in Ha, Hs, Hc.
  destruct (fire_save_armed h d _ Ha) as (Hu & Hs' & Hc'). cbv zeta in Hu, Hs', Hc'.
  assert (Forall (fun t => is_save t = false)
            (List.filter (fun t => due t <=? clock w + 1) l2)) as Hl2.
  { apply Forall_filter_keep. eapply Forall_impl; [exact H2|]. by intros t [? _]. }
  destruct (fold_fire_unarmed _ _ Hl2 Hu) as (Hu2 & Hs2 & Hc2).
  cbv zeta in Hu2, Hs2, Hc2. split; [done|]. split.
  - rewrite Hs2, Hs', Hs, Hc. done.
  - rewrite Hc2, Hc', Hc. done.
Qed.

Lemma tick_unarmed w :
  unarmed w ->
  unarmed (tick w)
  /\ saves (trace (tick w)) = saves (trace w)
  /\ clock (tick w) = clock w + 1.
Proof.
  intros Hun. unfold tick. cbv zeta.
  apply (fold_fire_unarmed _ (with_clock (clock w + 1) w)); [|done].
  apply Forall_filter_keep. simpl. apply filter_nil_Forall. by destruct Hun as (_ & ? & _).
Qed.

Lemma advance_add m n w : advance (m + n) w = advance n (advance m w).
Proof. revert w. induction m as [|m IH]; simpl; [done|]. intros w. apply IH. Qed.

Lemma advance_unarmed n w :
  unarmed w ->
  unarmed (advance n w)
  /\ saves (trace (advance n w)) = saves (trace w)
  /\ clock (advance n w) = clock w + Z.of_nat n.
Proof.
  revert w. induction n as [|n IH]; intros w Hun.
  - simpl. split; [done|]. split; [done|lia].
  - destruct (tick_unarmed w Hun) as (H1 & H2 & H3).
    destruct (IH _ H1) as (H4 & H5 & H6). simpl advance.
    split; [done|]. split; [congruence|lia].
Qed.

Lemma advance_armed_wait h d n w :
  armed h d w -> clock w + Z.of_nat n < d ->
  armed h d (advance n w)
  /\ saves (trace (advance n w)) = saves (trace w)
  /\ clock (advance n w) = clock w + Z.of_nat n.
Proof.
  revert w. induction n as [|n IH]; intros w Harmed Hlt.
  - simpl. split; [done|]. split; [done|lia].
  - destruct (tick_armed_wait h d w Harmed) as (H1 & H2 & H3); [lia|].
    destruct (IH _ H1) as (H4 & H5 & H6); [lia|]. simpl advance.
    split; [done|]. split; [congruence|lia].
Qed.

(** Waiting past the due time of the pending debounce timer: one save, at
    that time, and none after it. *)
Lemma advance_armed_fire h d n w :
  armed h d w -> clock w < d -> d <= clock w + Z.of_nat n ->
  unarmed (advance n w)
  /\ saves (trace (advance n w)) = saves (trace w) ++ [d]
  /\ clock (advance n w) = clock w + Z.of_nat n.
Proof.
  revert w. induction n as [|n IH]; intros w Harmed Hlt Hle; [lia|].
  simpl advance. destruct (decide (clock w + 1 < d)) as [Hwait|Hnow].
  - destruct (tick_armed_wait h d w Harmed Hwait) as (H1 & H2 & H3).
    destruct (IH _ H1) as (H4 & H5 & H6); [lia..|].
    split; [done|]. split; [congruence|lia].
  - destruct (tick_armed_fire h d w Harmed) as (H1 & H2 & H3); [lia|].
    destruct (advance_unarmed n _ H1) as (H4 & H5 & H6).
    split; [done|]. split; [|lia].
    rewrite H5, H2. do 2 f_equal. lia.
Qed.

(* ===================================================================== *)
(** ** Debouncing *)
(* ===================================================================== *)

Lemma armed_invariants h d w :
  armed h d w -> enabled (this w) = true /\ handles_fresh w /\ debounce_tracked w.
Proof.
  intros Harmed. pose proof (armed_tracked _ _ _ Harmed).
  by destruct Harmed as (? & _ & _ & ?).
Qed.

Lemma burst_arms gaps w :
  enabled (this w) = true -> handles_fresh w -> debounce_tracked w ->
  Forall (fun gap => (gap < 2000)%nat) gaps ->
  (exists h, armed h (clock (burst gaps w) + 2000) (burst gaps w))
  /\ saves (trace (burst gaps w)) = saves (trace w)
  /\ clock (burst gaps w) = clock w + Z.of_nat (list_sum gaps).
Proof.
  intros Hen Hfresh Htr Hgaps. revert w Hen Hfresh Htr.
  induction Hgaps as [|gap gaps Hgap _ IH]; intros w Hen Hfresh Htr.
  - simpl. destruct (handleFormChange_arms w Hen Hfresh Htr) as (Ha & Hs & Hc).
    rewrite Hc. split; [eauto|]. split; [done|lia].
  - simpl burst.
    destruct (handleFormChange_arms w Hen Hfresh Htr) as (Ha & Hs & Hc).
    destruct (advance_armed_wait _ _ gap _ Ha) as (Ha' & Hs' & Hc'); [lia|].
    destruct (armed_invariants _ _ _ Ha') as (Hen' & Hfresh' & Htr').
    destruct (IH _ Hen' Hfresh' Htr') as (Harmed & Hsaves & Hclock).
    split; [done|]. split; [congruence|].
    rewrite Hclock, Hc', Hc. simpl list_sum. lia.
Qed.

(** C2.  With auto-save on, a burst of [handleFormChange] calls, each less
    than 2000 ms after the one before, saves nothing while it lasts and
    leaves exactly one debounce timer pending, due 2000 ms after the last
    call; once at least 2000 ms have passed since the last call,
    [saveFormData] has run exactly once, at that due time. *)
Theorem C2_debounce_coalesces gaps wait w :
  enabled (this w) = true ->
  handles_fresh w ->
  debounce_tracked w ->
  Forall (fun gap => (gap < 2000)%nat) gaps ->
  (2000 <= wait)%nat ->
  let last := burst gaps w in
  clock last = clock w + Z.of_nat (list_sum gaps)
  /\ saves (trace last) = saves (trace w)
  /\ (exists h,
        List.filter is_save (timers last)
        = [Timer h (clock last + 2000) RunSaveFormData])
  /\ saves (trace (advance wait last)) = saves (trace w) ++ [clock last + 2000].
Proof.
  intros Hen Hfresh Htr Hgaps Hwait last.
  destruct (burst_arms gaps w Hen Hfresh Htr Hgaps) as ([h Harmed] & Hsaves & Hclock).
  fold last in Harmed, Hsaves, Hclock.
  split; [done|]. split; [done|]. split.
  - exists h. by destruct Harmed as (_ & _ & ? & _).
  - destruct (advance_armed_fire _ _ wait _ Harmed) as (_ & Hfire & _); [lia..|].
    by rewrite Hfire, Hsaves.
Qed.

(** Four changes, 500, 1999 and 1 ms apart, starting at 1000: one save. *)
Lemma C2_witness :
  let w :=
    Sample.world_at 1000 (Sample.membershipForm "Asha" EmptyString false false [])
      ∅ [] in
  let last := burst [500; 1999; 1]%nat w in
  (enabled (this w) = true
   /\ handles_fresh w
   /\ debounce_tracked w
   /\ Forall (fun gap => (gap < 2000)%nat) [500; 1999; 1]%nat
   /\ (2000 <= 2000)%nat)
  /\ clock last = clock w + Z.of_nat (list_sum [500; 1999; 1]%nat)
  /\ saves (trace last) = saves (trace w)
  /\ (exists h,
        List.filter is_save (timers last)
        = [Timer h (clock last + 2000) RunSaveFormData])
  /\ saves (trace (advance 2000 last)) = saves (trace w) ++ [clock last + 2000].
Proof.
  intros w last.
  assert (Forall (fun gap => (gap < 2000)%nat) [500; 1999; 1]%nat) as Hgaps
    by (repeat constructor; lia).
  assert (handles_fresh w) as Hfresh by (split; constructor).
  assert (debounce_tracked w) as Htracked by constructor.
  split; [split; [reflexivity|split; [exact Hfresh|split;
            [exact Htracked|split; [exact Hgaps|lia]]]]|].
  apply (C2_debounce_coalesces [500; 1999; 1]%nat 2000 w).
  - reflexivity.
  - exact Hfresh.
  - exact Htracked.
  - exact Hgaps.
  - lia.
Defined.

Example burst_saves_once :
  saves (trace (advance 2500
                  (burst [500; 1999; 1]%nat
                     (Sample.world_at 1000
                        (Sample.membershipForm "Asha" EmptyString false false [])
                        ∅ []))))
  = [5500].
Proof. vm_compute. reflexivity. Qed.

(* ===================================================================== *)
(** ** A forced save and the pending debounce timer *)
(* ===================================================================== *)

(** C9, as the claim states it, fails: a change at 1000 arms the debounce
    timer for 3000; the forced save at 1000 leaves that timer pending,
    and at 3000 a second save runs. *)
Lemma C9_flush_counterexample :
  ~ (forall w h d wait,
        armed h d w -> clock w < d -> d <= clock w + Z.of_nat wait ->
        let flushed := saveFormData true w in
        pending h flushed = false
        /\ saves (trace (advance wait flushed)) = saves (trace w) ++ [clock w]).
Proof.
  intros H.
  set (w0 := Sample.world_at 1000
               (Sample.membershipForm "Asha" EmptyString false false []) ∅ []).
  destruct (handleFormChange_arms w0) as (Harmed & _ & _);
    [reflexivity|split; constructor|constructor|].
  specialize (H (handleFormChange w0) _ _ 2000%nat Harmed).
  destruct H as [H _]; [vm_compute; reflexivity|vm_compute; discriminate|].
  vm_compute in H. discriminate.
Qed.

(** C9, amended.  A forced save, [saveFormData(true)], which is what the
    [beforeunload] listener calls, writes its snapshot at once and does
    not cancel the pending debounce timer: the timer stays in the queue,
    and when it comes due (the page still there, auto-save still on)
    [saveFormData] runs a second time. *)
Theorem C9_forced_save_keeps_debounce_timer h d wait w :
  armed h d w ->
  clock w < d ->
  d <= clock w + Z.of_nat wait ->
  let flushed := saveFormData true w in
  (hasUnsavedChanges w = true -> fst (beforeunload w) = flushed)
  /\ saves (trace flushed) = saves (trace w) ++ [clock w]
  /\ In (Timer h d RunSaveFormData) (timers flushed)
  /\ pending h flushed = true
  /\ saves (trace (advance wait flushed)) = saves (trace w) ++ [clock w; d].
Proof.
  intros Harmed Hlt Hle flushed.
  pose proof (quiet_saveFormData true w) as Hq. fold flushed in Hq.
  pose proof (armed_quiet _ _ _ _ Hq Harmed) as Hflushed.
  assert (saves (trace flushed) = saves (trace w) ++ [clock w]) as Hs
    by (apply saves_saveFormData; by destruct Harmed).
  assert (In (Timer h d RunSaveFormData) (timers flushed)) as Hin.
  { destruct Hflushed as (_ & _ & Hf & _).
    assert (In (Timer h d RunSaveFormData) (List.filter is_save (timers flushed)))
      as Hin by (rewrite Hf; by left).
    by apply filter_In in Hin as [Hin _]. }
  split; [|split; [done|split; [done|split]]].
  - intros Hu. unfold beforeunload. by rewrite Hu.
  - unfold pending. apply existsb_exists. eexists. split; [exact Hin|].
    simpl. apply Nat.eqb_refl.
  - destruct Hq as [_ (_ & _ & Hclock)].
    destruct (advance_armed_fire _ _ wait _ Hflushed) as (_ & Hfire & _);
      [lia..|].
    rewrite Hfire, Hs, <- app_assoc. done.
Qed.

(** The change at 1000 and the forced save right after it. *)
Lemma C9_witness :
  let w :=
    handleFormChange
      (Sample.world_at 1000
         (Sample.membershipForm "Asha" EmptyString false false []) ∅ []) in
  let flushed := saveFormData true w in
  (armed 1 3000 w /\ clock w < 3000 /\ 3000 <= clock w + Z.of_nat 2000)
  /\ (hasUnsavedChanges w = true -> fst (beforeunload w) = flushed)
  /\ saves (trace flushed) = saves (trace w) ++ [clock w]
  /\ In (Timer 1 3000 RunSaveFormData) (timers flushed)
  /\ pending 1 flushed = true
  /\ saves (trace (advance 2000 flushed)) = saves (trace w) ++ [clock w; 3000].
Proof.
  intros w flushed.
  assert (armed 1 3000 w) as Harmed.
  { destruct (handleFormChange_arms
                (Sample.world_at 1000
                   (Sample.membershipForm "Asha" EmptyString false false []) ∅ []))
      as (Harmed & _ & _); [reflexivity|split; constructor|constructor|].
    exact Harmed. }
  assert (clock w < 3000) as Hlt by (vm_compute; reflexivity).
  assert (3000 <= clock w + Z.of_nat 2000) as Hle by (vm_compute; discriminate).
  split; [split; [exact Harmed|split; [exact Hlt|exact Hle]]|].
  exact (C9_forced_save_keeps_debounce_timer 1 3000 2000 w Harmed Hlt Hle).
Defined.

Example forced_save_then_second_save :
  saves (trace (advance 2000
                  (saveFormData true
                     (handleFormChange
                        (Sample.world_at 1000
                           (Sample.membershipForm "Asha" EmptyString false false [])
                           ∅ [])))))
  = [1000; 3000].
Proof. vm_compute. reflexivity. Qed.

(* ===================================================================== *)
(** ** Save, reload, restore *)
(* ===================================================================== *)

Lemma own_capture k fd e :
  k <> "__proto__"%string ->
  Js.own k (capture fd e)
  = if capturable e && String.eqb (El.key e) k
    then Some (Js.Str (captured_value e))
    else Js.own k fd.
Proof.
  intros Hk. unfold capture, capturable, captured_value.
  destruct (String.eqb (El.key e) EmptyString); simpl; [done|].
  destruct (El.is_toggle e) eqn:Ht; simpl.
  - assert (El.is_file e = false) as ->.
    { unfold El.is_toggle, El.is_file in *.
      destruct (String.eqb_spec (El.type e) "file") as [Hf|]; [|done].
      rewrite Hf in Ht. done. }
    simpl. destruct (String.eqb_spec (El.key e) k) as [->|Hne].
    + by apply own_assign_eq.
    + by apply own_assign_ne.
  - destruct (El.is_file e); simpl; [done|].
    destruct (String.eqb_spec (El.key e) k) as [->|Hne].
    + by apply own_assign_eq.
    + by apply own_assign_ne.
Qed.

Lemma own_fold_capture k es fd :
  k <> "__proto__"%string ->
  Js.own k (fold_left capture es fd)
  = match last_writer k es with
    | Some e => Some (Js.Str (captured_value e))
    | None => Js.own k fd
    end.
Proof.
  intros Hk. revert fd. induction es as [|e es IH]; simpl; intros fd; [done|].
  rewrite IH. destruct (last_writer k es); [done|].
  rewrite own_capture by done. by destruct (capturable e && _).
Qed.

Lemma own_proto_capture fd e :
  Js.own "__proto__" fd = None -> Js.own "__proto__" (capture fd e) = None.
Proof.
  intros H. unfold capture. repeat case_match; try done; by apply own_assign_proto.
Qed.

Lemma own_proto_fold es fd :
  Js.own "__proto__" fd = None ->
  Js.own "__proto__" (fold_left capture es fd) = None.
Proof.
  revert fd. induction es as [|e es IH]; simpl; intros fd H; [done|].
  by apply IH, own_proto_capture.
Qed.

Lemma last_writer_spec k es e :
  last_writer k es = Some e -> capturable e = true /\ El.key e = k.
Proof.
  induction es as [|e0 es IH]; simpl; [done|].
  destruct (last_writer k es); [intros [= <-]; by apply IH|].
  destruct (capturable e0) eqn:Hc; simpl; [|done].
  destruct (String.eqb_spec (El.key e0) k); [|done]. by intros [= <-].
Qed.

Lemma same_control_spec e1 e2 :
  same_control e1 e2 = true ->
  El.name e1 = El.name e2 /\ El.id e1 = El.id e2 /\ El.type e1 = El.type e2
  /\ (El.is_toggle e1 = true -> El.value e1 = El.value e2).
Proof.
  unfold same_control. rewrite !andb_true_iff, orb_true_iff, negb_true_iff.
  intros [[[Hn Hi] Ht] Hv].
  apply String.eqb_eq in Hn, Hi, Ht. repeat split; try done.
  intros Htog. destruct Hv as [Hv|Hv]; [congruence|by apply String.eqb_eq].
Qed.

Lemma same_control_key e1 e2 :
  same_control e1 e2 = true ->
  El.key e2 = El.key e1 /\ capturable e2 = capturable e1
  /\ El.is_toggle e2 = El.is_toggle e1 /\ El.is_file e2 = El.is_file e1.
Proof.
  intros H. apply same_control_spec in H as (Hn & Hi & Ht & _).
  unfold capturable, El.key, El.is_toggle, El.is_file. by rewrite Hn, Hi, Ht.
Qed.

Lemma restore_element_shape o e :
  El.key (restore_element o e) = El.key e
  /\ capturable (restore_element o e) = capturable e.
Proof.
  unfold restore_element. repeat case_match; done.
Qed.

Lemma last_writer_restore k o es :
  last_writer k (map (restore_element o) es)
  = restore_element o <$> last_writer k es.
Proof.
  induction es as [|e es IH]; simpl; [done|].
  rewrite IH. destruct (last_writer k es); simpl; [done|].
  destruct (restore_element_shape o e) as [-> ->].
  by destruct (capturable e && _).
Qed.

Lemma last_writer_same k es1 es2 :
  Forall2 (fun e1 e2 => same_control e1 e2 = true) es1 es2 ->
  match last_writer k es1, last_writer k es2 with
  | Some e1, Some e2 => same_control e1 e2 = true
  | None, None => True
  | _, _ => False
  end.
Proof.
  induction 1 as [|e1 e2 es1 es2 He _ IH]; simpl; [done|].
  destruct (last_writer k es1), (last_writer k es2); try done.
  destruct (same_control_key _ _ He) as (-> & -> & _).
  by destruct (capturable e1 && _).
Qed.

(** A control restored from a snapshot in which its key holds what its
    copy had contributed contributes the same again. *)
Lemma restore_captures o e1 e2 :
  same_control e1 e2 = true ->
  capturable e1 = true ->
  Js.own (El.key e1) o = Some (Js.Str (captured_value e1)) ->
  captured_value (restore_element o e2) = captured_value e1.
Proof.
  intros Hsame Hcap Hown.
  destruct (same_control_key _ _ Hsame) as (Hk & _ & Htog & Hfile).
  apply same_control_spec in Hsame as (_ & _ & _ & Hval).
  unfold capturable in Hcap. apply andb_true_iff in Hcap as [_ Hnf].
  apply negb_true_iff in Hnf.
  unfold restore_element. rewrite Hk.
  assert (Js.has (El.key e1) o = true) as ->.
  { unfold Js.has. by rewrite Hown. }
  assert (Js.get (El.key e1) o = Js.Str (captured_value e1)) as ->
    by (unfold Js.get; by rewrite Hown).
  rewrite Htog, Hfile, Hnf. unfold captured_value in *.
  destruct (El.is_toggle e1) eqn:Ht; simpl.
  - change (El.is_toggle (El.set_checked ?b e2)) with (El.is_toggle e2).
    rewrite Htog. rewrite <- (Hval eq_refl).
    destruct (El.checked e1); simpl.
    + by rewrite String.eqb_refl.
    + by destruct (El.value e1).
  - change (El.is_toggle (El.set_value ?s e2)) with (El.is_toggle e2).
    rewrite Htog. unfold Js.or_else. simpl.
    by destruct (String.eqb_spec (El.value e1) EmptyString) as [->|].
Qed.

Lemma currentFormId_value_string w :
  Js.to_string (Js.or_else (currentFormId_value w) (currentFormId_value w))
  = currentFormId_string w.
Proof.
  unfold Js.or_else, currentFormId_value, currentFormId_string.
  destruct (currentFormId (this w)) as [s|]; simpl; [|done].
  by destruct (negb _).
Qed.

Lemma getFormData_own_formId w form :
  Dom.getElementById (document w) (currentFormId_string w) = Some form ->
  Js.own "_formId" (getFormData w) = Some (currentFormId_value w).
Proof. intros Hf. unfold getFormData. rewrite Hf. by apply own_assign_eq. Qed.

Lemma getFormData_own w form k :
  Dom.getElementById (document w) (currentFormId_string w) = Some form ->
  k <> "_timestamp"%string -> k <> "_formId"%string -> k <> "__proto__"%string ->
  Js.own k (getFormData w)
  = (fun e => Js.Str (captured_value e)) <$> last_writer k (Dom.elements form).
Proof.
  intros Hf Ht Hi Hp. unfold getFormData. rewrite Hf.
  rewrite !own_assign_ne by done. rewrite own_fold_capture by done.
  by destruct (last_writer k _).
Qed.

Lemma getFormData_own_proto w : Js.own "__proto__" (getFormData w) = None.
Proof.
  unfold getFormData. case_match; [|done].
  do 2 apply own_assign_proto. by apply own_proto_fold.
Qed.

Lemma own_fields k o :
  Js.own k (fields o) = if is_metadata k then None else Js.own k o.
Proof.
  unfold fields. induction o as [|[k' v] o IH]; simpl; [by destruct (is_metadata k)|].
  destruct (String.eqb_spec k' k) as [->|Hne].
  - destruct (is_metadata k) eqn:Hm; simpl; [done|]. by rewrite String.eqb_refl.
  - destruct (is_metadata k'); simpl; [done|].
    by destruct (String.eqb_spec k' k).
Qed.

(** C1.  A snapshot is taken from a form and stored; the page is loaded
    again with the same form, none of its tracked fields filled in, and
    the snapshot is restored.  The form then holds the controls of the
    fresh page, each set by the rule of [restoreSavedData] (text: the
    stored value; checkbox and radio button: checked when the stored value
    equals the control's value), and a snapshot taken from it has the
    fields of the stored one: the two agree under every field key, and
    under [_formId] as well. *)
Theorem C1_restore_round_trip w1 w2 form1 form2 :
  Dom.getElementById (document w1) (currentFormId_string w1) = Some form1 ->
  storageFull w1 = false ->
  localStorage w2 = localStorage (saveToLocalStorage (getFormData w1) w1) ->
  currentFormId (this w2) = currentFormId (this w1) ->
  Dom.getElementById (document w2) (currentFormId_string w2) = Some form2 ->
  Forall2 (fun e1 e2 => same_control e1 e2 = true)
          (Dom.elements form1) (Dom.elements form2) ->
  isFormFilled w2 = false ->
  let restored := after (restoreSavedData w2) in
  Dom.getElementById (document restored) (currentFormId_string restored)
  = Some (Dom.Form (currentFormId_string w2)
            (map (restore_element (getFormData w1)) (Dom.elements form2)))
  /\ (forall k,
        Js.own k (fields (getFormData restored))
        = Js.own k (fields (getFormData w1)))
  /\ Js.own "_formId" (getFormData restored) = Js.own "_formId" (getFormData w1).
Proof.
  intros Hf1 Hfull Hst Hid Hf2 Hsame Hfilled restored.
  assert (currentFormId_string w2 = currentFormId_string w1) as Hids
    by (unfold currentFormId_string; by rewrite Hid).
  assert (currentFormId_value w2 = currentFormId_value w1) as Hidv
    by (unfold currentFormId_value; by rewrite Hid).
  assert (localStorage w2 !! STORAGE_KEY
          = Some (Js.Json 0 (Js.Object (getFormData w1)))) as Hstored.
  { rewrite Hst, saveToLocalStorage_stores by done.
    by rewrite stringify_getFormData. }
  assert (restore_target w2 (Js.Object (getFormData w1)) = currentFormId_string w2)
    as Htarget.
  { unfold restore_target. simpl. unfold Js.get.
    rewrite (getFormData_own_formId w1 form1 Hf1), <- Hidv.
    apply currentFormId_value_string. }
  destruct (restore_done w2 _ (getFormData w1) form2 Hstored eq_refl) as
    (Hforms & Hclock & Hthis); [by rewrite Htarget|done|].
  fold restored in Hforms, Hclock, Hthis. rewrite Htarget in Hforms.
  assert (currentFormId_string restored = currentFormId_string w2) as Hids'
    by (unfold currentFormId_string; by rewrite Hthis).
  assert (Dom.getElementById (document restored) (currentFormId_string restored)
          = Some (Dom.Form (currentFormId_string w2)
                    (map (restore_element (getFormData w1)) (Dom.elements form2))))
    as Hf3.
  { unfold Dom.getElementById. rewrite Hforms, Hids'.
    by eapply find_form_store_eq. }
  assert (Js.own "_formId" (getFormData restored)
          = Js.own "_formId" (getFormData w1)) as Hformid.
  { rewrite (getFormData_own_formId _ _ Hf3), (getFormData_own_formId _ _ Hf1).
    unfold currentFormId_value. by rewrite Hthis, Hid. }
  split; [exact Hf3|]. split; [|exact Hformid]. intros k.
  rewrite !own_fields. destruct (is_metadata k) eqn:Hmeta; [done|].
  unfold is_metadata in Hmeta. apply orb_false_iff in Hmeta as [Hk Hki].
  apply String.eqb_neq in Hk, Hki.
  destruct (decide (k = "__proto__"%string)) as [->|Hkp].
  { by rewrite !getFormData_own_proto. }
  rewrite (getFormData_own _ _ k Hf3), (getFormData_own _ _ k Hf1) by done.
  simpl. rewrite last_writer_restore.
  pose proof (last_writer_same k _ _ Hsame) as Hlast.
  destruct (last_writer k (Dom.elements form1)) as [e1|] eqn:H1,
           (last_writer k (Dom.elements form2)) as [e2|] eqn:H2; try done.
  simpl. do 2 f_equal.
  destruct (last_writer_spec _ _ _ H1) as [Hcap Hkey].
  apply restore_captures; [done..|].
  rewrite Hkey, (getFormData_own _ _ k Hf1) by done. by rewrite H1.
Qed.

(** The registration form with a first name, an e-mail address, the
    second radio button checked and an image chosen; saved at 1000, then
    restored at 9000 into the empty form of a fresh page. *)
Lemma C1_witness :
  let form1 :=
    Sample.membershipForm "Asha" "a@b.in" false true ["front.png"%string] in
  let form2 := Sample.membershipForm EmptyString EmptyString false false [] in
  let w1 := Sample.world_at 1000 form1 ∅ [] in
  let w2 :=
    Sample.world_at 9000 form2
      (localStorage (saveToLocalStorage (getFormData w1) w1)) [] in
  let restored := after (restoreSavedData w2) in
  (Dom.getElementById (document w1) (currentFormId_string w1) = Some form1
   /\ storageFull w1 = false
   /\ currentFormId (this w2) = currentFormId (this w1)
   /\ Dom.getElementById (document w2) (currentFormId_string w2) = Some form2
   /\ Forall2 (fun e1 e2 => same_control e1 e2 = true)
              (Dom.elements form1) (Dom.elements form2)
   /\ isFormFilled w2 = false)
  /\ Dom.getElementById (document restored) (currentFormId_string restored)
     = Some (Dom.Form (currentFormId_string w2)
               (map (restore_element (getFormData w1)) (Dom.elements form2)))
  /\ (forall k,
        Js.own k (fields (getFormData restored))
        = Js.own k (fields (getFormData w1)))
  /\ Js.own "_formId" (getFormData restored) = Js.own "_formId" (getFormData w1).
Proof.
  intros form1 form2 w1 w2 restored.
  assert (Forall2 (fun e1 e2 => same_control e1 e2 = true)
                  (Dom.elements form1) (Dom.elements form2)) as Hsame
    by (repeat constructor).
  split; [split; [reflexivity|split; [reflexivity|split; [reflexivity|split;
            [reflexivity|split; [exact Hsame|reflexivity]]]]]|].
  exact (C1_restore_round_trip w1 w2 form1 form2
           eq_refl eq_refl eq_refl eq_refl eq_refl Hsame eq_refl).
Defined.

Example restored_registration_form :
  let w1 :=
    Sample.world_at 1000
      (Sample.membershipForm "Asha" "a@b.in" false true ["front.png"%string]) ∅ [] in
  let w2 :=
    Sample.world_at 9000
      (Sample.membershipForm EmptyString EmptyString false false [])
      (localStorage (saveToLocalStorage (getFormData w1) w1)) [] in
  Dom.forms (document (after (restoreSavedData w2)))
  = [Sample.membershipForm "Asha" "a@b.in" false true []]
  /\ fields (getFormData (after (restoreSavedData w2))) = fields (getFormData w1)
  /\ getFormData (after (restoreSavedData w2))
     = Js.assign "_timestamp" (Js.Num 9000) (getFormData w1).
Proof. vm_compute. done. Qed.

(* ===================================================================== *)
(** ** The states a page goes through *)
(* ===================================================================== *)

Lemma quiet_write_back target formData elements w :
  quiet w (write_back target formData elements w).
Proof.
  unfold write_back, showAutoRestoreIndicator.
  eapply quiet_trans; [|apply quiet_show_indicator]. by apply quiet_same.
Qed.

Lemma quiet_restore_into formData w : quiet w (after (restore_into formData w)).
Proof.
  unfold restore_into. destruct (Dom.getElementById _ _); [|by apply quiet_same].
  destruct (isFormFilled w); [by apply quiet_same|].
  destruct (restore_elements _ _); [apply quiet_write_back|by apply quiet_same].
Qed.

Lemma quiet_restoreSavedData w : quiet w (after (restoreSavedData w)).
Proof.
  assert (forall c, quiet w (after c) ->
            quiet w (after (try_catch c
                       (fun w' => Normal
                          (log (ConsoleError "Failed to restore saved data:") w')))))
    as Hcatch.
  { intros [w'|w'] Hq; simpl in *; [done|].
    eapply quiet_trans; [exact Hq|by apply quiet_same]. }
  unfold restoreSavedData. apply Hcatch. unfold restore_body.
  destruct (localStorage w !! STORAGE_KEY) as [savedData|]; [|by apply quiet_same].
  destruct savedData as [|layout j|n]; try by apply quiet_same.
  cbn -[restore_into]. destruct j as [o|v]; [apply quiet_restore_into|].
  destruct v; try apply quiet_restore_into. by apply quiet_same.
Qed.

Lemma quiet_loadCsrfToken_reply response w :
  quiet w (snd (loadCsrfToken_reply response w)).
Proof.
  unfold loadCsrfToken_reply.
  destruct response as [|ok data]; [by apply quiet_same|].
  destruct (_ && _); by apply quiet_same.
Qed.

Lemma unarmed_setupFormListeners w : unarmed w -> unarmed (setupFormListeners w).
Proof.
  unfold setupFormListeners.
  generalize (List.filter tracked (Dom.forms (document w))).
  intros fs. revert w. induction fs as [|f fs IH]; simpl; [done|].
  intros w Hw. by apply IH.
Qed.

Lemma unarmed_DOMContentLoaded w : unarmed w -> unarmed (DOMContentLoaded w).
Proof.
  intros Hw. unfold DOMContentLoaded.
  eapply unarmed_quiet; [apply quiet_restoreSavedData|].
  by apply unarmed_setupFormListeners.
Qed.

(** The timer bookkeeping that the statements about debouncing assume is
    what a page has from the start: it holds for a new service on a page
    with no timer pending and still holds after [DOMContentLoaded],
    whether the reply to the constructor's token request has arrived
    before that, arrives after it, or is still on its way. *)
Lemma page_load_invariants page :
  timers page = [] ->
  let sent := new_FormAutoSaveService page in
  Forall (fun w => enabled (this w) = true /\ handles_fresh w /\ debounce_tracked w)
    [ DOMContentLoaded (answered sent);
      answered (fst sent, DOMContentLoaded (snd sent));
      DOMContentLoaded (snd sent) ].
Proof.
  intros Hnone sent.
  assert (unarmed (snd sent)) as H0.
  { unfold sent, new_FormAutoSaveService, initialize, loadCsrfToken_request,
      unarmed, handles_fresh. simpl. rewrite Hnone. repeat split; constructor. }
  assert (forall response w, unarmed w ->
            unarmed (snd (loadCsrfToken_reply response w))) as Hreply.
  { intros response w Hw.
    eapply unarmed_quiet; [apply quiet_loadCsrfToken_reply|done]. }
  assert (forall w, unarmed w ->
            enabled (this w) = true /\ handles_fresh w /\ debounce_tracked w) as Hinv.
  { intros w Hw. pose proof (unarmed_tracked _ Hw). by destruct Hw as (? & _ & ?). }
  apply Forall_cons. split.
  { apply Hinv, unarmed_DOMContentLoaded. exact (Hreply (fst sent) (snd sent) H0). }
  apply Forall_cons. split.
  { apply Hinv. exact (Hreply (fst sent) _ (unarmed_DOMContentLoaded _ H0)). }
  apply Forall_cons. split; [|constructor].
  by apply Hinv, unarmed_DOMContentLoaded.
Qed.

(** And it holds again once a burst has been waited out. *)
Lemma after_burst_invariants gaps wait w :
  enabled (this w) = true -> handles_fresh w -> debounce_tracked w ->
  Forall (fun gap => (gap < 2000)%nat) gaps ->
  (2000 <= wait)%nat ->
  let w' := advance wait (burst gaps w) in
  enabled (this w') = true /\ handles_fresh w' /\ debounce_tracked w'.
Proof.
  intros Hen Hfresh Htr Hgaps Hwait w'.
  destruct (burst_arms gaps w Hen Hfresh Htr Hgaps) as ([h Harmed] & _ & _).
  destruct (advance_armed_fire _ _ wait _ Harmed) as (Hun & _ & _); [lia..|].
  fold w' in Hun. pose proof (unarmed_tracked _ Hun).
  by destruct Hun as (? & _ & ?).
Qed.

(** On a page with both forms [setupFormListeners] leaves the later one,
    the update form, as the current form. *)
Example update_form_is_current :
  currentFormId
    (this (setupFormListeners
             (with_this (Service 0 None None Js.Null true None)
                (Sample.both_forms_at 0 ∅))))
  = Some "updateForm"%string.
Proof. reflexivity. Qed.

(** An endpoint that keeps refusing: the push at 1000 and its retries at
    6000 and 11000 fail, the count stops at 3, the notice is up and no
    timer is left once the notice has been hidden. *)
Example three_failures_then_offline :
  let w :=
    advance (20 * 1000)
      (snd (syncToServer (Sample.snapshot "Asha" 1000)
              (Sample.world_at 1000
                 (Sample.membershipForm "Asha" EmptyString false false []) ∅
                 [Sample.refused; Sample.refused; Sample.refused; Sample.ok]))) in
  retryCount (this w) = 3%nat
  /\ length (pushes (trace w)) = 3%nat
  /\ timers w = []
  /\ Dom.autoSaveError (document w) = Some (Dom.Banner offline_notice false)
  /\ clock w = 21000.
Proof. vm_compute. done. Qed.

(* ===================================================================== *)
(** ** Opting out *)
(* ===================================================================== *)

Lemma silent_refl w : silent w w.
Proof. by repeat split. Qed.

Lemma silent_trans w1 w2 w3 : silent w1 w2 -> silent w2 w3 -> silent w1 w3.
Proof. intros (? & ? & ? & ?) (? & ? & ? & ?). repeat split; congruence. Qed.

Lemma run_disabled cb w : enabled (this w) = false -> silent w (run cb w).
Proof.
  intros Hoff. destruct cb; simpl.
  - unfold saveFormData. rewrite Hoff. apply silent_refl.
  - pose proof (syncToServer_frame formData w) as H. cbv zeta in H.
    destruct_and!. by repeat split.
  - by repeat split.
  - by repeat split.
Qed.

Lemma clearTimeout_silent h w : silent w (clearTimeout h w).
Proof. destruct h; by repeat split. Qed.

Lemma fire_disabled t w : enabled (this w) = false -> silent w (fire t w).
Proof.
  intros Hoff. unfold fire. destruct (pending (handle t) w); [|apply silent_refl].
  eapply silent_trans; [apply clearTimeout_silent|].
  apply run_disabled. by destruct (clearTimeout_silent (Some (handle t)) w) as (_ & -> & _).
Qed.

Lemma fold_fire_disabled ts w :
  enabled (this w) = false ->
  silent w (fold_left (fun w' t => fire t w') ts w).
Proof.
  revert w. induction ts as [|t ts IH]; simpl; intros w Hoff; [apply silent_refl|].
  pose proof (fire_disabled t w Hoff) as Hs.
  eapply silent_trans; [exact Hs|]. apply IH.
  destruct Hs as (_ & -> & _). done.
Qed.

Lemma advance_disabled n w : enabled (this w) = false -> silent w (advance n w).
Proof.
  revert w. induction n as [|n IH]; simpl; intros w Hoff; [apply silent_refl|].
  assert (silent w (tick w)) as Hs.
  { unfold tick. cbv zeta.
    eapply silent_trans; [|by apply fold_fire_disabled]. by repeat split. }
  eapply silent_trans; [exact Hs|]. apply IH. destruct Hs as (_ & -> & _). done.
Qed.

Lemma pushes_push formData w :
  pushes (trace (snd (push formData w)))
  = pushes (trace w) ++ [(formData, csrfToken (this w))].
Proof. unfold_ops. split_cases; tidy. Qed.

(** X2.  Switching auto-save off does not cancel a retry that is already
    scheduled: when its timer fires, the snapshot it holds is pushed to
    the endpoint all the same ([syncToServer] has no [enabled] guard). *)
Theorem X2_pending_retry_survives_opt_out t formData w :
  action t = RetrySyncToServer formData ->
  pending (handle t) w = true ->
  Js.truthy (csrfToken (this w)) = true ->
  let off := setEnabled false w in
  pending (handle t) off = true
  /\ pushes (trace (fire t off))
     = pushes (trace w) ++ [(formData, csrfToken (this w))].
Proof.
  intros Hact Hpend Htok off.
  assert (pending (handle t) off = true) as Hpend' by done.
  split; [done|]. unfold fire. rewrite Hpend', Hact.
  set (w0 := clearTimeout (Some (handle t)) off).
  assert (Js.truthy (csrfToken (this w0)) = true) as Htok0 by done.
  change (run (RetrySyncToServer formData) w0) with (snd (syncToServer formData w0)).
  rewrite syncToServer_with_token, pushes_push by done. done.
Qed.

Lemma X2_witness :
  let w :=
    snd (syncToServer (Sample.snapshot "Asha" 1000)
           (Sample.world_at 1000
              (Sample.membershipForm "Asha" EmptyString false false []) ∅
              [Sample.refused; Sample.ok])) in
  let t := Timer 1 6000 (RetrySyncToServer (Sample.snapshot "Asha" 1000)) in
  (action t = RetrySyncToServer (Sample.snapshot "Asha" 1000)
   /\ pending (handle t) w = true
   /\ Js.truthy (csrfToken (this w)) = true)
  /\ pending (handle t) (setEnabled false w) = true
  /\ pushes (trace (fire t (setEnabled false w)))
     = pushes (trace w) ++ [(Sample.snapshot "Asha" 1000, csrfToken (this w))].
Proof.
  intros w t. split; [by repeat split|].
  exact (X2_pending_retry_survives_opt_out t (Sample.snapshot "Asha" 1000) w
           eq_refl eq_refl eq_refl).
Defined.

(* ===================================================================== *)
(** ** Uploading a file *)
(* ===================================================================== *)

Lemma saveToLocalStorage_frame data w :
  let w' := saveToLocalStorage data w in
  this w' = this w /\ clock w' = clock w /\ network w' = network w
  /\ storageFull w' = storageFull w
  /\ Dom.forms (document w') = Dom.forms (document w)
  /\ Dom.labels (document w') = Dom.labels (document w)
  /\ pushes (trace w') = pushes (trace w).
Proof. unfold_ops. split_cases; tidy. Qed.

Lemma set_label_lookup lid s busy d lid' :
  Dom.labels (Dom.set_label lid s busy d) !! lid'
  = if decide (lid = lid')
    then (fun l => Dom.Label s (default (Dom.loading l) busy)) <$> Dom.labels d !! lid
    else Dom.labels d !! lid'.
Proof.
  unfold Dom.set_label. destruct (Dom.labels d !! lid) as [l|] eqn:Hl; simpl.
  - rewrite lookup_insert. by case_decide.
  - case_decide; [by subst|done].
Qed.

Lemma set_label_forms lid s busy d :
  Dom.forms (Dom.set_label lid s busy d) = Dom.forms d.
Proof. unfold Dom.set_label. by destruct (Dom.labels d !! lid). Qed.

(** X3.  With auto-save on, choosing no file does nothing at all.  When a
    file is chosen and the upload fails (no reply, or a reply that is not
    [ok]) nothing is stored, no control changes and no timer is set; the
    indicator of the input, if the page has one, ends up reading that the
    upload failed, without the [loading] class, and every other indicator
    is as before. *)
Theorem X3_failed_upload_leaves_no_trace fileInput w :
  enabled (this w) = true ->
  (El.files fileInput = [] -> handleFileUpload fileInput w = w)
  /\ (forall file others,
        El.files fileInput = file :: others ->
        upload_ok (next_reply w) = false ->
        let w' := handleFileUpload fileInput w in
        localStorage w' = localStorage w
        /\ Dom.forms (document w') = Dom.forms (document w)
        /\ timers w' = timers w
        /\ Dom.labels (document w') !! fileNameSpan fileInput
           = (fun _ => Dom.Label "Upload failed - try again" false)
               <$> Dom.labels (document w) !! fileNameSpan fileInput
        /\ forall lid, lid <> fileNameSpan fileInput ->
             Dom.labels (document w') !! lid = Dom.labels (document w) !! lid).
Proof.
  intros Hen. split.
  - intros Hnone. rewrite handleFileUpload_unfold. by rewrite Hen, Hnone.
  - intros file others Hfiles Hfail. cbv zeta. rewrite handleFileUpload_unfold.
    rewrite Hen, Hfiles. simpl negb. cbv iota.
    unfold fetch. cbn -[Dom.set_label]. unfold upload_ok in Hfail.
    assert (forall lid',
               Dom.labels
                 (Dom.set_label (fileNameSpan fileInput) "Upload failed - try again"
                    (Some false)
                    (Dom.set_label (fileNameSpan fileInput) "Uploading..."
                       (Some true) (document w))) !! lid'
               = if decide (fileNameSpan fileInput = lid')
                 then (fun _ => Dom.Label "Upload failed - try again" false)
                        <$> Dom.labels (document w) !! fileNameSpan fileInput
                 else Dom.labels (document w) !! lid') as Hlabels.
    { intros lid'. rewrite set_label_lookup. case_decide as Heq.
      - rewrite set_label_lookup. rewrite decide_True by done.
        by destruct (Dom.labels (document w) !! fileNameSpan fileInput).
      - rewrite set_label_lookup. by rewrite decide_False by done. }
    fold (fileNameSpan fileInput).
    unfold next_reply in *. cbn -[Dom.set_label] in *.
    destruct (network w) as [|[|[] data] rest]; try done;
      cbn -[Dom.set_label]; rewrite !set_label_forms;
      (repeat split; try done;
       [rewrite Hlabels; by rewrite decide_True by done
       |intros lid Hne; rewrite Hlabels;
        by rewrite decide_False by (intros Heq; by apply Hne)]).
Qed.

Lemma X3_witness :
  let fileInput := Sample.file_input "aadharFront" ["front.png"%string] in
  let w :=
    Sample.world_at 9000
      (Sample.membershipForm "Asha" EmptyString false false ["front.png"%string])
      ∅ [Net.Reply false []] in
  let w' := handleFileUpload fileInput w in
  (enabled (this w) = true
   /\ El.files fileInput = ["front.png"%string]
   /\ upload_ok (next_reply w) = false)
  /\ localStorage w' = localStorage w
  /\ Dom.forms (document w') = Dom.forms (document w)
  /\ timers w' = timers w
  /\ Dom.labels (document w') !! fileNameSpan fileInput
     = (fun _ => Dom.Label "Upload failed - try again" false)
         <$> Dom.labels (document w) !! fileNameSpan fileInput
  /\ forall lid, lid <> fileNameSpan fileInput ->
       Dom.labels (document w') !! lid = Dom.labels (document w) !! lid.
Proof.
  intros fileInput w w'. split; [by repeat split|].
  destruct (X3_failed_upload_leaves_no_trace fileInput w eq_refl) as [_ Hfail].
  exact (Hfail "front.png"%string [] eq_refl eq_refl).
Defined.

Lemma stored_snapshot_stringify o w :
  localStorage w !! STORAGE_KEY = Some (Js.stringify o) ->
  stored_snapshot w = Some (Js.defined_props o).
Proof. intros H. unfold stored_snapshot. by rewrite H. Qed.

Lemma handleFileUpload_frame fileInput w :
  let w' := handleFileUpload fileInput w in
  this w' = this w /\ clock w' = clock w /\ storageFull w' = storageFull w
  /\ Dom.forms (document w') = Dom.forms (document w).
Proof.
  rewrite handleFileUpload_unfold. cbv zeta.
  destruct (negb (enabled (this w))); [done|].
  destruct (El.files fileInput) as [|file others]; [done|].
  unfold fetch. cbn -[Dom.set_label saveToLocalStorage].
  destruct (next_reply _) as [|[] data]; cbn -[Dom.set_label saveToLocalStorage];
    rewrite ?set_label_forms; try done.
  set (w2 := with_network _ _). set (fd := Js.assign _ _ _).
  pose proof (saveToLocalStorage_frame fd w2) as H. cbv zeta in H.
  destruct H as (-> & -> & _ & -> & -> & _).
  unfold w2. cbn -[Dom.set_label]. by rewrite set_label_forms.
Qed.

(** X4.  The entry that [handleFileUpload] stores for an uploaded file
    does not outlive the next save: [saveFormData] writes a snapshot taken
    by [getFormData], which has no entry under the id of the file input
    (no other control of the form writes that key), so the stored URL is
    gone. *)
Theorem X4_next_save_drops_file_url fileInput file others data form forceSync w :
  enabled (this w) = true ->
  storageFull w = false ->
  El.files fileInput = file :: others ->
  next_reply w = Net.Reply true data ->
  Js.get "fileUrl" data <> Js.Undefined ->
  Dom.getElementById (document w) (currentFormId_string w) = Some form ->
  last_writer (El.id fileInput) (Dom.elements form) = None ->
  is_metadata (El.id fileInput) = false ->
  El.id fileInput <> "__proto__"%string ->
  let uploaded := handleFileUpload fileInput w in
  (exists o, stored_snapshot uploaded = Some o
             /\ Js.own (El.id fileInput) o = Some (Js.get "fileUrl" data))
  /\ (exists o, stored_snapshot (saveFormData forceSync uploaded) = Some o
                /\ Js.own (El.id fileInput) o = None).
Proof.
  intros Hen Hfull Hfiles Hreply Hurl Hform Hlast Hmeta Hproto uploaded.
  destruct (handleFileUpload_frame fileInput w) as (Hthis & Hclock & Hfull' & Hforms).
  fold uploaded in Hthis, Hclock, Hfull', Hforms.
  unfold is_metadata in Hmeta. apply orb_false_iff in Hmeta as [Hk1 Hk2].
  apply String.eqb_neq in Hk1, Hk2.
  split.
  - eexists. split.
    + apply stored_snapshot_stringify.
      by eapply handleFileUpload_stores.
    + rewrite defined_props_id
        by (apply assign_defined; [done|apply getFormData_defined]).
      by apply own_assign_eq.
  - eexists. split.
    + apply stored_snapshot_stringify. apply saveFormData_stores; congruence.
    + rewrite defined_props_id by apply getFormData_defined.
      assert (getFormData uploaded = getFormData w) as ->.
      { apply getFormData_ext; [done..|by rewrite Hthis]. }
      rewrite (getFormData_own w form) by done. by rewrite Hlast.
Qed.

Lemma X4_witness :
  let fileInput := Sample.file_input "aadharFront" ["front.png"%string] in
  let form :=
    Sample.membershipForm "Asha" EmptyString false false ["front.png"%string] in
  let w := Sample.world_at 9000 form ∅ [Sample.uploaded] in
  let uploaded := handleFileUpload fileInput w in
  (enabled (this w) = true
   /\ storageFull w = false
   /\ El.files fileInput = ["front.png"%string]
   /\ next_reply w = Sample.uploaded
   /\ Dom.getElementById (document w) (currentFormId_string w) = Some form
   /\ last_writer (El.id fileInput) (Dom.elements form) = None
   /\ is_metadata (El.id fileInput) = false)
  /\ (exists o, stored_snapshot uploaded = Some o
                /\ Js.own (El.id fileInput) o
                   = Some (Js.Str "https://files.example/front.png"))
  /\ (exists o, stored_snapshot (saveFormData false uploaded) = Some o
                /\ Js.own (El.id fileInput) o = None).
Proof.
  intros fileInput form w uploaded. split; [by repeat split|].
  apply (X4_next_save_drops_file_url fileInput "front.png"%string []
           [("fileUrl"%string, Js.Str "https://files.example/front.png")]
           form false w); try reflexivity; discriminate.
Defined.

(* ===================================================================== *)
(** ** Saving and what the server is sent *)
(* ===================================================================== *)

Lemma saveFormData_reads w forceSync :
  Dom.forms (document (saveFormData forceSync w)) = Dom.forms (document w)
  /\ clock (saveFormData forceSync w) = clock w
  /\ currentFormId (this (saveFormData forceSync w)) = currentFormId (this w).
Proof.
  unfold saveFormData. destruct (negb _); [done|].
  set (w1 := saveToLocalStorage _ _).
  assert (Dom.forms (document w1) = Dom.forms (document w)
          /\ clock w1 = clock w
          /\ currentFormId (this w1) = currentFormId (this w)) as (H1 & H2 & H3).
  { pose proof (saveToLocalStorage_frame (getFormData w)
                  (log (Saved (clock w) forceSync) w)) as H. cbv zeta in H.
    fold w1 in H. destruct H as (-> & -> & _ & _ & -> & _). done. }
  destruct (forceSync || _); [|done].
  pose proof (syncToServer_frame (getFormData w) w1) as H. cbv zeta in H.
  destruct_and!. repeat split; congruence.
Qed.

(** X5.  Right after a save, in the same millisecond and with the
    controls untouched, the stored text is exactly what the service would
    write again: [hasUnsavedChanges] answers [false] and the
    [beforeunload] listener neither saves nor asks to confirm. *)
Theorem X5_nothing_unsaved_right_after_save forceSync w :
  enabled (this w) = true ->
  storageFull w = false ->
  let saved := saveFormData forceSync w in
  hasUnsavedChanges saved = false
  /\ beforeunload saved = (saved, None).
Proof.
  intros Hen Hfull saved.
  destruct (saveFormData_reads w forceSync) as (Hforms & Hclock & Hid).
  fold saved in Hforms, Hclock, Hid.
  assert (hasUnsavedChanges saved = false) as Hno.
  { unfold hasUnsavedChanges. unfold saved at 1.
    rewrite saveFormData_stores by done.
    rewrite (getFormData_ext w saved) by done. simpl.
    apply bool_decide_eq_false. by intros H. }
  split; [done|]. unfold beforeunload. by rewrite Hno.
Qed.

Lemma X5_witness :
  let w :=
    Sample.world_at 3000 (Sample.membershipForm "Asha" "a@b.in" false true []) ∅ [] in
  let saved := saveFormData false w in
  (enabled (this w) = true /\ storageFull w = false)
  /\ hasUnsavedChanges saved = false
  /\ beforeunload saved = (saved, None).
Proof.
  intros w saved. split; [by split|].
  exact (X5_nothing_unsaved_right_after_save false w eq_refl eq_refl).
Defined.

Lemma pushes_saveFormData_start forceSync data w :
  pushes (trace (saveToLocalStorage data (log (Saved (clock w) forceSync) w)))
  = pushes (trace w).
Proof.
  pose proof (saveToLocalStorage_frame data (log (Saved (clock w) forceSync) w)) as H.
  cbv zeta in H. destruct H as (_ & _ & _ & _ & _ & _ & ->).
  by rewrite pushes_log, app_nil_r.
Qed.

Lemma saveFormData_pushes forceSync w :
  enabled (this w) = true ->
  Js.truthy (csrfToken (this w)) = true ->
  forceSync = true
  \/ SAVE_INTERVAL < clock w - default 0 (lastSyncTime (this w)) ->
  pushes (trace (saveFormData forceSync w))
  = pushes (trace w) ++ [(getFormData w, csrfToken (this w))].
Proof.
  intros Hen Htok Hdue. unfold saveFormData. rewrite Hen. simpl negb. cbv iota.
  set (w1 := saveToLocalStorage _ _).
  pose proof (saveToLocalStorage_frame (getFormData w)
                (log (Saved (clock w) forceSync) w)) as H. cbv zeta in H.
  fold w1 in H. destruct H as (Hthis & Hclock & _ & _ & _ & _ & Hp).
  rewrite Hclock, Hthis. simpl this. simpl clock.
  assert (forceSync
          || (clock w - default 0 (lastSyncTime (this w)) >? SAVE_INTERVAL) = true)
    as ->.
  { destruct Hdue as [->|Hgt]; [done|]. apply orb_true_iff. right.
    by apply Z.gtb_lt. }
  rewrite syncToServer_with_token by (by rewrite Hthis).
  rewrite pushes_push, Hthis. simpl this. f_equal.
  unfold w1. apply pushes_saveFormData_start.
Qed.

(** X6.  A save that is not forced talks to the server only when more
    than 30000 ms have passed since the last successful sync (since time
    0 when there has been none): up to and including 30000 ms nothing is
    requested; past that, and whenever the save is forced, the snapshot
    just taken is pushed, once, with the token at hand. *)
Theorem X6_sync_interval w :
  enabled (this w) = true ->
  (clock w - default 0 (lastSyncTime (this w)) <= SAVE_INTERVAL ->
   network (saveFormData false w) = network w
   /\ pushes (trace (saveFormData false w)) = pushes (trace w)
   /\ retryCount (this (saveFormData false w)) = retryCount (this w))
  /\ (forall forceSync,
        Js.truthy (csrfToken (this w)) = true ->
        forceSync = true
        \/ SAVE_INTERVAL < clock w - default 0 (lastSyncTime (this w)) ->
        pushes (trace (saveFormData forceSync w))
        = pushes (trace w) ++ [(getFormData w, csrfToken (this w))]).
Proof.
  intros Hen. split.
  - intros Hle. unfold saveFormData. rewrite Hen. simpl negb. cbv iota.
    set (w1 := saveToLocalStorage _ _).
    pose proof (saveToLocalStorage_frame (getFormData w)
                  (log (Saved (clock w) false) w)) as H. cbv zeta in H.
    fold w1 in H. destruct H as (Hthis & Hclock & Hnet & _ & _ & _ & Hp).
    rewrite Hclock, Hthis. simpl orb. simpl this. simpl clock.
    destruct (Z.gtb_spec (clock w - default 0 (lastSyncTime (this w))) SAVE_INTERVAL);
      [lia|].
    split; [by rewrite Hnet|]. split; [|by rewrite Hthis].
    unfold w1. apply pushes_saveFormData_start.
  - intros forceSync Htok Hdue. by apply saveFormData_pushes.
Qed.

Lemma X6_witness :
  let synced :=
    with_this (Service 0 None (Some "membershipForm"%string) (Js.Str "tok") true
                 (Some 1000))
      (Sample.world_at 31000
         (Sample.membershipForm "Asha" EmptyString false false []) ∅ [Sample.ok]) in
  let later := with_clock 31001 synced in
  (enabled (this synced) = true
   /\ clock synced - default 0 (lastSyncTime (this synced)) <= SAVE_INTERVAL
   /\ Js.truthy (csrfToken (this later)) = true
   /\ SAVE_INTERVAL < clock later - default 0 (lastSyncTime (this later)))
  /\ (network (saveFormData false synced) = network synced
      /\ pushes (trace (saveFormData false synced)) = pushes (trace synced)
      /\ retryCount (this (saveFormData false synced)) = retryCount (this synced))
  /\ pushes (trace (saveFormData false later))
     = pushes (trace later) ++ [(getFormData later, csrfToken (this later))].
Proof.
  intros synced later.
  assert (clock synced - default 0 (lastSyncTime (this synced)) <= SAVE_INTERVAL)
    as Hle by (vm_compute; discriminate).
  assert (SAVE_INTERVAL < clock later - default 0 (lastSyncTime (this later)))
    as Hgt by (vm_compute; reflexivity).
  split; [by repeat split|]. split.
  - destruct (X6_sync_interval synced eq_refl) as [Hwithin _]. exact (Hwithin Hle).
  - destruct (X6_sync_interval later eq_refl) as [_ Hpast].
    exact (Hpast false eq_refl (or_intror Hgt)).
Defined.

(** X7.  When the storage quota is used up the save goes on without the
    local copy: nothing is stored, no notice is shown and no timer is set
    by [saveToLocalStorage], and a forced [saveFormData] still pushes the
    snapshot to the server. *)
Theorem X7_quota_exceeded data w :
  storageFull w = true ->
  localStorage (saveToLocalStorage data w) = localStorage w
  /\ document (saveToLocalStorage data w) = document w
  /\ timers (saveToLocalStorage data w) = timers w
  /\ (enabled (this w) = true ->
      localStorage (saveFormData true w) = localStorage w
      /\ saves (trace (saveFormData true w)) = saves (trace w) ++ [clock w]
      /\ (Js.truthy (csrfToken (this w)) = true ->
          pushes (trace (saveFormData true w))
          = pushes (trace w) ++ [(getFormData w, csrfToken (this w))])).
Proof.
  intros Hfull.
  assert (forall d w0, storageFull w0 = true ->
            saveToLocalStorage d w0 = log (ConsoleError "Local storage save failed:") w0)
    as Hsave by (intros d w0 H0; unfold saveToLocalStorage; by rewrite H0).
  rewrite Hsave by done. repeat split; try done.
  - unfold saveFormData. rewrite H. simpl negb. cbv iota.
    rewrite Hsave by done. simpl orb. cbv iota.
    pose proof (syncToServer_frame (getFormData w)
      (log (ConsoleError "Local storage save failed:")
         (log (Saved (clock w) true) w))) as Hs.
    cbv zeta in Hs. by destruct Hs as (_ & _ & -> & _).
  - by apply saves_saveFormData.
  - intros Htok. apply saveFormData_pushes; [done..|by left].
Qed.

Lemma X7_witness :
  let w :=
    quota_used_up
      (Sample.world_at 9000 (Sample.membershipForm "Asha" EmptyString false false [])
         ∅ [Sample.ok]) in
  (storageFull w = true
   /\ enabled (this w) = true
   /\ Js.truthy (csrfToken (this w)) = true)
  /\ localStorage (saveFormData true w) = localStorage w
  /\ saves (trace (saveFormData true w)) = saves (trace w) ++ [clock w]
  /\ pushes (trace (saveFormData true w))
     = pushes (trace w) ++ [(getFormData w, csrfToken (this w))].
Proof.
  intros w. split; [by repeat split|].
  destruct (X7_quota_exceeded [] w eq_refl) as (_ & _ & _ & Hforced).
  destruct (Hforced eq_refl) as (Hst & Hsaves & Hpush).
  split; [exact Hst|]. split; [exact Hsaves|exact (Hpush eq_refl)].
Defined.

(* ===================================================================== *)
(** ** Controls that share a key *)
(* ===================================================================== *)

(** X8.  Under a key that several controls of the form share (the
    buttons of a radio group) the snapshot holds what the last of them
    contributes.  So when the last button of a group is not the checked
    one the group is captured as the empty string, whichever other button
    is checked, and a restoration from that snapshot leaves every button
    of the group that has a non-empty value unchecked. *)
Theorem X8_last_control_of_a_key_wins w form k :
  Dom.getElementById (document w) (currentFormId_string w) = Some form ->
  is_metadata k = false ->
  k <> "__proto__"%string ->
  Js.own k (getFormData w)
  = (fun e => Js.Str (captured_value e)) <$> last_writer k (Dom.elements form)
  /\ (forall last,
        last_writer k (Dom.elements form) = Some last ->
        El.is_toggle last = true ->
        El.checked last = false ->
        Js.own k (getFormData w) = Some (Js.Str EmptyString)
        /\ forall e,
             El.is_toggle e = true -> El.key e = k ->
             El.value e <> EmptyString ->
             El.checked (restore_element (getFormData w) e) = false).
Proof.
  intros Hform Hmeta Hproto.
  unfold is_metadata in Hmeta. apply orb_false_iff in Hmeta as [Hk1 Hk2].
  apply String.eqb_neq in Hk1, Hk2.
  pose proof (getFormData_own w form k Hform Hk1 Hk2 Hproto) as Hown.
  split; [exact Hown|]. intros last Hlast Htoggle Hunchecked.
  assert (Js.own k (getFormData w) = Some (Js.Str EmptyString)) as Hempty.
  { rewrite Hown, Hlast. simpl. unfold captured_value.
    by rewrite Htoggle, Hunchecked. }
  split; [exact Hempty|]. intros e He Hkey Hvalue.
  unfold restore_element. rewrite Hkey.
  assert (Js.has k (getFormData w) = true) as -> by (unfold Js.has; by rewrite Hempty).
  rewrite He. unfold Js.get. rewrite Hempty. simpl.
  destruct (El.value e); done.
Qed.

Lemma X8_witness :
  let form := Sample.membershipForm "Asha" EmptyString true false [] in
  let w := Sample.world_at 9000 form ∅ [] in
  (Dom.getElementById (document w) (currentFormId_string w) = Some form
   /\ last_writer "gender" (Dom.elements form) = Some (Sample.radio "gender" "female" false)
   /\ El.checked (Sample.radio "gender" "male" true) = true)
  /\ Js.own "gender" (getFormData w) = Some (Js.Str EmptyString)
  /\ El.checked (restore_element (getFormData w) (Sample.radio "gender" "male" true))
     = false.
Proof.
  intros form w. split; [by repeat split|].
  destruct (X8_last_control_of_a_key_wins w form "gender"%string eq_refl eq_refl)
    as [_ Hlast]; [discriminate|].
  destruct (Hlast (Sample.radio "gender" "female" false) eq_refl eq_refl eq_refl)
    as [Hempty Hrestore].
  split; [exact Hempty|].
  apply Hrestore; [reflexivity|reflexivity|discriminate].
Defined.

(* ===================================================================== *)
(** ** What a restoration writes *)
(* ===================================================================== *)

Lemma restore_writes w :
  let w' := after (restoreSavedData w) in
  Dom.forms (document w')
  = match restores w with
    | Some (target, elements) =>
        Dom.store_elements target elements (Dom.forms (document w))
    | None => Dom.forms (document w)
    end
  /\ localStorage w' = localStorage w
  /\ this w' = this w
  /\ clock w' = clock w.
Proof.
  unfold restoreSavedData, restore_body, restores, restore_into. cbv zeta.
  destruct (localStorage w !! STORAGE_KEY) as [savedData|]; [|done].
  destruct savedData as [|layout formData|n]; try done.
  cbn -[write_back].
  assert (match Dom.getElementById (document w) (restore_target w formData) with
          | Some form =>
              if isFormFilled w then True
              else match restore_elements formData (Dom.elements form) with
                   | Some elements =>
                       let w' := write_back (restore_target w formData) formData
                                   elements w in
                       Dom.forms (document w')
                       = Dom.store_elements (restore_target w formData) elements
                           (Dom.forms (document w))
                       /\ localStorage w' = localStorage w
                       /\ this w' = this w /\ clock w' = clock w
                   | None => True
                   end
          | None => True
          end) as Hwb.
  { destruct (Dom.getElementById _ _); [|done]. destruct (isFormFilled w); [done|].
    destruct (restore_elements _ _) as [elements|]; [|done].
    pose proof (write_back_frame (restore_target w formData) formData elements w) as H.
    cbv zeta in *. by destruct_and!. }
  destruct formData as [o|v].
  - destruct (Dom.getElementById _ _); [|done]. destruct (isFormFilled w); [done|].
    simpl in *. by destruct_and!.
  - destruct v; try done;
      (destruct (Dom.getElementById _ _); [|done]; destruct (isFormFilled w); [done|];
       destruct (restore_elements _ _); [|done]; simpl in *; by destruct_and!).
Qed.

Lemma restores_ext w w' :
  localStorage w' = localStorage w ->
  this w' = this w ->
  Dom.forms (document w') = Dom.forms (document w) ->
  restores w' = restores w.
Proof.
  intros Hst Hthis Hforms.
  unfold restores, restore_target, isFormFilled, Dom.getElementById,
    currentFormId_value, currentFormId_string.
  by rewrite Hst, Hthis, Hforms.
Qed.

Lemma store_elements_twice fid es es' fs :
  Dom.store_elements fid es' (Dom.store_elements fid es fs)
  = Dom.store_elements fid es' fs.
Proof.
  induction fs as [|f fs IH]; simpl; [done|].
  destruct (String.eqb_spec (Dom.form_id f) fid) as [Heq|Hne]; simpl.
  - by rewrite String.eqb_refl.
  - destruct (String.eqb_spec (Dom.form_id f) fid); [done|]. by rewrite IH.
Qed.

Lemma restore_element_twice o e :
  restore_element o (restore_element o e) = restore_element o e.
Proof.
  unfold restore_element.
  destruct (Js.has (El.key e) o) eqn:Hhas; [|by rewrite Hhas].
  destruct (El.is_toggle e) eqn:Ht.
  - change (El.key (El.set_checked ?b e)) with (El.key e). rewrite Hhas.
    change (El.is_toggle (El.set_checked ?b e)) with (El.is_toggle e). by rewrite Ht.
  - destruct (El.is_file e) eqn:Hf; simpl negb; cbv iota.
    + by rewrite Hhas, Ht, Hf.
    + change (El.key (El.set_value ?s e)) with (El.key e). rewrite Hhas.
      change (El.is_toggle (El.set_value ?s e)) with (El.is_toggle e). rewrite Ht.
      change (El.is_file (El.set_value ?s e)) with (El.is_file e). by rewrite Hf.
Qed.

Lemma restore_elements_twice formData es es' :
  restore_elements formData es = Some es' ->
  restore_elements formData es' = Some es'.
Proof.
  destruct formData as [o|v]; simpl.
  - intros [= <-]. f_equal. rewrite map_map. apply map_ext.
    intros e. apply restore_element_twice.
  - destruct es; [by intros [= <-]|done].
Qed.

Lemma find_form_id fid fs f : Dom.find_form fid fs = Some f -> Dom.form_id f = fid.
Proof.
  induction fs as [|f0 fs IH]; simpl; [done|].
  destruct (String.eqb_spec (Dom.form_id f0) fid); [by intros [= <-]|done].
Qed.

(** X9.  Restoring is idempotent on the controls: a second
    [restoreSavedData] (the storage it reads is still there) leaves every
    form as the first one left it, whether the first one wrote or was
    skipped. *)
Theorem X9_restoring_twice_is_restoring_once w :
  let once := after (restoreSavedData w) in
  let twice := after (restoreSavedData once) in
  Dom.forms (document twice) = Dom.forms (document once)
  /\ localStorage twice = localStorage w.
Proof.
  intros once twice.
  destruct (restore_writes w) as (Hforms & Hst & Hthis & _).
  destruct (restore_writes once) as (Hforms' & Hst' & _).
  fold once in Hforms, Hst, Hthis. fold twice in Hforms', Hst'.
  split; [|congruence]. rewrite Hforms'.
  destruct (restores w) as [[target elements]|] eqn:Hw.
  - unfold restores in Hw |- *. rewrite Hst. 
    destruct (localStorage w !! STORAGE_KEY) as [savedData|]; [|done].
    destruct (Js.parse savedData) as [formData|]; [|done].
    assert (restore_target once formData = restore_target w formData) as Htarget
      by (unfold restore_target, currentFormId_value; by rewrite Hthis).
    assert (match Dom.getElementById (document w) (restore_target w formData) with
            | Some form =>
                if isFormFilled w then None
                else (fun elements => (restore_target w formData, elements))
                       <$> restore_elements formData (Dom.elements form)
            | None => None
            end = Some (target, elements) ->
            match
              match Dom.getElementById (document once) (restore_target once formData) with
              | Some form =>
                  if isFormFilled once then None
                  else (fun elements => (restore_target once formData, elements))
                         <$> restore_elements formData (Dom.elements form)
              | None => None
              end
            with
            | Some (target0, elements0) =>
                Dom.store_elements target0 elements0 (Dom.forms (document once))
            | None => Dom.forms (document once)
            end = Dom.forms (document once)) as Hgeneral.
    { destruct (Dom.getElementById (document w) _) as [form|] eqn:Hfound; [|done].
      destruct (isFormFilled w); [done|].
      destruct (restore_elements formData (Dom.elements form)) as [es|] eqn:Hes;
        [|done].
      simpl. intros [= <- <-]. rewrite Htarget.
      unfold Dom.getElementById. rewrite Hforms.
      rewrite (find_form_store_eq _ _ _ _ Hfound). simpl.
      destruct (isFormFilled once); [done|].
      rewrite (restore_elements_twice _ _ _ Hes). simpl.
      apply store_elements_twice. }
    destruct formData as [o|v]; [by apply Hgeneral|].
    destruct v; try done; by apply Hgeneral.
  - by rewrite (restores_ext w once Hst Hthis Hforms), Hw.
Qed.

Lemma restore_element_keeps o e : keeps_control e (restore_element o e).
Proof.
  unfold restore_element, keeps_control.
  destruct (Js.has (El.key e) o); [|by repeat split].
  destruct (El.is_toggle e) eqn:Ht; simpl.
  - repeat split; try done. intros Hf.
    unfold El.is_toggle, El.is_file in *.
    destruct (String.eqb_spec (El.type e) "file") as [Heq|]; [|done].
    rewrite Heq in Ht. done.
  - destruct (El.is_file e) eqn:Hf; simpl; by repeat split.
Qed.

Lemma restore_map_keeps o es :
  Forall2 keeps_control es (map (restore_element o) es).
Proof.
  induction es as [|e es IH]; simpl; constructor; [apply restore_element_keeps|done].
Qed.

(** X10.  A restoration never adds, removes or renames a control, never
    touches a file input, and changes of the others only what the
    snapshot can hold: [checked] of a checkbox or radio button, [value]
    of any other control.  It leaves the storage, the service and the
    clock as they are. *)
Theorem X10_restore_keeps_the_controls w fid :
  let w' := after (restoreSavedData w) in
  match Dom.getElementById (document w) fid,
        Dom.getElementById (document w') fid with
  | Some form, Some form' =>
      Dom.form_id form' = Dom.form_id form
      /\ Forall2 keeps_control (Dom.elements form) (Dom.elements form')
  | None, None => True
  | _, _ => False
  end
  /\ localStorage w' = localStorage w
  /\ this w' = this w
  /\ clock w' = clock w.
Proof.
  intros w'. destruct (restore_writes w) as (Hforms & Hst & Hthis & Hclock).
  fold w' in Hforms, Hst, Hthis, Hclock. split; [|done].
  assert (forall form : Dom.form,
            Forall2 keeps_control (Dom.elements form) (Dom.elements form)) as Hrefl.
  { intros form. induction (Dom.elements form); constructor; [|done].
    by repeat split. }
  assert (Dom.getElementById (document w') fid
          = Dom.find_form fid (Dom.forms (document w'))) as -> by done.
  rewrite Hforms.
  destruct (restores w) as [[target elements]|] eqn:Hw.
  - unfold restores in Hw.
    destruct (localStorage w !! STORAGE_KEY) as [savedData|]; [|done].
    destruct (Js.parse savedData) as [formData|]; [|done].
    assert (match Dom.getElementById (document w) (restore_target w formData) with
            | Some form =>
                if isFormFilled w then None
                else (fun elements => (restore_target w formData, elements))
                       <$> restore_elements formData (Dom.elements form)
            | None => None
            end = Some (target, elements) ->
            exists form,
              Dom.getElementById (document w) target = Some form
              /\ Forall2 keeps_control (Dom.elements form) elements) as Hgeneral.
    { destruct (Dom.getElementById (document w) _) as [form|] eqn:Hfound; [|done].
      destruct (isFormFilled w); [done|].
      destruct (restore_elements formData (Dom.elements form)) as [es|] eqn:Hes;
        [|done].
      simpl. intros [= <- <-]. exists form. split; [done|].
      destruct formData as [o|v]; simpl in Hes.
      - injection Hes as <-. apply restore_map_keeps.
      - destruct (Dom.elements form); [|done]. injection Hes as <-. constructor. }
    assert (exists form,
               Dom.getElementById (document w) target = Some form
               /\ Forall2 keeps_control (Dom.elements form) elements)
      as (form & Hfound & Hkept).
    { destruct formData as [o|v]; [by apply Hgeneral|].
      destruct v; try done; by apply Hgeneral. }
    destruct (decide (fid = target)) as [->|Hne].
    + rewrite Hfound. unfold Dom.getElementById in Hfound.
      rewrite (find_form_store_eq _ _ _ _ Hfound). simpl.
      split; [|done]. symmetry. by eapply find_form_id.
    + rewrite find_form_store_ne by done. fold (Dom.getElementById (document w) fid).
      destruct (Dom.getElementById (document w) fid); [|exact I].
      split; [done|apply Hrefl].
  - fold (Dom.getElementById (document w) fid).
    destruct (Dom.getElementById (document w) fid); [|exact I].
      split; [done|apply Hrefl].
Qed.

(* ===================================================================== *)
(** ** What holds whatever happens on the page *)
(* ===================================================================== *)

Section Invariant.

Variable P : world -> Prop.

Hypothesis P_clock : forall t w, P w -> P (with_clock t w).
Hypothesis P_clearTimeout : forall h w, P w -> P (clearTimeout h w).
Hypothesis P_saveFormData : forall forceSync w, P w -> P (saveFormData forceSync w).
Hypothesis P_syncToServer : forall formData w, P w -> P (snd (syncToServer formData w)).
Hypothesis P_HideIndicator : forall w, P w -> P (run HideIndicator w).
Hypothesis P_HideError : forall w, P w -> P (run HideError w).

Lemma run_invariant cb w : P w -> P (run cb w).
Proof. destruct cb; auto; simpl; auto. Qed.

Lemma fire_invariant t w : P w -> P (fire t w).
Proof.
  intros H. unfold fire. destruct (pending (handle t) w); [|done].
  by apply run_invariant, P_clearTimeout.
Qed.

Lemma fold_fire_invariant ts w : P w -> P (fold_left (fun w' t => fire t w') ts w).
Proof.
  revert w. induction ts as [|t ts IH]; simpl; intros w H; [done|].
  by apply IH, fire_invariant.
Qed.

Lemma advance_invariant ms w : P w -> P (advance ms w).
Proof.
  revert w. induction ms as [|ms IH]; simpl; intros w H; [done|].
  apply IH. unfold tick. cbv zeta. by apply fold_fire_invariant, P_clock.
Qed.

(** The happenings that a statement reckons with. *)
Variable allowed : happening -> Prop.

Hypothesis P_edit :
  forall form elements w,
    P w -> P (with_document (Dom.set_elements form elements (document w)) w).
Hypothesis P_handleFormChange : forall w, P w -> P (handleFormChange w).
Hypothesis P_upload_request :
  forall fileInput w file response w2,
    P w -> handleFileUpload_request fileInput w = Some (file, response, w2) -> P w2.
Hypothesis P_upload_reply :
  forall fileInput file response w,
    allowed (UploadReply fileInput file response) ->
    P w -> P (handleFileUpload_reply fileInput file response w).
Hypothesis P_token_reply :
  forall response resume w,
    allowed (TokenReply response resume) ->
    P w -> P (snd (loadCsrfToken_reply response w)).
Hypothesis P_push : forall formData w, P w -> P (snd (push formData w)).
Hypothesis P_restoreSavedData : forall w, P w -> P (after (restoreSavedData w)).
Hypothesis P_setupFormListeners : forall w, P w -> P (setupFormListeners w).
Hypothesis P_setEnabled : forall b w, allowed (SetEnabled b) -> P w -> P (setEnabled b w).
Hypothesis P_clearSavedData : forall w, P w -> P (clearSavedData w).

Lemma happen_invariant h w : allowed h -> P w -> P (happen w h).
Proof.
  intros Hh H. destruct h; simpl; auto using advance_invariant.
  - destruct (handleFileUpload_request fileInput (handleFormChange w))
      as [[[file response] w2]|] eqn:Hsent; [|auto].
    eapply P_upload_request; [|exact Hsent]. auto.
  - pose proof (P_token_reply response resume w Hh H) as H1.
    destruct resume as [formData|]; [|exact H1].
    destruct (negb _); [exact H1|]. by apply P_push.
  - unfold beforeunload. destruct (hasUnsavedChanges w); simpl; auto.
  - unfold DOMContentLoaded. auto.
Qed.

Lemma play_invariant history w :
  Forall allowed history -> P w -> P (play history w).
Proof.
  unfold play. intros Hall. revert w.
  induction Hall as [|h history Hh Hall IH]; simpl; intros w H; [done|].
  by apply IH, happen_invariant.
Qed.

End Invariant.

Lemma Forall_always (history : list happening) : Forall (fun _ => True) history.
Proof. induction history; by constructor. Qed.

Lemma token_requests_snoc tr e :
  token_requests (tr ++ [e]) = token_requests tr ++ (if asks_token e then [e] else []).
Proof. unfold token_requests. rewrite List.filter_app. simpl. by destruct (asks_token e). Qed.

Lemma same_token_refl w : same_token w w.
Proof. done. Qed.

Lemma same_token_trans w1 w2 w3 :
  same_token w1 w2 -> same_token w2 w3 -> same_token w1 w3.
Proof. intros [? ?] [? ?]. split; congruence. Qed.

Lemma setupFormListeners_frame w :
  let w' := setupFormListeners w in
  document w' = document w /\ localStorage w' = localStorage w
  /\ storageFull w' = storageFull w /\ clock w' = clock w
  /\ timers w' = timers w /\ nextTimer w' = nextTimer w
  /\ network w' = network w /\ trace w' = trace w
  /\ retryCount (this w') = retryCount (this w)
  /\ saveTimer (this w') = saveTimer (this w)
  /\ csrfToken (this w') = csrfToken (this w)
  /\ enabled (this w') = enabled (this w)
  /\ lastSyncTime (this w') = lastSyncTime (this w).
Proof.
  unfold setupFormListeners. cbv zeta.
  generalize (List.filter tracked (Dom.forms (document w))) as fs.
  intros fs. revert w. induction fs as [|f fs IH]; intros w; simpl; [done|].
  set (w1 := with_this _ w). specialize (IH w1). by destruct_and!.
Qed.

Lemma push_same_token formData w : same_token w (snd (push formData w)).
Proof. unfold same_token, token_requests. unfold_ops. split_cases; tidy. Qed.

Lemma saveToLocalStorage_same_token data w :
  same_token w (saveToLocalStorage data w).
Proof. unfold same_token, token_requests. unfold_ops. split_cases; tidy. Qed.

Lemma syncToServer_same_token formData w :
  Js.truthy (csrfToken (this w)) = true ->
  same_token w (snd (syncToServer formData w)).
Proof.
  intros Htok. rewrite syncToServer_with_token by done. apply push_same_token.
Qed.

Lemma saveFormData_same_token forceSync w :
  Js.truthy (csrfToken (this w)) = true ->
  same_token w (saveFormData forceSync w).
Proof.
  intros Htok. unfold saveFormData.
  destruct (negb (enabled (this w))); [done|]. cbv zeta.
  set (w0 := log _ w). set (w1 := saveToLocalStorage _ w0).
  assert (same_token w w1) as Hw1.
  { eapply same_token_trans; [|apply saveToLocalStorage_same_token].
    split; [done|]. unfold w0, log. simpl. by rewrite token_requests_snoc, app_nil_r. }
  destruct (_ || _); [|done].
  eapply same_token_trans; [exact Hw1|]. apply syncToServer_same_token.
  destruct Hw1 as [-> _]. done.
Qed.

Lemma handleFileUpload_same_token fileInput w :
  same_token w (handleFileUpload fileInput w).
Proof.
  rewrite handleFileUpload_unfold. cbv zeta.
  destruct (negb (enabled (this w))); [done|].
  destruct (El.files fileInput) as [|file others]; [done|].
  unfold fetch. cbn -[Dom.set_label saveToLocalStorage].
  destruct (next_reply _) as [|[] data]; cbn -[Dom.set_label saveToLocalStorage].
  - split; [done|]. simpl. by rewrite !token_requests_snoc, !app_nil_r.
  - set (w2 := with_network _ _). set (fd := Js.assign _ _ _).
    destruct (saveToLocalStorage_same_token fd w2) as [Ht Hr].
    split; simpl; [by rewrite Ht|]. rewrite Hr. unfold w2. simpl.
    by rewrite token_requests_snoc, app_nil_r.
  - split; [done|]. simpl. by rewrite !token_requests_snoc, !app_nil_r.
Qed.

Lemma restoreSavedData_same_token w : same_token w (after (restoreSavedData w)).
Proof.
  destruct (restore_writes w) as (_ & _ & Hthis & _). split; [by rewrite Hthis|].
  unfold restoreSavedData, restore_body, restore_into, write_back. unfold_ops.
  cbn -[upload_slots]. split_cases; simpl; by rewrite ?token_requests_snoc, ?app_nil_r.
Qed.

Lemma service_write_keeps w w1 w2 :
  same_other_keys w w1 /\ own_key_well_formed w w1 ->
  service_write (localStorage w1) (localStorage w2) ->
  same_other_keys w w2 /\ own_key_well_formed w w2.
Proof.
  unfold same_other_keys, own_key_well_formed.
  intros [Hothers Hown] [->|[[data ->]| ->]]; [done| |].
  - split.
    + intros key Hkey. rewrite lookup_insert_ne by done. by apply Hothers.
    + right. right. exists data. by rewrite lookup_insert.
  - split.
    + intros key Hkey. rewrite lookup_delete_ne by done. by apply Hothers.
    + right. left. by rewrite lookup_delete.
Qed.

Lemma saveToLocalStorage_writes data w :
  service_write (localStorage w) (localStorage (saveToLocalStorage data w)).
Proof.
  unfold saveToLocalStorage. destruct (storageFull w); [by left|].
  right. left. by exists data.
Qed.

Lemma saveFormData_writes forceSync w :
  service_write (localStorage w) (localStorage (saveFormData forceSync w)).
Proof.
  unfold saveFormData. destruct (negb (enabled (this w))); [by left|]. cbv zeta.
  set (w0 := log _ w). set (w1 := saveToLocalStorage _ w0).
  pose proof (saveToLocalStorage_writes (getFormData w) w0) as Hw. fold w1 in Hw.
  destruct (_ || _); [|exact Hw].
  pose proof (syncToServer_frame (getFormData w) w1) as H. cbv zeta in H.
  destruct H as (_ & _ & -> & _). exact Hw.
Qed.

Lemma handleFileUpload_writes fileInput w :
  service_write (localStorage w) (localStorage (handleFileUpload fileInput w)).
Proof.
  rewrite handleFileUpload_unfold. cbv zeta.
  destruct (negb (enabled (this w))); [by left|].
  destruct (El.files fileInput) as [|file others]; [by left|].
  unfold fetch. cbn -[Dom.set_label saveToLocalStorage].
  destruct (next_reply _) as [|[] data]; cbn -[Dom.set_label saveToLocalStorage];
    [by left| |by left].
  set (w2 := with_network _ _). set (fd := Js.assign _ _ _).
  apply (saveToLocalStorage_writes fd w2).
Qed.

(** What the two halves of an upload leave alone. *)
Lemma handleFileUpload_request_frame fileInput w file response w2 :
  handleFileUpload_request fileInput w = Some (file, response, w2) ->
  enabled (this w) = true
  /\ this w2 = this w /\ localStorage w2 = localStorage w
  /\ storageFull w2 = storageFull w /\ clock w2 = clock w
  /\ timers w2 = timers w
  /\ Dom.forms (document w2) = Dom.forms (document w)
  /\ trace w2 = trace w ++ [Fetched (Net.UploadFile file (csrfToken (this w)))].
Proof.
  unfold handleFileUpload_request, uploadFile_request, fetch.
  destruct (enabled (this w)); [|done]. simpl.
  destruct (El.files fileInput) as [|file0 others]; [done|].
  cbn -[Dom.set_label]. intros [= <- <- <-]. cbn -[Dom.set_label].
  by rewrite set_label_forms.
Qed.

Lemma handleFileUpload_reply_frame fileInput file response w :
  let w' := handleFileUpload_reply fileInput file response w in
  this w' = this w /\ clock w' = clock w
  /\ Dom.forms (document w') = Dom.forms (document w)
  /\ service_write (localStorage w) (localStorage w')
  /\ (upload_ok response = false -> localStorage w' = localStorage w)
  /\ token_requests (trace w') = token_requests (trace w)
  /\ pushes (trace w') = pushes (trace w)
  /\ saves (trace w') = saves (trace w).
Proof.
  unfold handleFileUpload_reply, uploadFile_reply, upload_ok. cbv zeta.
  assert (forall data, response = Net.Reply true data \/ True) as _ by (by right).
  destruct response as [|[] data]; cbn -[Dom.set_label saveToLocalStorage].
  - rewrite set_label_forms, token_requests_snoc, pushes_snoc, saves_snoc.
    simpl. rewrite !app_nil_r. repeat split; try done. by left.
  - set (fd := Js.assign _ _ _).
    pose proof (saveToLocalStorage_frame fd w) as H. cbv zeta in H.
    destruct H as (Ht & Hc & _ & _ & Hf & _ & Hp).
    destruct (saveToLocalStorage_same_token fd w) as [_ Hr].
    rewrite set_label_forms. repeat split; try done.
    + apply saveToLocalStorage_writes.
    + unfold saveToLocalStorage. unfold_ops.
      destruct (storageFull w); simpl; by rewrite ?saves_snoc, ?app_nil_r.
  - rewrite set_label_forms, token_requests_snoc, pushes_snoc, saves_snoc.
    simpl. rewrite !app_nil_r. repeat split; try done. by left.
Qed.

Lemma loadCsrfToken_reply_frame response w :
  let w' := snd (loadCsrfToken_reply response w) in
  document w' = document w /\ localStorage w' = localStorage w
  /\ clock w' = clock w /\ timers w' = timers w
  /\ enabled (this w') = enabled (this w)
  /\ currentFormId (this w') = currentFormId (this w)
  /\ token_requests (trace w') = token_requests (trace w)
  /\ pushes (trace w') = pushes (trace w)
  /\ saves (trace w') = saves (trace w)
  /\ (grants_token response = false -> this w' = this w)
  /\ (forall ok data, response = Net.Reply ok data -> grants_token response = true ->
        csrfToken (this w') = Js.get "csrfToken" data).
Proof.
  unfold loadCsrfToken_reply, grants_token.
  destruct response as [|ok data]; simpl.
  - rewrite token_requests_snoc, pushes_snoc, saves_snoc. simpl.
    rewrite !app_nil_r. by repeat split.
  - destruct (_ && _); simpl; repeat split; try done.
    by intros ? ? [= _ <-].
Qed.

(** X11.  The token that one service instance holds changes only when
    the reply to a token request that was already on its way arrives
    (the constructor sends one and does not wait for it) and grants a
    token: such a reply is assigned without a look at what the service
    holds.  Nothing else that happens on the page replaces the token, no
    new token request is made while the service holds one, and every
    sync request carries the token the service held.  A new instance, as
    a reload of the page creates one, starts without a token and asks
    for one. *)
Theorem X11_only_a_late_reply_replaces_the_token history w :
  Js.truthy (csrfToken (this w)) = true ->
  Forall (fun h => grants h = false) history ->
  same_token w (play history w)
  /\ Forall (fun p => p.2 = csrfToken (this w))
            (drop (length (pushes (trace w))) (pushes (trace (play history w))))
  /\ (forall ok data resume,
        grants_token (Net.Reply ok data) = true ->
        csrfToken (this (happen (play history w) (TokenReply (Net.Reply ok data) resume)))
        = Js.get "csrfToken" data)
  /\ (forall page,
        csrfToken (this (snd (new_FormAutoSaveService page))) = Js.Null
        /\ token_requests (trace (snd (new_FormAutoSaveService page)))
           = token_requests (trace page) ++ [Fetched Net.GetCsrfToken]).
Proof.
  intros Htok Hcalm.
  set (P := fun w' : world =>
    same_token w w'
    /\ exists later, pushes (trace w') = pushes (trace w) ++ later
                     /\ Forall (fun p => p.2 = csrfToken (this w)) later).
  assert (forall w1 w2, P w1 -> same_token w1 w2 ->
            (exists more, pushes (trace w2) = pushes (trace w1) ++ more
                          /\ Forall (fun p => p.2 = csrfToken (this w1)) more) ->
            P w2) as Hstep.
  { intros w1 w2 [Hs (later & Hl & Hall)] Hs' (more & Hm & Hall').
    split; [by eapply same_token_trans|].
    exists (later ++ more). rewrite Hm, Hl, app_assoc. split; [done|].
    apply Forall_app. split; [done|]. destruct Hs as [<- _]. done. }
  assert (forall w1 w2, P w1 -> same_token w1 w2 ->
            pushes (trace w2) = pushes (trace w1) -> P w2) as Hsame.
  { intros w1 w2 H1 Hs Hp. apply (Hstep w1); [done|done|].
    exists []. by rewrite Hp, app_nil_r. }
  assert (forall w1, P w1 -> Js.truthy (csrfToken (this w1)) = true) as Hheld.
  { intros w1 [[-> _] _]. done. }
  assert (forall formData w1, P w1 -> P (snd (push formData w1))) as Hpush.
  { intros formData w1 H1. apply (Hstep w1); [done|apply push_same_token|].
    rewrite pushes_push. eexists. split; [done|]. by constructor. }
  assert (forall formData w1, P w1 -> P (snd (syncToServer formData w1))) as Hsync.
  { intros formData w1 H1. rewrite syncToServer_with_token by by apply Hheld.
    by apply Hpush. }
  assert (forall data w1, P w1 -> P (saveToLocalStorage data w1)) as Hstore.
  { intros data w1 H1. apply (Hsame w1); [done|apply saveToLocalStorage_same_token|].
    pose proof (saveToLocalStorage_frame data w1) as H. cbv zeta in H. by destruct_and!. }
  assert (forall e w1, asks_token e = false -> pushed e = [] -> P w1 -> P (log e w1))
    as Hlog.
  { intros e w1 He Hp H1. apply (Hsame w1); [done| |].
    - split; [done|]. simpl. rewrite token_requests_snoc, He. by rewrite app_nil_r.
    - simpl. by rewrite pushes_snoc, Hp, app_nil_r. }
  assert (P (play history w)) as HP.
  { apply (play_invariant P) with (allowed := fun h => grants h = false).
    - intros t w1 H1. exact H1.
    - intros h w1 H1. destruct h; exact H1.
    - intros forceSync w1 H1. unfold saveFormData.
      destruct (negb (enabled (this w1))); [exact H1|]. cbv zeta.
      destruct (_ || _); [apply Hsync|]. all: by apply Hstore, Hlog.
    - exact Hsync.
    - intros w1 H1. exact H1.
    - intros w1 H1. exact H1.
    - intros form elements w1 H1. exact H1.
    - intros w1 H1. unfold handleFormChange.
      destruct (negb (enabled (this w1))); [exact H1|].
      destruct (saveTimer (this w1)); exact H1.
    - intros fileInput w1 file response w2 H1 Hsent.
      apply handleFileUpload_request_frame in Hsent
        as (_ & Hthis & _ & _ & _ & _ & _ & Htrace).
      apply (Hsame w1); [done| |].
      + split; [by rewrite Hthis|]. by rewrite Htrace, token_requests_snoc, app_nil_r.
      + by rewrite Htrace, pushes_snoc, app_nil_r.
    - intros fileInput file response w1 _ H1.
      pose proof (handleFileUpload_reply_frame fileInput file response w1) as H.
      cbv zeta in H. destruct H as (Hthis & _ & _ & _ & _ & Hasked & Hpushed & _).
      apply (Hsame w1); [done|split; [by rewrite Hthis|done]|done].
    - intros response resume w1 Hno H1. simpl in Hno.
      pose proof (loadCsrfToken_reply_frame response w1) as H. cbv zeta in H.
      destruct H as (_ & _ & _ & _ & _ & _ & Hasked & Hpushed & _ & Hthis & _).
      apply (Hsame w1); [done|split; [by rewrite Hthis|done]|done].
    - exact Hpush.
    - intros w1 H1. apply (Hsame w1); [done|apply restoreSavedData_same_token|].
      unfold restoreSavedData, restore_body, restore_into, write_back. unfold_ops.
      cbn -[upload_slots]. split_cases; simpl; by rewrite ?pushes_snoc, ?app_nil_r.
    - intros w1 H1. pose proof (setupFormListeners_frame w1) as H. cbv zeta in H.
      destruct H as (_ & _ & _ & _ & _ & _ & _ & Htr & _ & _ & Htk & _).
      apply (Hsame w1); [done|split; [done|by rewrite Htr]|by rewrite Htr].
    - intros b w1 _ H1. destruct b; exact H1.
    - intros w1 H1. exact H1.
    - exact Hcalm.
    - split; [done|]. exists []. by rewrite app_nil_r. }
  destruct HP as [Hs (later & Hl & Hall)].
  split; [done|]. split; [rewrite Hl; by rewrite drop_app_length|].
  split.
  2: { intros page. split; [done|].
       unfold new_FormAutoSaveService, initialize, loadCsrfToken_request, fetch.
       simpl. by rewrite token_requests_snoc. }
  intros ok data resume Hgrant.
  set (w0 := play history w).
  pose proof (loadCsrfToken_reply_frame (Net.Reply ok data) w0) as H.
  cbv zeta in H.
  destruct H as (_ & _ & _ & _ & _ & _ & _ & _ & _ & _ & Hnew).
  specialize (Hnew ok data eq_refl Hgrant).
  unfold happen. cbv zeta.
  set (w1 := snd (loadCsrfToken_reply (Net.Reply ok data) w0)) in *.
  destruct resume as [formData|]; [|exact Hnew].
  destruct (negb _); [exact Hnew|].
  pose proof (push_frame formData w1) as Hf.
  cbv zeta in Hf. destruct Hf as (_ & _ & _ & _ & _ & _ & _ & Htoken & _).
  by rewrite Htoken.
Qed.

Lemma X11_witness :
  let w := Sample.world_at 0 (Sample.membershipForm "Asha" "a@b.in" false true []) ∅ [] in
  let history :=
    [Edit "membershipForm" [Sample.text_input "firstName" "Ashok"];
     TokenReply Net.Unreachable None; Elapse 2000; Leave] in
  (Js.truthy (csrfToken (this w)) = true
   /\ Forall (fun h => grants h = false) history)
  /\ same_token w (play history w)
  /\ csrfToken
       (this (happen (play history w)
                (TokenReply
                   (Net.Reply true [("success"%string, Js.Bool true);
                                    ("csrfToken"%string, Js.Str "t2")]) None)))
     = Js.Str "t2".
Proof.
  intros w history.
  assert (Forall (fun h => grants h = false) history) as Hcalm
    by (by repeat constructor).
  split; [by split|].
  destruct (X11_only_a_late_reply_replaces_the_token history w eq_refl Hcalm)
    as (Hsame & _ & Hlate & _).
  split; [exact Hsame|].
  exact (Hlate true [("success"%string, Js.Bool true); ("csrfToken"%string, Js.Str "t2")]
           None eq_refl).
Defined.

(** X12.  Of the storage the service only ever touches its own key:
    whatever happens on the page, every other key keeps its value, and
    under its own key there is what was there at the start, or nothing,
    or the [JSON.stringify] text of an object; the service never leaves
    text there that [JSON.parse] would reject. *)
Theorem X12_storage_outside_the_key_is_untouched history w :
  same_other_keys w (play history w)
  /\ own_key_well_formed w (play history w)
  /\ (forall savedData,
        localStorage (play history w) !! STORAGE_KEY = Some savedData ->
        Js.parse savedData = None ->
        localStorage w !! STORAGE_KEY = Some savedData).
Proof.
  assert (same_other_keys w (play history w)
          /\ own_key_well_formed w (play history w)) as [Hothers Hown].
  { apply (play_invariant
             (fun w' => same_other_keys w w' /\ own_key_well_formed w w'))
        with (allowed := fun _ => True).
    - intros t w1 H1. exact H1.
    - intros h w1 H1. destruct h; exact H1.
    - intros forceSync w1 H1.
      eapply service_write_keeps; [exact H1|apply saveFormData_writes].
    - intros formData w1 H1. eapply service_write_keeps; [exact H1|].
      pose proof (syncToServer_frame formData w1) as H. cbv zeta in H.
      destruct H as (_ & _ & -> & _). by left.
    - intros w1 H1. exact H1.
    - intros w1 H1. exact H1.
    - intros form elements w1 H1. exact H1.
    - intros w1 H1. unfold handleFormChange.
      destruct (negb (enabled (this w1))); [exact H1|].
      destruct (saveTimer (this w1)); exact H1.
    - intros fileInput w1 file response w2 H1 Hsent.
      apply handleFileUpload_request_frame in Hsent as (_ & _ & Hst & _).
      eapply service_write_keeps; [exact H1|]. rewrite Hst. by left.
    - intros fileInput file response w1 _ H1.
      eapply service_write_keeps; [exact H1|].
      pose proof (handleFileUpload_reply_frame fileInput file response w1) as H.
      cbv zeta in H. by destruct_and!.
    - intros response resume w1 _ H1. eapply service_write_keeps; [exact H1|].
      pose proof (loadCsrfToken_reply_frame response w1) as H. cbv zeta in H.
      destruct H as (_ & -> & _). by left.
    - intros formData w1 H1. eapply service_write_keeps; [exact H1|].
      pose proof (push_frame formData w1) as H. cbv zeta in H.
      destruct H as (_ & _ & -> & _). by left.
    - intros w1 H1. eapply service_write_keeps; [exact H1|].
      destruct (restore_writes w1) as (_ & -> & _). by left.
    - intros w1 H1. eapply service_write_keeps; [exact H1|].
      pose proof (setupFormListeners_frame w1) as H. cbv zeta in H.
      destruct H as (_ & -> & _). by left.
    - intros b w1 _ H1. eapply service_write_keeps; [exact H1|].
      destruct b; [by left|]. right. right. done.
    - intros w1 H1. eapply service_write_keeps; [exact H1|]. right. right. done.
    - apply Forall_always.
    - split; [done|by left]. }
  split; [done|]. split; [done|].
  intros savedData Hsaved Hbad.
  destruct Hown as [<-|[Hnone|[data Hdata]]]; [done|congruence|].
  rewrite Hsaved in Hdata. injection Hdata as ->. done.
Qed.

(** X1.  Once auto-save has been switched off with [setEnabled(false)],
    nothing that the service does by itself stores anything: whichever
    timers were pending and whatever happens on the page save for
    [setEnabled(true)], the storage key stays empty, auto-save stays off
    and no save runs (a debounce timer that was already set still fires,
    but [saveFormData] returns at its guard); field activity and file
    selection do nothing, and the [beforeunload] listener neither saves
    nor asks to confirm.  The one exception is an upload that was under
    way when auto-save was switched off: [handleFileUpload] tests
    [enabled] before it sends the file and not again when the reply is
    there, so the reply of an upload that went through is stored under
    the key all the same. *)
Theorem X1_disabled_service_stays_silent history fileInput w :
  Forall (fun h => keeps_off h = true) history ->
  let off := play history (setEnabled false w) in
  localStorage off !! STORAGE_KEY = None
  /\ enabled (this off) = false
  /\ saves (trace off) = saves (trace w)
  /\ handleFormChange off = off
  /\ handleFileUpload fileInput off = off
  /\ handleFileUpload_request fileInput off = None
  /\ beforeunload off = (off, None)
  /\ (forall ms,
        Dom.forms (document (advance ms (setEnabled false w)))
        = Dom.forms (document w))
  /\ (forall file data,
        storageFull off = false ->
        let late := handleFileUpload_reply fileInput file (Net.Reply true data) off in
        localStorage late !! STORAGE_KEY
        = Some (Js.stringify
                  (Js.assign (El.id fileInput) (Js.get "fileUrl" data)
                     (getFormData off)))
        /\ enabled (this late) = false).
Proof.
  intros Hcalm off.
  set (P := fun w1 : world =>
    localStorage w1 !! STORAGE_KEY = None
    /\ enabled (this w1) = false
    /\ saves (trace w1) = saves (trace w)).
  assert (forall w1 w2, P w1 -> localStorage w2 = localStorage w1 ->
            enabled (this w2) = enabled (this w1) ->
            saves (trace w2) = saves (trace w1) -> P w2) as Hsame.
  { intros w1 w2 (H1 & H2 & H3) Hst Hen Hsv. unfold P. by rewrite Hst, Hen, Hsv. }
  assert (forall formData w1, P w1 -> P (snd (push formData w1))) as Hpush.
  { intros formData w1 H1. pose proof (push_frame formData w1) as H. cbv zeta in H.
    apply (Hsame w1); [done|..]; by destruct_and!. }
  assert (P off) as (Hnone & Hoff & Hsaves).
  { apply (play_invariant P) with (allowed := fun h => keeps_off h = true).
    - intros t w1 H1. exact H1.
    - intros h w1 H1. destruct h; exact H1.
    - intros forceSync w1 H1. pose proof H1 as (_ & Hen & _).
      unfold saveFormData. by rewrite Hen.
    - intros formData w1 H1.
      pose proof (syncToServer_frame formData w1) as H. cbv zeta in H.
      apply (Hsame w1); [done|..]; by destruct_and!.
    - intros w1 H1. exact H1.
    - intros w1 H1. exact H1.
    - intros form elements w1 H1. exact H1.
    - intros w1 H1. unfold handleFormChange.
      destruct (negb (enabled (this w1))); [exact H1|].
      destruct (saveTimer (this w1)); exact H1.
    - intros fileInput0 w1 file response w2 (_ & Hen & _) Hsent.
      apply handleFileUpload_request_frame in Hsent as (Hon & _). congruence.
    - intros fileInput0 file response w1 Hfail H1. simpl in Hfail.
      apply negb_true_iff in Hfail.
      pose proof (handleFileUpload_reply_frame fileInput0 file response w1) as H.
      cbv zeta in H. destruct H as (Hthis & _ & _ & _ & Hst & _ & _ & Hsv).
      apply (Hsame w1); [done|by apply Hst|by rewrite Hthis|done].
    - intros response resume w1 _ H1.
      pose proof (loadCsrfToken_reply_frame response w1) as H. cbv zeta in H.
      apply (Hsame w1); [done|..]; by destruct_and!.
    - exact Hpush.
    - intros w1 H1. destruct H1 as (H1 & H2 & H3).
      assert (restoreSavedData w1 = Normal w1) as ->; [|by repeat split].
      unfold restoreSavedData, restore_body. by rewrite H1.
    - intros w1 H1. pose proof (setupFormListeners_frame w1) as H. cbv zeta in H.
      destruct H as (_ & Hst & _ & _ & _ & _ & _ & Htr & _ & _ & _ & Hen & _).
      apply (Hsame w1); [done|done|done|by rewrite Htr].
    - intros b w1 Hb (H1 & H2 & H3). simpl in Hb. apply negb_true_iff in Hb.
      subst b. unfold P, setEnabled, clearSavedData. simpl.
      rewrite lookup_delete_eq. by repeat split.
    - intros w1 (H1 & H2 & H3). unfold P, clearSavedData. simpl.
      rewrite lookup_delete_eq. by repeat split.
    - exact Hcalm.
    - unfold P, setEnabled, clearSavedData. simpl. rewrite lookup_delete_eq.
      by repeat split. }
  assert (handleFileUpload_request fileInput off = None) as Hrequest
    by (unfold handleFileUpload_request; by rewrite Hoff).
  split; [done|]. split; [done|]. split; [done|].
  split; [unfold handleFormChange; by rewrite Hoff|].
  split; [unfold handleFileUpload; by rewrite Hrequest|].
  split; [done|].
  split; [unfold beforeunload, hasUnsavedChanges; by rewrite Hnone|].
  split.
  - intros ms.
    destruct (advance_disabled ms (setEnabled false w)) as (_ & _ & Hforms & _);
      [done|]. exact Hforms.
  - intros file data Hroom. cbv zeta.
    unfold handleFileUpload_reply, uploadFile_reply. cbv zeta.
    cbn -[Dom.set_label saveToLocalStorage getFormData].
    unfold saveToLocalStorage. rewrite Hroom. unfold_ops. simpl.
    split; [by rewrite lookup_insert|done].
Qed.

Lemma X1_witness :
  let w := saveFormData false
             (Sample.world_at 0 (Sample.membershipForm "Asha" "a@b.in" false true [])
                ∅ [Sample.ok]) in
  let history :=
    [Edit "membershipForm" [Sample.text_input "firstName" "Ashok"];
     Elapse 3000;
     UploadReply (Sample.file_input "aadharFront" []) "front.png" Net.Unreachable;
     Leave] in
  Forall (fun h => keeps_off h = true) history
  /\ localStorage (play history (setEnabled false w)) !! STORAGE_KEY = None
  /\ enabled (this (play history (setEnabled false w))) = false.
Proof.
  intros w history.
  assert (Forall (fun h => keeps_off h = true) history) as Hcalm
    by (by repeat constructor).
  split; [exact Hcalm|].
  destruct (X1_disabled_service_stays_silent history
              (Sample.file_input "aadharFront" []) w Hcalm)
    as (Hnone & Hoff & _).
  split; [exact Hnone|exact Hoff].
Defined.

(* ===================================================================== *)
(** ** The current form *)
(* ===================================================================== *)

Lemma fold_currentFormId fs w :
  currentFormId
    (this (fold_left
             (fun w' f =>
                with_this (set_currentFormId (Some (Dom.form_id f)) (this w')) w')
             fs w))
  = match last fs with
    | Some f => Some (Dom.form_id f)
    | None => currentFormId (this w)
    end.
Proof.
  revert w. induction fs as [|f fs IH]; intros w; [done|].
  simpl fold_left. rewrite IH, last_cons. by destruct (last fs).
Qed.

(** X13.  [setupFormListeners] leaves as the current form the last form
    of the document whose id begins with [membershipForm] or
    [updateForm]; with no such form the current form stays what it was
    ([null] after construction).  Nothing else of the state changes. *)
Theorem X13_last_matching_form_becomes_current w :
  let w' := setupFormListeners w in
  currentFormId (this w')
  = match last (List.filter tracked (Dom.forms (document w))) with
    | Some f => Some (Dom.form_id f)
    | None => currentFormId (this w)
    end
  /\ (forall f, currentFormId (this w') = Some f ->
        currentFormId (this w) = Some f
        \/ exists form, form ∈ Dom.forms (document w) /\ Dom.form_id form = f
                        /\ tracked form = true)
  /\ document w' = document w /\ localStorage w' = localStorage w
  /\ timers w' = timers w /\ trace w' = trace w /\ network w' = network w
  /\ csrfToken (this w') = csrfToken (this w)
  /\ enabled (this w') = enabled (this w).
Proof.
  intros w'. pose proof (setupFormListeners_frame w) as H. cbv zeta in H.
  fold w' in H. destruct_and!.
  assert (currentFormId (this w')
          = match last (List.filter tracked (Dom.forms (document w))) with
            | Some f => Some (Dom.form_id f)
            | None => currentFormId (this w)
            end) as Hcur by apply fold_currentFormId.
  repeat split; try done.
  intros f. rewrite Hcur.
  destruct (last _) as [form|] eqn:Hlast; [|by left].
  intros [= <-]. right. exists form.
  apply last_Some in Hlast as [fs Hfs].
  assert (In form (List.filter tracked (Dom.forms (document w)))) as Hin.
  { rewrite Hfs. apply in_or_app. right. by left. }
  apply filter_In in Hin as [Hin Htracked].
  split; [by apply list_elem_of_In|done].
Qed.

Lemma getFormData_no_form w :
  Dom.getElementById (document w) (currentFormId_string w) = None ->
  getFormData w = [].
Proof. intros H. unfold getFormData. by rewrite H. Qed.

(** X14.  When the current form is not in the document (no form matched
    at set-up, or the form is gone), [getFormData] returns the empty
    object, with no time stamp in it: a save stores the text of the empty
    object, and from then on, however much time passes, nothing counts
    as unsaved and leaving the page asks for no confirmation. *)
Theorem X14_without_a_form_the_snapshot_is_empty forceSync ms w :
  enabled (this w) = true ->
  storageFull w = false ->
  Dom.getElementById (document w) (currentFormId_string w) = None ->
  let w' := advance ms (saveFormData forceSync w) in
  localStorage w' !! STORAGE_KEY = Some (Js.stringify [])
  /\ hasUnsavedChanges w' = false
  /\ beforeunload w' = (w', None).
Proof.
  intros Hon Hroom Hnone w'.
  set (P := fun w1 : world =>
    Dom.getElementById (document w1) (currentFormId_string w1) = None
    /\ localStorage w1 !! STORAGE_KEY = Some (Js.stringify [])).
  assert (forall formData w1, P w1 -> P (snd (syncToServer formData w1))) as Hsync.
  { intros formData w1 [H1 H2].
    pose proof (syncToServer_frame formData w1) as H. cbv zeta in H.
    destruct H as (Hf & _ & Hs & _ & _ & _ & Hc & _).
    unfold P, Dom.getElementById, currentFormId_string in *. by rewrite Hf, Hs, Hc. }
  assert (forall data w1,
            Dom.getElementById (document w1) (currentFormId_string w1) = None ->
            Dom.getElementById (document (saveToLocalStorage data w1))
              (currentFormId_string (saveToLocalStorage data w1)) = None) as Hstore.
  { intros data w1 H1.
    pose proof (saveToLocalStorage_frame data w1) as H. cbv zeta in H.
    destruct H as (Ht & _ & _ & _ & Hf & _).
    unfold Dom.getElementById, currentFormId_string in *. by rewrite Hf, Ht. }
  assert (forall force w1,
            Dom.getElementById (document w1) (currentFormId_string w1) = None ->
            (localStorage w1 !! STORAGE_KEY = Some (Js.stringify [])
             \/ (enabled (this w1) = true /\ storageFull w1 = false)) ->
            P (saveFormData force w1)) as Hsave.
  { intros force w1 H1 H2. unfold saveFormData.
    destruct (enabled (this w1)) eqn:Hen; simpl negb; cbv iota.
    - cbv zeta. rewrite (getFormData_no_form w1 H1).
      set (w0 := log _ w1).
      assert (P (saveToLocalStorage [] w0)) as HP.
      { split; [by apply Hstore|].
        unfold saveToLocalStorage. destruct (storageFull w0) eqn:Hfull; simpl.
        - destruct H2 as [H2|[_ H2]]; [done|]. unfold w0 in Hfull. simpl in Hfull.
          congruence.
        - by rewrite lookup_insert. }
      destruct (_ || _); [by apply Hsync|done].
    - destruct H2 as [H2|[H2 _]]; [done|discriminate]. }
  assert (P w') as [Hform Hstored].
  { apply advance_invariant.
    - intros t w1 H1. exact H1.
    - intros h w1 H1. destruct h; exact H1.
    - intros force w1 [H1 H2]. apply Hsave; [done|by left].
    - exact Hsync.
    - intros w1 H1. exact H1.
    - intros w1 H1. exact H1.
    - apply Hsave; [done|by right]. }
  assert (hasUnsavedChanges w' = false) as Hclean.
  { unfold hasUnsavedChanges. rewrite Hstored. simpl.
    rewrite (getFormData_no_form w' Hform). by rewrite bool_decide_false by (by intros ?). }
  repeat split; try done. unfold beforeunload. by rewrite Hclean.
Qed.

Lemma X14_witness :
  let w := World (Service 0 None None (Js.Str "tok") true None)
                 (Dom.Document [Dom.Form "contactForm" [Sample.text_input "city" "Pune"]]
                    ∅ None None)
                 ∅ false 0 [] 1 [Sample.ok] [] in
  (enabled (this w) = true /\ storageFull w = false
   /\ Dom.getElementById (document w) (currentFormId_string w) = None)
  /\ hasUnsavedChanges (advance 3000 (saveFormData false w)) = false.
Proof.
  intros w. split; [by repeat split|].
  apply (X14_without_a_form_the_snapshot_is_empty false 3000 w); reflexivity.
Defined.

(* ===================================================================== *)
(** ** The application: submitting a form *)
(* ===================================================================== *)

(** X15.  Whatever the endpoint answers, [submitForm] sends exactly one
    request, with the token of the application written over any
    [csrfToken] of the form data, shows exactly one outcome, the success
    dialog or the error alert (with a report to the server when the page
    is not served from localhost), and ends by releasing the submit
    button it locked at the start. *)
Theorem X15_submission_is_bracketed_and_reported_once st formType formData w :
  exists outcome,
    trace (App.submitForm st formType formData w)
    = trace w
      ++ [ButtonLoader (App.submitBtn formType) true;
          Fetched (Net.SubmitForm (App.api_action formType)
                     (Js.assign "csrfToken" (App.csrfToken st) formData))]
      ++ outcome
      ++ [ButtonLoader (App.submitBtn formType) false]
    /\ (if App.succeeded st formType formData w
        then exists message referenceId, outcome = [SuccessModal message referenceId]
        else exists message,
               outcome
               = [ConsoleError "Application Error:"; ErrorAlert message]
                 ++ (if App.production st then [Fetched (Net.LogError message)]
                     else [])).
Proof.
  unfold App.succeeded, App.submitBtn, App.api_action. unfold_ops. cbv zeta.
  destruct (next_reply _) as [|ok data] eqn:Hreply; simpl.
  - exists ([ConsoleError "Application Error:"; ErrorAlert "Failed to fetch"]
            ++ (if App.production st
                then [Fetched (Net.LogError "Failed to fetch")] else [])).
    split; [|by eexists].
    destruct (App.production st); simpl; by rewrite <- !app_assoc.
  - destruct (Js.truthy (Js.get "success" data)).
    + destruct (String.eqb formType "register").
      * exists [SuccessModal "Application submitted successfully!"
                  (Js.get "applicationId" data)].
        split; [simpl; by rewrite <- !app_assoc|]. simpl. by eexists _, _.
      * destruct (App.currentUser st) as [uniqueId|].
        -- exists [SuccessModal "Update submitted successfully!" uniqueId].
           split; [simpl; by rewrite <- !app_assoc|]. simpl. by eexists _, _.
        -- exists ([ConsoleError "Application Error:";
                    ErrorAlert "Cannot read properties of null (reading 'uniqueId')"]
                   ++ (if App.production st
                       then [Fetched (Net.LogError
                               "Cannot read properties of null (reading 'uniqueId')")]
                       else [])).
           split; [|by eexists].
           destruct (App.production st); simpl; by rewrite <- !app_assoc.
    + exists ([ConsoleError "Application Error:";
               ErrorAlert (Js.to_string
                             (Js.or_else (Js.get "message" data)
                                (Js.Str "Submission failed")))]
              ++ (if App.production st
                  then [Fetched (Net.LogError
                          (Js.to_string
                             (Js.or_else (Js.get "message" data)
                                (Js.Str "Submission failed"))))]
                  else [])).
      split; [|by eexists].
      destruct (App.production st); simpl; by rewrite <- !app_assoc.
Qed.

(** X16.  An update that the endpoint accepts while no user is signed in
    is reported as a failure: the request has gone out and the reply says
    [success], but reading [uniqueId] of the missing user throws, so the
    page shows the error alert and no success dialog. *)
Theorem X16_accepted_update_without_user_is_reported_as_error
        st formType formData ok data w :
  formType <> "register"%string ->
  App.currentUser st = None ->
  next_reply w = Net.Reply ok data ->
  Js.truthy (Js.get "success" data) = true ->
  let w' := App.submitForm st formType formData w in
  App.succeeded st formType formData w = false
  /\ In (Fetched (Net.SubmitForm "updateUserData"
                    (Js.assign "csrfToken" (App.csrfToken st) formData))) (trace w')
  /\ List.filter is_success (trace w') = List.filter is_success (trace w)
  /\ exists message,
       List.filter is_alert (trace w') = List.filter is_alert (trace w) ++ [ErrorAlert message].
Proof.
  intros Hupdate Huser Hreply Hsuccess.
  apply String.eqb_neq in Hupdate.
  unfold App.succeeded. unfold_ops. cbv zeta.
  rewrite Hupdate. simpl. unfold next_reply in *. simpl. rewrite Hreply, Hsuccess, Huser.
  split; [done|].
  destruct (App.production st); simpl; rewrite !List.filter_app; simpl;
    rewrite ?app_nil_r.
  all: split; [rewrite !in_app_iff; simpl; tauto|].
  all: split; [done|by eexists].
Qed.

Lemma X16_witness :
  ("update"%string <> "register"%string
   /\ App.currentUser Sample.applicant = None
   /\ next_reply (Sample.world_at 0 (Sample.updateForm "a@b.in") ∅ [Sample.ok])
      = Net.Reply true [("success"%string, Js.Bool true)]
   /\ Js.truthy (Js.get "success" [("success"%string, Js.Bool true)]) = true)
  /\ App.succeeded Sample.applicant "update" []
       (Sample.world_at 0 (Sample.updateForm "a@b.in") ∅ [Sample.ok]) = false.
Proof.
  split; [by repeat split|].
  apply (X16_accepted_update_without_user_is_reported_as_error
           Sample.applicant "update" [] true [("success"%string, Js.Bool true)]
           (Sample.world_at 0 (Sample.updateForm "a@b.in") ∅ [Sample.ok]));
    [discriminate|reflexivity|reflexivity|reflexivity].
Defined.

(* ===================================================================== *)
(** ** The body of a submission *)
(* ===================================================================== *)

Lemma own_None_keys k o : Js.own k o = None <-> ~ In k (map fst o).
Proof.
  induction o as [|[k' v] o IH]; simpl; [tauto|].
  destruct (String.eqb_spec k' k) as [->|Hne].
  - split; [done|]. intros H. destruct H. by left.
  - rewrite IH. split; [intros H [?|?]; done|tauto].
Qed.

Lemma keys_replace k v o : map fst (Js.replace k v o) = map fst o.
Proof.
  induction o as [|[k' v'] o IH]; simpl; [done|].
  destruct (String.eqb k' k); simpl; [done|by rewrite IH].
Qed.

Lemma own_define_eq k v o : Js.own k (App.define k v o) = Some v.
Proof.
  unfold App.define. destruct (Js.own k o) eqn:Ho.
  - apply own_replace_eq. rewrite Ho. eauto.
  - rewrite own_app, Ho. simpl. by rewrite String.eqb_refl.
Qed.

Lemma own_define_ne k k' v o :
  k <> k' -> Js.own k' (App.define k v o) = Js.own k' o.
Proof.
  intros Hne. unfold App.define. destruct (Js.own k o) eqn:Ho.
  - by apply own_replace_ne.
  - rewrite own_app. destruct (Js.own k' o); [done|]. simpl.
    by destruct (String.eqb_spec k k').
Qed.

Lemma define_well_formed k v o : well_formed o -> well_formed (App.define k v o).
Proof.
  unfold well_formed, App.define. intros Ho.
  destruct (Js.own k o) eqn:Hk; [by rewrite keys_replace|].
  rewrite map_app. simpl. apply NoDup_app. split; [done|].
  split; [|apply NoDup_singleton].
  intros x Hx Hin. apply list_elem_of_In in Hin as [->|[]]. 
  apply own_None_keys in Hk. by apply Hk, list_elem_of_In.
Qed.

Lemma spread_well_formed source into :
  well_formed into -> well_formed (App.spread source into).
Proof.
  unfold App.spread. revert into.
  induction source as [|[k v] source IH]; simpl; intros into H; [done|].
  by apply IH, define_well_formed.
Qed.

Lemma own_spread k source into :
  well_formed source ->
  Js.own k (App.spread source into)
  = match Js.own k source with Some v => Some v | None => Js.own k into end.
Proof.
  unfold App.spread, well_formed. revert into.
  induction source as [|[k' v] source IH]; simpl; intros into Hnd; [done|].
  apply NoDup_cons in Hnd as [Hk' Hnd]. rewrite IH by done.
  destruct (String.eqb_spec k' k) as [->|Hne].
  - assert (Js.own k source = None) as ->.
    { apply own_None_keys. intros Hin. by apply Hk', list_elem_of_In. }
    apply own_define_eq.
  - destruct (Js.own k source); [done|]. by apply own_define_ne.
Qed.

Lemma own_defined_props k o :
  well_formed o -> Js.own k (Js.defined_props o) = through_json (Js.own k o).
Proof.
  unfold well_formed, Js.defined_props.
  induction o as [|[k' v] o IH]; simpl; intros Hnd; [done|].
  apply NoDup_cons in Hnd as [Hk' Hnd].
  destruct (String.eqb_spec k' k) as [->|Hne].
  - case_bool_decide as Hv; simpl in *.
    + rewrite String.eqb_refl. by destruct v.
    + subst v. simpl.
      apply own_None_keys. intros Hin. apply Hk', list_elem_of_In.
      apply in_map_iff in Hin as ([k0 v0] & <- & Hin).
      apply filter_In in Hin as [Hin _]. apply in_map_iff. by exists (k0, v0).
  - case_bool_decide; simpl; [|by apply IH].
    destruct (String.eqb_spec k' k); [done|by apply IH].
Qed.

Lemma assign_well_formed k v o : well_formed o -> well_formed (Js.assign k v o).
Proof.
  unfold well_formed, Js.assign. intros Ho.
  destruct (Js.own k o) eqn:Hk; [by rewrite keys_replace|].
  destruct (String.eqb k "__proto__"); [done|].
  rewrite map_app. simpl. apply NoDup_app. split; [done|].
  split; [|apply NoDup_singleton].
  intros x Hx Hin. apply list_elem_of_In in Hin as [->|[]]. 
  apply own_None_keys in Hk. by apply Hk, list_elem_of_In.
Qed.

(** X17.  In the body that [submitForm] sends, the token is always the
    one of the application, whatever the form data held under
    [csrfToken]; the action is the one chosen from the form type only as
    long as the form data has no property [action] of its own: such a
    property takes its place.  (A property whose value is [undefined] is
    not printed, so the body then has no such entry at all.)  Every other
    property of the form data arrives as it is. *)
Theorem X17_body_of_a_submission st formType formData :
  well_formed formData ->
  let sent := Js.assign "csrfToken" (App.csrfToken st) formData in
  exists o,
    Js.parse (App.body (App.api_action formType) sent) = Some (Js.Object o)
    /\ Js.own "csrfToken" o = through_json (Some (App.csrfToken st))
    /\ Js.own "action" o
       = match Js.own "action" formData with
         | Some v => through_json (Some v)
         | None => Some (Js.Str (App.api_action formType))
         end
    /\ forall k, k <> "action"%string -> k <> "csrfToken"%string ->
         Js.own k o = through_json (Js.own k formData).
Proof.
  intros Hwf sent. eexists. split; [reflexivity|].
  assert (well_formed sent) as Hsent by by apply assign_well_formed.
  assert (well_formed [("action"%string, Js.Str (App.api_action formType))]) as Hlit.
  { unfold well_formed. simpl. apply NoDup_singleton. }
  repeat split.
  - rewrite own_defined_props by by apply spread_well_formed.
    rewrite own_spread by done. unfold sent. by rewrite own_assign_eq.
  - rewrite own_defined_props by by apply spread_well_formed.
    rewrite own_spread by done. unfold sent. rewrite own_assign_ne by done.
    destruct (Js.own "action" formData); [done|]. simpl. done.
  - intros k Hk Hk'. rewrite own_defined_props by by apply spread_well_formed.
    rewrite own_spread by done. unfold sent. rewrite own_assign_ne by done.
    destruct (Js.own k formData); [done|].
    assert (Js.own k [("action"%string, Js.Str (App.api_action formType))] = None)
      as ->; [|done].
    apply own_None_keys. simpl. intros [?|[]]. congruence.
Qed.

Lemma X17_witness :
  well_formed [("email"%string, Js.Str "a@b.in"); ("action"%string, Js.Str "deleteUser")]
  /\ exists o,
       Js.parse (App.body (App.api_action "update")
                   (Js.assign "csrfToken" (App.csrfToken Sample.applicant)
                      [("email"%string, Js.Str "a@b.in");
                       ("action"%string, Js.Str "deleteUser")]))
       = Some (Js.Object o)
       /\ Js.own "action" o = Some (Js.Str "deleteUser").
Proof.
  assert (well_formed
            [("email"%string, Js.Str "a@b.in"); ("action"%string, Js.Str "deleteUser")])
    as Hwf.
  { unfold well_formed. simpl. apply NoDup_cons. split; [|apply NoDup_singleton].
    intros Hin. apply list_elem_of_In in Hin as [Heq|[]]. discriminate. }
  split; [exact Hwf|].
  destruct (X17_body_of_a_submission Sample.applicant "update" _ Hwf)
    as (o & Hparse & _ & Haction & _).
  exists o. split; [exact Hparse|exact Haction].
Defined.

(* ===================================================================== *)
(** ** The application: views *)
(* ===================================================================== *)

Lemma find_node_set_hidden elementId elementId' b p :
  App.find_node elementId' (App.set_hidden elementId b p)
  = if String.eqb elementId elementId'
    then with_hidden b <$> App.find_node elementId' p
    else App.find_node elementId' p.
Proof.
  induction p as [|n p IH]; simpl; [by destruct (String.eqb _ _)|].
  destruct (String.eqb_spec (App.node_id n) elementId) as [Hn|Hn]; simpl.
  - destruct (String.eqb_spec elementId elementId') as [<-|Hne].
    + by rewrite (proj2 (String.eqb_eq _ _) Hn).
    + destruct (String.eqb_spec (App.node_id n) elementId'); [congruence|done].
  - destruct (String.eqb_spec (App.node_id n) elementId') as [Hn'|Hn'].
    + destruct (String.eqb_spec elementId elementId'); [congruence|done].
    + exact IH.
Qed.

Lemma find_node_clearErrors elementId p :
  App.find_node elementId (App.clearErrors p) = cleared <$> App.find_node elementId p.
Proof.
  unfold App.clearErrors. induction p as [|n p IH]; simpl; [done|].
  fold (cleared n).
  assert (App.node_id (cleared n) = App.node_id n) as ->
    by (unfold cleared; by destruct (App.alert_error n)).
  by destruct (String.eqb (App.node_id n) elementId).
Qed.

Lemma set_hidden_only elementId b p :
  Forall2 (hidden_only [elementId]) p (App.set_hidden elementId b p).
Proof.
  induction p as [|n p IH]; simpl; [constructor|].
  destruct (String.eqb_spec (App.node_id n) elementId) as [Hn|Hn].
  - constructor.
    + repeat split; try done. right. by left.
    + clear. induction p; constructor; [|done]. repeat split; try done. by left.
  - constructor; [|done]. repeat split; try done. by left.
Qed.

Lemma hidden_only_trans ids ids' p1 p2 p3 :
  Forall2 (hidden_only ids) p1 p2 ->
  Forall2 (hidden_only ids') p2 p3 ->
  Forall2 (hidden_only (ids ++ ids')) p1 p3.
Proof.
  intros H12. revert p3. induction H12 as [|n1 n2 p1 p2 Hn H12 IH]; intros p3 H23.
  - inversion H23. constructor.
  - inversion H23 as [|? n3 ? p3' Hn' H23']; subst. constructor; [|by apply IH].
    destruct Hn as (Hid & Ha & Ht & Hh). destruct Hn' as (Hid' & Ha' & Ht' & Hh').
    repeat split; try congruence.
    destruct Hh as [Hh|Hh]; [|right; apply in_or_app; by left].
    destruct Hh' as [Hh'|Hh']; [left; congruence|].
    right. apply in_or_app. right. by rewrite <- Hid.
Qed.

Lemma hide_sections_only p :
  Forall2 (hidden_only App.sections) p
    (App.hideElement "updateSection"
       (App.hideElement "registrationSection" (App.hideElement "loginSection" p))).
Proof.
  change App.sections
    with (["loginSection"%string] ++ ["registrationSection"%string]
          ++ ["updateSection"%string]).
  eapply hidden_only_trans; [apply set_hidden_only|].
  eapply hidden_only_trans; apply set_hidden_only.
Qed.

Lemma view_section_cases viewName section :
  App.view_section viewName = Some section ->
  (viewName = "login" /\ section = "loginSection")%string
  \/ (viewName = "register" /\ section = "registrationSection")%string
  \/ (viewName = "update" /\ section = "updateSection")%string.
Proof.
  unfold App.view_section.
  destruct (String.eqb_spec viewName "login"); [intros [= <-]; by left|].
  destruct (String.eqb_spec viewName "register"); [intros [= <-]; right; by left|].
  destruct (String.eqb_spec viewName "update"); [intros [= <-]; right; by right|].
  done.
Qed.

(** X18.  [showView] with one of the names [login], [register] and
    [update] makes that view the active form, raises no error, and
    leaves of the three sections that are in the page exactly the one of
    the view without the [hidden] class (unless that section is itself
    an error box, which [clearErrors] hides again).  Every error box ends
    up hidden and empty; nothing else of the page changes. *)
Theorem X18_known_view_shows_its_section_only viewName section st p w :
  App.view_section viewName = Some section ->
  let r := App.showView viewName st p w in
  App.activeForm r.1.1 = Some viewName
  /\ r.2 = w
  /\ (forall elementId n,
        In elementId App.sections ->
        App.find_node elementId p = Some n ->
        exists n',
          App.find_node elementId r.1.2 = Some n'
          /\ App.hidden n'
             = App.alert_error n || negb (String.eqb elementId section))
  /\ (exists p1, Forall2 (hidden_only App.sections) p p1 /\ r.1.2 = map cleared p1)
  /\ Forall (fun n' => App.alert_error n' = true ->
                       App.hidden n' = true /\ App.node_text n' = EmptyString) r.1.2.
Proof.
  intros Hview r. subst r. unfold App.showView. rewrite Hview. cbv zeta. simpl. split; [done|]. split; [done|].
  split; [|split].
  - intros elementId n Hin Hfound.
    rewrite find_node_clearErrors. unfold App.showElement, App.hideElement.
    rewrite !find_node_set_hidden, Hfound.
    apply view_section_cases in Hview as [[-> ->]|[[-> ->]|[-> ->]]];
      destruct Hin as [<-|[<-|[<-|[]]]]; simpl; eexists; (split; [reflexivity|]);
      unfold cleared; simpl; by destruct (App.alert_error n).
  - eexists. split; [|reflexivity].
    eapply Forall2_impl; [eapply hidden_only_trans; [apply hide_sections_only|
                                                     apply (set_hidden_only section false)]|].
    intros n n' (Hid & Ha & Ht & Hh). repeat split; try done.
    destruct Hh as [Hh|Hh]; [by left|right].
    apply in_app_or in Hh as [Hh|[<-|[]]]; [done|].
    apply view_section_cases in Hview as [[-> ->]|[[-> ->]|[-> ->]]]; simpl; tauto.
  - unfold App.clearErrors. apply Forall_forall. intros n' Hin.
    apply list_elem_of_In, in_map_iff in Hin as (n & <- & _).
    destruct (App.alert_error n) eqn:Ha; simpl; [done|]. rewrite Ha. done.
Qed.

Lemma X18_witness :
  App.view_section "register" = Some "registrationSection"%string
  /\ App.activeForm
       (App.showView "register" Sample.applicant
          [App.Node "loginSection" false false "Sign in";
           App.Node "registrationSection" false true "Apply";
           App.Node "loginError" true false "Wrong password"]
          (Sample.world_at 0 (Sample.updateForm "a@b.in") ∅ [])).1.1
     = Some "register"%string.
Proof.
  split; [reflexivity|].
  apply (X18_known_view_shows_its_section_only "register" "registrationSection"
           Sample.applicant
           [App.Node "loginSection" false false "Sign in";
            App.Node "registrationSection" false true "Apply";
            App.Node "loginError" true false "Wrong password"]
           (Sample.world_at 0 (Sample.updateForm "a@b.in") ∅ [])).
  reflexivity.
Defined.

(** X19.  [showView] with any other name has by then hidden all three
    sections and shows none: the page is left without a visible view.
    The error is reported, the active form stays what it was and the
    error boxes are not cleared. *)
Theorem X19_unknown_view_hides_every_section viewName st p w :
  App.view_section viewName = None ->
  let r := App.showView viewName st p w in
  r.1.1 = st
  /\ (forall elementId n,
        In elementId App.sections ->
        App.find_node elementId p = Some n ->
        App.find_node elementId r.1.2 = Some (with_hidden true n))
  /\ Forall2 (hidden_only App.sections) p r.1.2
  /\ List.filter is_alert (trace r.2)
     = List.filter is_alert (trace w) ++ [ErrorAlert ("Unknown view: " ++ viewName)]
  /\ localStorage r.2 = localStorage w.
Proof.
  intros Hview r. subst r. unfold App.showView. rewrite Hview. cbv zeta. simpl. split; [done|]. split; [|split; [apply hide_sections_only|]].
  - intros elementId n Hin Hfound. unfold App.hideElement.
    rewrite !find_node_set_hidden, Hfound.
    by destruct Hin as [<-|[<-|[<-|[]]]].
  - unfold_ops. destruct (App.production st); simpl;
      rewrite !List.filter_app; simpl; by rewrite ?app_nil_r.
Qed.

Lemma X19_witness :
  App.view_section "profile" = None
  /\ App.find_node "loginSection"
       (App.showView "profile" Sample.applicant
          [App.Node "loginSection" false false "Sign in"]
          (Sample.world_at 0 (Sample.updateForm "a@b.in") ∅ [])).1.2
     = Some (App.Node "loginSection" false true "Sign in").
Proof.
  split; [reflexivity|].
  destruct (X19_unknown_view_hides_every_section "profile" Sample.applicant
              [App.Node "loginSection" false false "Sign in"]
              (Sample.world_at 0 (Sample.updateForm "a@b.in") ∅ []) eq_refl)
    as (_ & Hhidden & _).
  apply (Hhidden "loginSection"%string (App.Node "loginSection" false false "Sign in"));
    [by left|reflexivity].
Defined.

(* ===================================================================== *)
(** ** The application: the stored session and the token *)
(* ===================================================================== *)

Section Session.

Variable Date_parse : string -> option Z.

Lemma getSession_frame w :
  let r := App.getSession Date_parse w in
  this r.2 = this w /\ document r.2 = document w /\ clock r.2 = clock w
  /\ timers r.2 = timers w /\ network r.2 = network w
  /\ (localStorage r.2 = localStorage w
      \/ localStorage r.2 = delete App.SESSION_KEY (localStorage w)).
Proof.
  unfold App.getSession.
  destruct (localStorage w !! App.SESSION_KEY) as [sessionData|]; simpl;
    [|by repeat split; try left].
  destruct (Js.is_empty sessionData); simpl; [by repeat split; try left|].
  destruct (Js.parse sessionData) as [[session|v]|]; simpl.
  - destruct (App.unexpired Date_parse session w); simpl;
      repeat split; try done; first [by left|by right].
  - destruct v; simpl; repeat split; try done; first [by left|by right].
  - repeat split; try done. by left.
Qed.

(** X20.  [getSession] returns a session only when the stored text is
    that of an object whose [expires] lies after the present moment, and
    then it changes nothing.  When it returns [null] the key is gone
    afterwards, unless there was no text to begin with or the text could
    not be used at all (see X21).  In every case the other keys of the
    storage, among them the one of the auto-save service, are left alone,
    and asking again gives the same answer and the same storage. *)
Theorem X20_session_is_returned_only_before_it_expires w :
  let r := App.getSession Date_parse w in
  (forall key, key <> App.SESSION_KEY ->
               localStorage r.2 !! key = localStorage w !! key)
  /\ localStorage r.2 !! STORAGE_KEY = localStorage w !! STORAGE_KEY
  /\ (forall session,
        r.1 = Some session ->
        r.2 = w
        /\ (exists sessionData,
              localStorage w !! App.SESSION_KEY = Some sessionData
              /\ Js.parse sessionData = Some (Js.Object session))
        /\ exists t, App.time_value Date_parse (Js.get "expires" session) = Some t
                     /\ clock w < t)
  /\ (r.1 = None ->
      localStorage r.2 !! App.SESSION_KEY = None
      \/ (localStorage r.2 = localStorage w
          /\ forall sessionData,
               localStorage w !! App.SESSION_KEY = Some sessionData ->
               Js.is_empty sessionData = true
               \/ Js.parse sessionData = None
               \/ Js.parse sessionData = Some (Js.Atom Js.Null)))
  /\ (App.getSession Date_parse r.2).1 = r.1
  /\ localStorage (App.getSession Date_parse r.2).2 = localStorage r.2.
Proof.
  intros r.
  assert (forall key, key <> App.SESSION_KEY ->
                      localStorage r.2 !! key = localStorage w !! key) as Hothers.
  { intros key Hkey. pose proof (getSession_frame w) as H. cbv zeta in H. fold r in H.
    destruct H as (_ & _ & _ & _ & _ & [-> | ->]); [done|].
    by rewrite lookup_delete_ne. }
  split; [exact Hothers|]. split; [by apply Hothers|].
  assert (forall w1, localStorage w1 !! App.SESSION_KEY = None ->
            App.getSession Date_parse w1 = (None, w1)) as Hgone.
  { intros w1 H1. unfold App.getSession. by rewrite H1. }
  clear Hothers. subst r.
  destruct (localStorage w !! App.SESSION_KEY) as [sessionData|] eqn:Hstored.
  2: { rewrite !(Hgone w) by done. simpl. rewrite Hgone by done.
       split_and!; try done. intros _. by left. }
  destruct (Js.is_empty sessionData) eqn:Hempty.
  { assert (App.getSession Date_parse w = (None, w)) as Hcall
      by (unfold App.getSession; by rewrite Hstored, Hempty).
    rewrite !Hcall. simpl. rewrite Hcall.
    split_and!; try done. intros _. right. split; [done|]. intros ? [= <-]. by left. }
  destruct (Js.parse sessionData) as [[session|v]|] eqn:Hparse.
  - destruct (App.unexpired Date_parse session w) eqn:Hvalid.
    + assert (App.getSession Date_parse w = (Some session, w)) as Hcall
        by (unfold App.getSession; by rewrite Hstored, Hempty, Hparse, Hvalid).
      rewrite !Hcall. simpl. rewrite Hcall.
      split_and!; try done.
      intros ? [= <-]. split; [done|]. split; [by eexists|].
      unfold App.unexpired in Hvalid. apply andb_true_iff in Hvalid as [_ Ht].
      destruct (App.time_value _ _) as [t|]; [|done].
      exists t. split; [done|]. by apply Z.ltb_lt.
    + assert (App.getSession Date_parse w = (None, App.removeSession w)) as Hcall
        by (unfold App.getSession; by rewrite Hstored, Hempty, Hparse, Hvalid).
      rewrite !Hcall. simpl. rewrite Hgone by (simpl; apply lookup_delete_eq).
      split_and!; try done. intros _. left. apply lookup_delete_eq.
  - assert (v = Js.Null \/ v <> Js.Null) as [->|Hv] by (destruct v; eauto).
    + assert (forall w1, localStorage w1 = localStorage w ->
                App.getSession Date_parse w1
                = (None, log (ConsoleError "Error getting session:") w1)) as Hcall.
      { intros w1 H1. unfold App.getSession. by rewrite H1, Hstored, Hempty, Hparse. }
      rewrite !(Hcall w) by done. simpl. rewrite Hcall by done.
      split_and!; try done. intros _. right. split; [done|].
      intros ? [= <-]. right. by right.
    + assert (App.getSession Date_parse w = (None, App.removeSession w)) as Hcall
        by (unfold App.getSession; rewrite Hstored, Hempty, Hparse; by destruct v).
      rewrite !Hcall. simpl. rewrite Hgone by (simpl; apply lookup_delete_eq).
      split_and!; try done. intros _. left. apply lookup_delete_eq.
  - assert (forall w1, localStorage w1 = localStorage w ->
              App.getSession Date_parse w1
              = (None, log (ConsoleError "Error getting session:") w1)) as Hcall.
    { intros w1 H1. unfold App.getSession. by rewrite H1, Hstored, Hempty, Hparse. }
    rewrite !(Hcall w) by done. simpl. rewrite Hcall by done.
    split_and!; try done. intros _. right. split; [done|].
    intros ? [= <-]. right. by left.
Qed.

(** X21.  Text under the session key that is not JSON, or that is the
    JSON [null], is never cleaned up: every call of [getSession] finds it
    again, logs an error, returns [null] and leaves it where it is. *)
Theorem X21_unusable_session_text_is_kept sessionData calls w :
  localStorage w !! App.SESSION_KEY = Some sessionData ->
  Js.is_empty sessionData = false ->
  Js.parse sessionData = None \/ Js.parse sessionData = Some (Js.Atom Js.Null) ->
  let w' := Nat.iter calls (fun w1 => (App.getSession Date_parse w1).2) w in
  (App.getSession Date_parse w').1 = None
  /\ localStorage w' = localStorage w
  /\ trace w' = trace w ++ repeat (ConsoleError "Error getting session:") calls.
Proof.
  intros Hstored Hfull Hbad.
  assert (forall w1, localStorage w1 = localStorage w ->
            App.getSession Date_parse w1
            = (None, log (ConsoleError "Error getting session:") w1)) as Hcall.
  { intros w1 Hw1. unfold App.getSession. rewrite Hw1, Hstored, Hfull.
    by destruct Hbad as [-> | ->]. }
  induction calls as [|calls IH]; simpl.
  - rewrite Hcall by done. by rewrite app_nil_r.
  - destruct IH as (_ & Hst & Htr). rewrite !Hcall by (by rewrite ?Hcall). simpl.
    repeat split; try done. rewrite Htr, <- app_assoc. f_equal.
    change (repeat ?e calls ++ [?e]) with (repeat e calls ++ repeat e 1).
    rewrite <- repeat_app. by rewrite Nat.add_1_r.
Qed.

End Session.

Lemma X21_witness :
  let w := Sample.world_at 5000 (Sample.updateForm "a@b.in")
             {[ App.SESSION_KEY := Js.Malformed 0 ]} [] in
  (localStorage w !! App.SESSION_KEY = Some (Js.Malformed 0)
   /\ Js.is_empty (Js.Malformed 0) = false
   /\ (Js.parse (Js.Malformed 0) = None
       \/ Js.parse (Js.Malformed 0) = Some (Js.Atom Js.Null)))
  /\ localStorage (Nat.iter 2 (fun w1 => (App.getSession (fun _ => None) w1).2) w)
     = localStorage w.
Proof.
  intros w. split; [split; [reflexivity|split; [reflexivity|by left]]|].
  apply (X21_unusable_session_text_is_kept (fun _ => None) (Js.Malformed 0) 2 w);
    [reflexivity|reflexivity|by left].
Defined.

(** X22.  [getCsrfToken] of the application asks once and takes a reply
    that says [success] at its word: the token of the application becomes
    whatever the reply holds under [csrfToken], [undefined] when the reply
    has no such entry, and no error is raised.  Any other answer, and no
    answer, keeps the token and raises the error alert. *)
Theorem X22_application_token_follows_the_reply st w :
  let r := App.getCsrfToken st w in
  List.filter asks_token (trace r.2) = List.filter asks_token (trace w) ++ [Fetched Net.GetCsrfToken]
  /\ localStorage r.2 = localStorage w
  /\ App.activeForm r.1 = App.activeForm st
  /\ App.currentUser r.1 = App.currentUser st
  /\ (if reports_success (next_reply w)
      then (forall ok data, next_reply w = Net.Reply ok data ->
              App.csrfToken r.1 = Js.get "csrfToken" data)
           /\ List.filter is_alert (trace r.2) = List.filter is_alert (trace w)
           /\ network r.2 = tail (network w)
      else r.1 = st
           /\ exists message,
                List.filter is_alert (trace r.2)
                = List.filter is_alert (trace w) ++ [ErrorAlert message]).
Proof.
  intros r. subst r. unfold App.getCsrfToken, reports_success. unfold_ops.
  cbv zeta. simpl.
  destruct (next_reply w) as [|ok data]; simpl.
  - destruct (App.production st); simpl; rewrite !List.filter_app; simpl;
      rewrite ?app_nil_r; repeat split; try done; by eexists.
  - destruct (Js.truthy (Js.get "success" data)); simpl.
    + rewrite !List.filter_app; simpl; rewrite ?app_nil_r.
      repeat split; try done. by intros ? ? [= _ <-].
    + destruct (App.production st); simpl; rewrite !List.filter_app; simpl;
        rewrite ?app_nil_r; repeat split; try done; by eexists.
Qed.

(* ===================================================================== *)
(** ** The notice boxes *)
(* ===================================================================== *)

Lemma filter_handle_absent h (ts : list timer) :
  existsb (fun t => (handle t =? h)%nat) ts = false ->
  List.filter (fun t => bool_decide (handle t <> h)) ts = ts.
Proof.
  induction ts as [|t ts IH]; simpl; [done|].
  intros H. apply orb_false_iff in H as [Ht Hts].
  apply Nat.eqb_neq in Ht. rewrite bool_decide_true by done. by rewrite IH.
Qed.

Lemma fire_hide t w :
  is_hide t = true ->
  let w' := fire t w in
  clock w' = clock w
  /\ timers w' = List.filter (fun t' => bool_decide (handle t' <> handle t)) (timers w)
  /\ (indicator_shown w = false -> indicator_shown w' = false)
  /\ (action t = HideIndicator -> pending (handle t) w = true ->
      indicator_shown w' = false).
Proof.
  intros Hhide. unfold fire, pending.
  destruct (existsb _ (timers w)) eqn:Hp; cbv zeta.
  - unfold is_hide in Hhide. unfold indicator_shown.
    destruct (action t); try done; simpl;
      destruct (Dom.autoSaveIndicator (document w)); by repeat split.
  - rewrite filter_handle_absent by done. by repeat split.
Qed.

Lemma pending_filter h h' (ts : list timer) :
  h <> h' ->
  existsb (fun t => (handle t =? h)%nat)
          (List.filter (fun t' => bool_decide (handle t' <> h')) ts)
  = existsb (fun t => (handle t =? h)%nat) ts.
Proof.
  intros Hne. induction ts as [|t ts IH]; simpl; [done|].
  case_bool_decide as Ht; simpl; [by rewrite IH|].
  rewrite IH.
  destruct (Nat.eqb_spec (handle t) h); [congruence|done].
Qed.

Lemma fold_fire_hide due_now w :
  Forall (fun t => is_hide t = true) due_now ->
  NoDup (map handle due_now) ->
  let w' := fold_left (fun w1 t => fire t w1) due_now w in
  clock w' = clock w
  /\ timers w'
     = List.filter
         (fun t' => forallb (fun t => bool_decide (handle t' <> handle t)) due_now)
         (timers w)
  /\ (indicator_shown w = false -> indicator_shown w' = false)
  /\ (forall t0, In t0 due_now -> action t0 = HideIndicator ->
        pending (handle t0) w = true -> indicator_shown w' = false).
Proof.
  intros Hhide. revert w.
  induction Hhide as [|t due_now Ht Hhide IH]; intros w Hnd; simpl.
  - split; [done|]. split; [|by split].
    induction (timers w) as [|t ts IHts]; simpl; [done|]. by rewrite <- IHts.
  - apply NoDup_cons in Hnd as [Hfresh Hnd].
    destruct (fire_hide t w Ht) as (Hc & Hts & Hkeep & Hhit). cbv zeta in *.
    destruct (IH (fire t w) Hnd) as (Hc' & Hts' & Hkeep' & Hhit'). cbv zeta in *.
    split; [congruence|]. split; [|split].
    + rewrite Hts', Hts. clear.
      induction (timers w) as [|t' ts IHts]; simpl; [done|].
      destruct (bool_decide (handle t' <> handle t)); simpl; [|done].
      destruct (forallb _ due_now); simpl; by rewrite IHts.
    + auto.
    + intros t0 [<-|Hin] Haction Hpending; [by apply Hkeep', Hhit|].
      apply (Hhit' t0 Hin Haction). unfold pending in *. rewrite Hts.
      rewrite pending_filter; [done|].
      intros Heq. apply Hfresh. rewrite <- Heq.
      apply list_elem_of_In, in_map. done.
Qed.

Lemma same_handle_same_timer (ts : list timer) a b :
  NoDup (map handle ts) -> In a ts -> In b ts -> handle a = handle b -> a = b.
Proof.
  induction ts as [|t ts IH]; simpl; [done|].
  intros Hnd Ha Hb Heq. apply NoDup_cons in Hnd as [Ht Hnd].
  destruct Ha as [->|Ha], Hb as [->|Hb]; [done| | |by apply IH].
  - exfalso. apply Ht. rewrite Heq. by apply list_elem_of_In, in_map.
  - exfalso. apply Ht. rewrite <- Heq. by apply list_elem_of_In, in_map.
Qed.

Lemma tick_hide w :
  NoDup (map handle (timers w)) ->
  only_hiding_until (clock w + 1) w ->
  let w' := tick w in
  clock w' = clock w + 1
  /\ NoDup (map handle (timers w'))
  /\ (forall t, In t (timers w') -> In t (timers w))
  /\ (forall t, In t (timers w) -> clock w + 1 < due t -> In t (timers w'))
  /\ (indicator_shown w = false -> indicator_shown w' = false)
  /\ (forall t0, In t0 (timers w) -> action t0 = HideIndicator ->
        due t0 <= clock w + 1 -> indicator_shown w' = false).
Proof.
  intros Hnd Honly w'. subst w'.
  change (tick w)
    with (fold_left (fun w' t => fire t w')
            (List.filter (fun t => due t <=? clock w + 1) (timers w))
            (with_clock (clock w + 1) w)).
  set (due_now := List.filter (fun t => due t <=? clock w + 1) (timers w)).
  assert (Forall (fun t => is_hide t = true) due_now) as Hhide.
  { apply List.Forall_forall. intros t Hin. apply filter_In in Hin as [Hin Hdue].
    unfold only_hiding_until in Honly. rewrite List.Forall_forall in Honly.
    apply Honly; [done|]. by apply Z.leb_le. }
  assert (NoDup (map handle due_now)) as Hnd' by by apply NoDup_map_filter.
  destruct (fold_fire_hide due_now (with_clock (clock w + 1) w) Hhide Hnd')
    as (Hc & Hts & Hkeep & Hhit). cbv zeta in *. simpl in Hc, Hts.
  split; [done|]. split; [|split; [|split; [|split]]].
  - rewrite Hts. by apply NoDup_map_filter.
  - intros t. rewrite Hts. intros Hin. by apply filter_In in Hin as [Hin _].
  - intros t Hin Hlater. rewrite Hts. apply filter_In. split; [done|].
    apply forallb_forall. intros t' Hin'. apply bool_decide_eq_true.
    intros Heq. apply filter_In in Hin' as [Hin' Hdue]. apply Z.leb_le in Hdue.
    assert (t = t') as -> by by apply (same_handle_same_timer (timers w)). lia.
  - exact Hkeep.
  - intros t0 Hin Haction Hdue. apply (Hhit t0); [|done|].
    + apply filter_In. split; [done|]. by apply Z.leb_le.
    + unfold pending. simpl. apply existsb_exists. exists t0. split; [done|].
      apply Nat.eqb_refl.
Qed.

Lemma advance_hide n w :
  NoDup (map handle (timers w)) ->
  only_hiding_until (clock w + Z.of_nat n) w ->
  indicator_shown w = false
  \/ (exists t0, In t0 (timers w) /\ action t0 = HideIndicator
                 /\ clock w < due t0 <= clock w + Z.of_nat n) ->
  indicator_shown (advance n w) = false.
Proof.
  revert w. induction n as [|n IH]; intros w Hnd Honly Hcase.
  - destruct Hcase as [H|(t0 & _ & _ & H)]; [done|lia].
  - simpl advance.
    assert (only_hiding_until (clock w + 1) w) as Honly1.
    { unfold only_hiding_until in *. eapply Forall_impl; [exact Honly|].
      intros t Ht Hdue. apply Ht. lia. }
    destruct (tick_hide w Hnd Honly1) as (Hc & Hnd' & Hsub & Hstay & Hkeep & Hhit).
    cbv zeta in *. apply IH; [done| |].
    + unfold only_hiding_until in *. apply List.Forall_forall. intros t Hin Hdue.
      rewrite List.Forall_forall in Honly. apply Honly; [by apply Hsub|]. lia.
    + destruct Hcase as [H|(t0 & Hin & Haction & Hdue)]; [left; by apply Hkeep|].
      destruct (Z.le_gt_cases (due t0) (clock w + 1)) as [Hnow|Hlater].
      * left. by apply (Hhit t0).
      * right. exists t0. split; [by apply Hstay|]. split; [done|]. lia.
Qed.

(** X23.  Showing a notice does not cancel the timer of an earlier one:
    [showAutoSaveIndicator] and [showAutoRestoreIndicator] set a new timer
    and leave the old ones pending.  So a notice that is shown while an
    earlier hide timer is still pending disappears when that timer comes
    due, however short a time it has been on the screen (no save or retry
    running in between), and not 3000 ms after it was shown. *)
Theorem X23_notice_is_hidden_by_the_oldest_timer message ms t0 w :
  handles_fresh w ->
  In t0 (timers w) ->
  action t0 = HideIndicator ->
  clock w < due t0 ->
  due t0 = clock w + Z.of_nat ms ->
  only_hiding_until (due t0) w ->
  let shown := show_indicator message w in
  Dom.autoSaveIndicator (document shown) = Some (Dom.Banner message true)
  /\ timers shown
     = timers w ++ [Timer (nextTimer w) (clock w + 3000) HideIndicator]
  /\ indicator_shown (advance ms shown) = false.
Proof.
  intros Hfresh Hin Haction Hfuture Hdue Honly shown.
  split; [done|]. split; [done|].
  apply advance_hide.
  - apply (setTimeout_handles_fresh HideIndicator 3000
             (with_document
                (Dom.with_indicator
                   (Some (show message
                            (default createAutoSaveIndicator
                               (Dom.autoSaveIndicator (document w)))))
                   (document w)) w)).
    exact Hfresh.
  - unfold only_hiding_until, shown, show_indicator. simpl.
    apply Forall_app. split; [by rewrite <- Hdue|]. by repeat constructor.
  - right. exists t0. split; [|split; [done|]].
    + unfold shown, show_indicator. simpl. apply in_or_app. by left.
    + unfold shown, show_indicator. simpl. lia.
Qed.

Lemma X23_witness :
  let w := show_indicator "Changes saved locally"
             (Sample.world_at 0 (Sample.updateForm "a@b.in") ∅ []) in
  let later := with_clock 2000 w in
  (handles_fresh later
   /\ In (Timer 1 3000 HideIndicator) (timers later)
   /\ clock later < 3000
   /\ 3000 = clock later + Z.of_nat 1000
   /\ only_hiding_until 3000 later)
  /\ indicator_shown (advance 1000 (show_indicator "Restored previous session" later))
     = false.
Proof.
  intros w later.
  assert (handles_fresh later) as Hfresh.
  { split; simpl; [apply NoDup_singleton|]. repeat constructor. }
  assert (only_hiding_until 3000 later) as Honly by (by repeat constructor).
  split; [split; [exact Hfresh|split; [by left|split; [reflexivity|split; [reflexivity|exact Honly]]]]|].
  apply (X23_notice_is_hidden_by_the_oldest_timer "Restored previous session" 1000
           (Timer 1 3000 HideIndicator) later Hfresh);
    [by left|reflexivity|reflexivity|reflexivity|exact Honly].
Defined.

(* ===================================================================== *)
(** ** File-name indicators after a restoration *)
(* ===================================================================== *)

Lemma fold_mark_uploaded formData slots d :
  let d' := fold_left (mark_uploaded formData) slots d in
  (forall lid,
     Dom.labels d' !! lid
     = (fun l => if relabelled formData slots lid then previously_uploaded l else l)
         <$> Dom.labels d !! lid)
  /\ Dom.autoSaveIndicator d' = Dom.autoSaveIndicator d
  /\ Dom.autoSaveError d' = Dom.autoSaveError d.
Proof.
  revert d. induction slots as [|slot slots IH]; intros d; simpl.
  - split; [|done]. intros lid. by destruct (Dom.labels d !! lid).
  - destruct (IH (mark_uploaded formData d slot)) as (Hl & Hi & He). cbv zeta in Hl.
    assert (Dom.autoSaveIndicator (mark_uploaded formData d slot)
            = Dom.autoSaveIndicator d
            /\ Dom.autoSaveError (mark_uploaded formData d slot) = Dom.autoSaveError d)
      as [Hi' He'].
    { unfold mark_uploaded, Dom.set_label.
      destruct (Js.truthy _); [|done]. by destruct (Dom.labels d !! _). }
    split; [|split; congruence].
    intros lid. rewrite Hl. unfold mark_uploaded.
    destruct (Js.truthy (Js.get slot (props formData))) eqn:Htruthy.
    + rewrite set_label_lookup.
      destruct (String.eqb_spec (slot ++ "Name") lid) as [->|Hne]; simpl.
      * rewrite decide_True by done. destruct (Dom.labels d !! lid) as [l|]; [|done].
        simpl. by destruct (relabelled formData slots lid).
      * by rewrite decide_False by done.
    + by rewrite andb_false_r.
Qed.

Lemma restoreSavedData_cases w :
  match restores w with
  | Some (target, elements) =>
      exists savedData formData,
        localStorage w !! STORAGE_KEY = Some savedData
        /\ Js.parse savedData = Some formData
        /\ restoreSavedData w = Normal (write_back target formData elements w)
  | None =>
      after (restoreSavedData w) = w
      \/ after (restoreSavedData w)
         = log (ConsoleError "Failed to restore saved data:") w
  end.
Proof.
  unfold restoreSavedData, restore_body, restores, restore_into. cbv zeta.
  destruct (localStorage w !! STORAGE_KEY) as [[|layout formData|n]|] eqn:Hst;
    [by left| |by right|by left].
  destruct formData as [o|[]];
    cbn -[restore_elements write_back restore_target Dom.getElementById isFormFilled];
    try (by right);
    (destruct (Dom.getElementById _ _) as [form|]; [|by left];
     destruct (isFormFilled w); [by left|];
     destruct (restore_elements _ _) as [elements|];
     cbn -[restore_elements write_back restore_target];
     [by eexists _, _|by right]).
Qed.

(** X24.  A restoration that goes through relabels the file-name
    indicators of exactly those of the four upload slots under which the
    snapshot holds something truthy, to [Previously uploaded] (their
    [loading] class is left as it is); it shows the notice of a restored
    session and sets the timer that hides it.  A restoration that is
    skipped or fails leaves the document and the timers alone. *)
Theorem X24_restoration_relabels_the_uploaded_slots w :
  let w' := after (restoreSavedData w) in
  match restores w with
  | Some _ =>
      (forall savedData formData lid,
         localStorage w !! STORAGE_KEY = Some savedData ->
         Js.parse savedData = Some formData ->
         Dom.labels (document w') !! lid
         = (fun l => if relabelled formData upload_slots lid
                     then previously_uploaded l else l)
             <$> Dom.labels (document w) !! lid)
      /\ Dom.autoSaveIndicator (document w')
         = Some (Dom.Banner "Restored previous session" true)
      /\ Dom.autoSaveError (document w') = Dom.autoSaveError (document w)
      /\ timers w' = timers w ++ [Timer (nextTimer w) (clock w + 3000) HideIndicator]
  | None => document w' = document w /\ timers w' = timers w
  end.
Proof.
  intros w'. subst w'. pose proof (restoreSavedData_cases w) as Hcases.
  destruct (restores w) as [[target elements]|].
  - destruct Hcases as (savedData & formData & Hst & Hparse & ->). simpl after.
    unfold write_back. unfold_ops. cbv zeta.
    set (d1 := Dom.set_elements _ _ _).
    destruct (fold_mark_uploaded formData upload_slots d1) as (Hl & Hi & He).
    cbv zeta in Hl. cbn -[upload_slots relabelled].
    split; [|by rewrite He].
    intros ? ? lid. rewrite Hst. intros [= <-]. rewrite Hparse. intros [= <-].
    by rewrite Hl.
  - by destruct Hcases as [-> | ->].
Qed.

(* ===================================================================== *)
(** ** Uploads and the token *)
(* ===================================================================== *)

(** X25.  An upload goes out with whatever token the service holds at
    that moment, [null] included: unlike [syncToServer], [handleFileUpload]
    never asks for a token first.  Of the files chosen only the first is
    sent, in one request, which is the only request of the call. *)
Theorem X25_upload_sends_the_token_at_hand fileInput file others w :
  enabled (this w) = true ->
  El.files fileInput = file :: others ->
  let w' := handleFileUpload fileInput w in
  List.filter is_fetch (trace w')
  = List.filter is_fetch (trace w)
    ++ [Fetched (Net.UploadFile file (csrfToken (this w)))]
  /\ csrfToken (this w') = csrfToken (this w)
  /\ network w' = tail (network w).
Proof.
  intros Hon Hfiles. rewrite handleFileUpload_unfold. rewrite Hon, Hfiles. cbv zeta.
  unfold fetch. cbn -[Dom.set_label saveToLocalStorage].
  destruct (next_reply _) as [|[] data]; cbn -[Dom.set_label saveToLocalStorage];
    rewrite ?List.filter_app; simpl; rewrite ?app_nil_r; try done.
  set (w2 := with_network _ _). set (fd := Js.assign _ _ _).
  pose proof (saveToLocalStorage_frame fd w2) as H. cbv zeta in H.
  destruct H as (-> & _ & -> & _).
  split; [|done].
  unfold saveToLocalStorage. unfold_ops.
  destruct (storageFull w2); simpl; rewrite ?List.filter_app; simpl;
    by rewrite ?List.filter_app, ?app_nil_r.
Qed.

Lemma X25_witness :
  let w := with_this (Service 0 None (Some "membershipForm"%string) Js.Null true None)
             (Sample.world_at 0 (Sample.membershipForm "Asha" "a@b.in" false true [])
                ∅ [Sample.uploaded]) in
  (enabled (this w) = true
   /\ El.files (Sample.file_input "aadharFront" ["front.png"; "back.png"])
      = "front.png"%string :: ["back.png"%string])
  /\ List.filter is_fetch
       (trace (handleFileUpload
                 (Sample.file_input "aadharFront" ["front.png"; "back.png"]) w))
     = [Fetched (Net.UploadFile "front.png" Js.Null)].
Proof.
  intros w. split; [by split|].
  apply (X25_upload_sends_the_token_at_hand
           (Sample.file_input "aadharFront" ["front.png"; "back.png"])
           "front.png" ["back.png"%string] w); reflexivity.
Defined.
